(** * elevate-grow-backend: enrollment and payment core

    A shallow embedding of the service layer of the training-enrollment
    backend: [services/user.service.js], [services/admin.service.js],
    [services/auth.service.js] and the two controllers that filter request
    bodies ([controllers/user.controller.js], [controllers/auth.controller.js]).

    Vocabulary.  The code stores
      role               'user' | 'admin'
      enrollment status  'pending_payment' | 'enrolled' | 'completed'
      payment status     'pending_verification' | 'verified' | 'failed' | 'refunded'
    which the prose specification calls member/administrator,
    awaiting_payment/enrolled/completed and
    awaiting_verification/confirmed/rejected/refunded.

    Modelling choices.
    - A table is the list of its rows in storage order; [findFirst] without
      [orderBy] returns the first matching row of that list.
    - Timestamps are milliseconds since the epoch, in [Z]; every operation
      receives the reading [now] of [Date.now()] for the call.
    - Identifiers are strings; a [create] receives the identifier that the
      column default [uuid()] generates.
    - Amounts are integers (no arithmetic is performed on them).
    - Service functions run in a state-and-exception monad over the database
      which also records every committed database state, so that what another
      connection can observe is part of the model; [$transaction] commits once
      or not at all.
    - Logging ([logAuthEvent]) has no effect on the database and is omitted. *)

From stdpp Require Import base option list strings gmap pretty.
From Stdlib Require Import ZArith Lia.

Local Open Scope Z_scope.

(** ** JavaScript values carried by request bodies *)

Inductive JsVal : Type :=
  | JsUndefined
  | JsNull
  | JsBool (b : bool)
  | JsNum (n : Z)
  | JsStr (s : string).

Global Instance JsVal_eq_dec : EqDecision JsVal.
Proof. solve_decision. Defined.

(** Truthiness, as used by [!x], [x && y], [x || y] and [x ? a : b]. *)
Definition truthy (v : JsVal) : bool :=
  match v with
  | JsUndefined | JsNull => false
  | JsBool b => b
  | JsNum n => negb (n =? 0)
  | JsStr s => negb (bool_decide (s = EmptyString))
  end.

(** [v.toString()] for the values that have the method. *)
Definition toString (v : JsVal) : string :=
  match v with
  | JsStr s => s
  | JsNum n => pretty n
  | JsBool true => "true"
  | JsBool false => "false"
  | JsNull => "null"
  | JsUndefined => "undefined"
  end.

(** [v || null] *)
Definition or_null (v : JsVal) : JsVal := if truthy v then v else JsNull.

(** A JavaScript object used as a record of named values. *)
Abbreviation JsObject := (gmap string JsVal).

(** [o[k]]: a missing property reads as [undefined]. *)
Definition prop (o : JsObject) (k : string) : JsVal := default JsUndefined (o !! k).

(** [xs.includes(v)] on an array of string literals (strict equality). *)
Definition includes (xs : list string) (v : JsVal) : bool :=
  match v with
  | JsStr s => existsb (String.eqb s) xs
  | _ => false
  end.

(** [v === 'literal'] *)
Definition is_literal (s : string) (v : JsVal) : bool :=
  match v with
  | JsStr s' => String.eqb s' s
  | _ => false
  end.

(** ** Enumerations of the schema *)

Inductive Role : Type := user | admin.
Inductive Profession : Type := student | professional.
Inductive EnrollmentStatus : Type := pending_payment | enrolled | completed.
Inductive PaymentStatus : Type := pending_verification | verified | failed | refunded.

Global Instance Role_eq_dec : EqDecision Role.
Proof. solve_decision. Defined.
Global Instance Profession_eq_dec : EqDecision Profession.
Proof. solve_decision. Defined.
Global Instance EnrollmentStatus_eq_dec : EqDecision EnrollmentStatus.
Proof. solve_decision. Defined.
Global Instance PaymentStatus_eq_dec : EqDecision PaymentStatus.
Proof. solve_decision. Defined.

Definition Role_of_string (s : string) : option Role :=
  if String.eqb s "user" then Some user
  else if String.eqb s "admin" then Some admin
  else None.

Definition Profession_of_string (s : string) : option Profession :=
  if String.eqb s "student" then Some student
  else if String.eqb s "professional" then Some professional
  else None.

Definition EnrollmentStatus_of_string (s : string) : option EnrollmentStatus :=
  if String.eqb s "pending_payment" then Some pending_payment
  else if String.eqb s "enrolled" then Some enrolled
  else if String.eqb s "completed" then Some completed
  else None.

Definition PaymentStatus_of_string (s : string) : option PaymentStatus :=
  if String.eqb s "pending_verification" then Some pending_verification
  else if String.eqb s "verified" then Some verified
  else if String.eqb s "failed" then Some failed
  else if String.eqb s "refunded" then Some refunded
  else None.

(** ** Tables *)

Module User.
Record t : Type := mk {
  id : string;
  full_name : string;
  email : string;
  password : string;
  phone : option string;
  profession : option Profession;
  college : option string;
  company : option string;
  role : Role;
  is_admin : bool;
  created_at : Z;
  updated_at : Z
}.

Definition set_full_name (v : string) (u : t) : t :=
  mk (id u) v (email u) (password u) (phone u) (profession u) (college u)
     (company u) (role u) (is_admin u) (created_at u) (updated_at u).
Definition set_email (v : string) (u : t) : t :=
  mk (id u) (full_name u) v (password u) (phone u) (profession u) (college u)
     (company u) (role u) (is_admin u) (created_at u) (updated_at u).
Definition set_password (v : string) (u : t) : t :=
  mk (id u) (full_name u) (email u) v (phone u) (profession u) (college u)
     (company u) (role u) (is_admin u) (created_at u) (updated_at u).
Definition set_phone (v : option string) (u : t) : t :=
  mk (id u) (full_name u) (email u) (password u) v (profession u) (college u)
     (company u) (role u) (is_admin u) (created_at u) (updated_at u).
Definition set_profession (v : option Profession) (u : t) : t :=
  mk (id u) (full_name u) (email u) (password u) (phone u) v (college u)
     (company u) (role u) (is_admin u) (created_at u) (updated_at u).
Definition set_college (v : option string) (u : t) : t :=
  mk (id u) (full_name u) (email u) (password u) (phone u) (profession u) v
     (company u) (role u) (is_admin u) (created_at u) (updated_at u).
Definition set_company (v : option string) (u : t) : t :=
  mk (id u) (full_name u) (email u) (password u) (phone u) (profession u)
     (college u) v (role u) (is_admin u) (created_at u) (updated_at u).
Definition set_role (v : Role) (u : t) : t :=
  mk (id u) (full_name u) (email u) (password u) (phone u) (profession u)
     (college u) (company u) v (is_admin u) (created_at u) (updated_at u).
Definition set_is_admin (v : bool) (u : t) : t :=
  mk (id u) (full_name u) (email u) (password u) (phone u) (profession u)
     (college u) (company u) (role u) v (created_at u) (updated_at u).
Definition set_updated_at (v : Z) (u : t) : t :=
  mk (id u) (full_name u) (email u) (password u) (phone u) (profession u)
     (college u) (company u) (role u) (is_admin u) (created_at u) v.
End User.

Module TrainingProgram.
Record t : Type := mk {
  id : string;
  title : string;
  price : Z;
  is_active : bool
}.
End TrainingProgram.

Module Enrollment.
Record t : Type := mk {
  id : string;
  user_id : string;
  training_id : string;
  status : EnrollmentStatus;
  created_at : Z;
  updated_at : Z
}.

Definition set_status (v : EnrollmentStatus) (e : t) : t :=
  mk (id e) (user_id e) (training_id e) v (created_at e) (updated_at e).
Definition set_updated_at (v : Z) (e : t) : t :=
  mk (id e) (user_id e) (training_id e) (status e) (created_at e) v.
End Enrollment.

Module Payment.
Record t : Type := mk {
  id : string;
  user_id : string;
  training_id : string;
  amount : Z;
  payment_method : string;
  transaction_reference : option string;
  status : PaymentStatus;
  created_at : Z;
  updated_at : Z
}.

Definition set_status (v : PaymentStatus) (p : t) : t :=
  mk (id p) (user_id p) (training_id p) (amount p) (payment_method p)
     (transaction_reference p) v (created_at p) (updated_at p).
Definition set_transaction_reference (v : option string) (p : t) : t :=
  mk (id p) (user_id p) (training_id p) (amount p) (payment_method p)
     v (status p) (created_at p) (updated_at p).
Definition set_updated_at (v : Z) (p : t) : t :=
  mk (id p) (user_id p) (training_id p) (amount p) (payment_method p)
     (transaction_reference p) (status p) (created_at p) v.
End Payment.

Global Instance User_eq_dec : EqDecision User.t.
Proof. solve_decision. Defined.
Global Instance Enrollment_eq_dec : EqDecision Enrollment.t.
Proof. solve_decision. Defined.
Global Instance Payment_eq_dec : EqDecision Payment.t.
Proof. solve_decision. Defined.

(** The database: the four tables the modelled services touch. *)
Record Db : Type := mkDb {
  users : list User.t;
  training_programs : list TrainingProgram.t;
  enrollments : list Enrollment.t;
  payments : list Payment.t
}.

Definition set_users (f : list User.t → list User.t) (d : Db) : Db :=
  mkDb (f (users d)) (training_programs d) (enrollments d) (payments d).
Definition set_enrollments (f : list Enrollment.t → list Enrollment.t) (d : Db) : Db :=
  mkDb (users d) (training_programs d) (f (enrollments d)) (payments d).
Definition set_payments (f : list Payment.t → list Payment.t) (d : Db) : Db :=
  mkDb (users d) (training_programs d) (enrollments d) (f (payments d)).

(** ** The service monad *)

(** What a service function throws: [new Error(message)], or a Prisma
    request error carrying a [code]. *)
Inductive Error : Type :=
  | JsError (message : string)
  | PrismaError (code : string).

Inductive Outcome (A : Type) : Type :=
  | Return (a : A)
  | Throw (e : Error).
Arguments Return {A} a.
Arguments Throw {A} e.

(** The result of running a computation: its outcome, the database it leaves
    and the database states it committed on the way, oldest first. *)
Record Run (A : Type) : Type := mkRun {
  outcome : Outcome A;
  db_after : Db;
  commits : list Db
}.
Arguments mkRun {A} _ _ _.
Arguments outcome {A} _.
Arguments db_after {A} _.
Arguments commits {A} _.

Definition M (A : Type) : Type := Db → Run A.

Global Instance M_ret : MRet M := λ A a d, mkRun (Return a) d [].

Global Instance M_bind : MBind M := λ A B k m d,
  match m d with
  | mkRun (Return a) d1 c1 =>
      match k a d1 with
      | mkRun o d2 c2 => mkRun o d2 (c1 ++ c2)
      end
  | mkRun (Throw e) d1 c1 => mkRun (Throw e) d1 c1
  end.

Definition throw {A} (e : Error) : M A := λ d, mkRun (Throw e) d [].

(** [try { m } catch (error) { h error }] *)
Definition try_catch {A} (m : M A) (h : Error → M A) : M A := λ d,
  match m d with
  | mkRun (Return a) d1 c1 => mkRun (Return a) d1 c1
  | mkRun (Throw e) d1 c1 =>
      match h e d1 with
      | mkRun o d2 c2 => mkRun o d2 (c1 ++ c2)
      end
  end.

(** A read of the database. *)
Definition query {A} (f : Db → A) : M A := λ d, mkRun (Return (f d)) d [].

(** A single write statement outside a transaction: committed at once. *)
Definition execute (f : Db → Db) : M unit := λ d, mkRun (Return tt) (f d) [f d].

(** [prisma.$transaction(async (tx) => body)]: the writes of [body] become
    visible together when it returns, and are rolled back when it throws. *)
Definition transaction {A} (body : M A) : M A := λ d,
  match body d with
  | mkRun (Return a) d1 _ => mkRun (Return a) d1 [d1]
  | mkRun (Throw e) _ _ => mkRun (Throw e) d []
  end.

(** Every database state another connection can see while [m] runs from [d]. *)
Definition observable {A} (m : M A) (d : Db) : list Db := d :: commits (m d).

(** ** The Prisma client

    What the services use of the client, against the schema of
    [prisma/migrations]: primary keys, the unique indexes on [users.email] and
    on [enrollments(user_id, training_id)], the foreign keys of enrollments and
    payments, and [updated_at] maintained on every update. *)

(** Codes of the request errors the services can meet. *)
Definition P2002 : Error := PrismaError "P2002". (* unique constraint failed *)
Definition P2003 : Error := PrismaError "P2003". (* foreign key constraint failed *)
Definition P2025 : Error := PrismaError "P2025". (* record to update not found *)
(** A [data] or [where] argument that does not fit the schema. *)
Definition PrismaClientValidationError : Error := PrismaError "PrismaClientValidationError".

(** [UPDATE ... WHERE P]: every row satisfying [P] is rewritten. *)
Definition update_where {A} (P : A → bool) (f : A → A) (rows : list A) : list A :=
  map (λ r, if P r then f r else r) rows.

Definition exists_row {A} (P : A → bool) (rows : list A) : bool := existsb P rows.

(** Assignment of one column from a JavaScript value; [undefined] leaves the
    column alone, a value of the wrong type is refused. *)
Definition column_string {R} (set : string → R → R) (v : JsVal) : option (R → R) :=
  match v with
  | JsUndefined => Some (λ r, r)
  | JsStr s => Some (set s)
  | _ => None
  end.

Definition column_string_null {R} (set : option string → R → R) (v : JsVal)
  : option (R → R) :=
  match v with
  | JsUndefined => Some (λ r, r)
  | JsNull => Some (set None)
  | JsStr s => Some (set (Some s))
  | _ => None
  end.

Definition column_profession_null {R} (set : option Profession → R → R) (v : JsVal)
  : option (R → R) :=
  match v with
  | JsUndefined => Some (λ r, r)
  | JsNull => Some (set None)
  | JsStr s => p ← Profession_of_string s; Some (set (Some p))
  | _ => None
  end.

Definition column_role {R} (set : Role → R → R) (v : JsVal) : option (R → R) :=
  match v with
  | JsUndefined => Some (λ r, r)
  | JsStr s => p ← Role_of_string s; Some (set p)
  | _ => None
  end.

Definition column_bool {R} (set : bool → R → R) (v : JsVal) : option (R → R) :=
  match v with
  | JsUndefined => Some (λ r, r)
  | JsBool b => Some (set b)
  | _ => None
  end.

(** The columns of [users] a [data] object may name. *)
Definition user_columns : list string :=
  ["full_name"; "email"; "password"; "phone"; "profession"; "college";
   "company"; "role"; "is_admin"]%string.

(** The row transformation a [data] object denotes, when it fits the schema. *)
Definition user_data (data : JsObject) : option (User.t → User.t) :=
  if bool_decide (map_Forall (λ k _, k ∈ user_columns) data) then
    f1 ← column_string User.set_full_name (prop data "full_name");
    f2 ← column_string User.set_email (prop data "email");
    f3 ← column_string User.set_password (prop data "password");
    f4 ← column_string_null User.set_phone (prop data "phone");
    f5 ← column_profession_null User.set_profession (prop data "profession");
    f6 ← column_string_null User.set_college (prop data "college");
    f7 ← column_string_null User.set_company (prop data "company");
    f8 ← column_role User.set_role (prop data "role");
    f9 ← column_bool User.set_is_admin (prop data "is_admin");
    Some (λ u, f9 (f8 (f7 (f6 (f5 (f4 (f3 (f2 (f1 u)))))))))
  else None.

(** A required column of a [create] must be given as a string. *)
Definition required_string (v : JsVal) : bool :=
  match v with JsStr _ => true | _ => false end.

Module prisma.

Module user.
Definition findUnique (P : User.t → bool) : M (option User.t) :=
  query (λ d, List.find P (users d)).

(** [prisma.user.update({ where: { id }, data })].  No service passes
    [email] to an update, so the unique index on it is checked by [create]
    only. *)
Definition update (id : string) (data : JsObject) (now : Z) : M User.t := λ d,
  match user_data data with
  | None => throw PrismaClientValidationError d
  | Some f =>
      let here := λ u, bool_decide (User.id u = id) in
      match List.find here (users d) with
      | None => throw P2025 d
      | Some u =>
          let u' := User.set_updated_at now (f u) in
          (execute (set_users (update_where here (λ r, User.set_updated_at now (f r))));;
           mret u') d
      end
  end.

(** [prisma.user.create({ data })]; [role] and [is_admin] default to
    ['user'] and [false] when [data] does not give them. *)
Definition create (uuid : string) (data : JsObject) (now : Z) : M User.t := λ d,
  match user_data data with
  | None => throw PrismaClientValidationError d
  | Some f =>
      if required_string (prop data "full_name")
         && required_string (prop data "email")
         && required_string (prop data "password")
      then
        let u := f (User.mk uuid EmptyString EmptyString EmptyString None None None None user false now now) in
        if exists_row (λ r, bool_decide (User.id r = User.id u)
                            || bool_decide (User.email r = User.email u)) (users d)
        then throw P2002 d
        else (execute (set_users (λ rows, rows ++ [u]));; mret u) d
      else throw PrismaClientValidationError d
  end.
End user.

Module trainingProgram.
Definition findFirst (P : TrainingProgram.t → bool) : M (option TrainingProgram.t) :=
  query (λ d, List.find P (training_programs d)).
End trainingProgram.

Module enrollment.
Definition findFirst (P : Enrollment.t → bool) : M (option Enrollment.t) :=
  query (λ d, List.find P (enrollments d)).
Definition findUnique := findFirst.

(** [prisma.enrollment.create({ data: { user_id, training_id, status } })] *)
Definition create (uuid user_id training_id : string) (status : EnrollmentStatus)
    (now : Z) : M Enrollment.t := λ d,
  if exists_row (λ r, bool_decide (Enrollment.id r = uuid)
                      || (bool_decide (Enrollment.user_id r = user_id)
                          && bool_decide (Enrollment.training_id r = training_id)))
       (enrollments d)
  then throw P2002 d
  else if exists_row (λ u, bool_decide (User.id u = user_id)) (users d)
          && exists_row (λ t, bool_decide (TrainingProgram.id t = training_id))
               (training_programs d)
  then
    let e := Enrollment.mk uuid user_id training_id status now now in
    (execute (set_enrollments (λ rows, rows ++ [e]));; mret e) d
  else throw P2003 d.

(** [prisma.enrollment.update({ where: { id }, data: { status } })] *)
Definition update (id : string) (f : Enrollment.t → Enrollment.t) (now : Z)
  : M Enrollment.t := λ d,
  let here := λ e, bool_decide (Enrollment.id e = id) in
  match List.find here (enrollments d) with
  | None => throw P2025 d
  | Some e =>
      let e' := Enrollment.set_updated_at now (f e) in
      (execute (set_enrollments
                  (update_where here (λ r, Enrollment.set_updated_at now (f r))));;
       mret e') d
  end.

(** [prisma.enrollment.updateMany({ where, data })] *)
Definition updateMany (P : Enrollment.t → bool) (f : Enrollment.t → Enrollment.t)
    (now : Z) : M unit :=
  execute (set_enrollments (update_where P (λ r, Enrollment.set_updated_at now (f r)))).
End enrollment.

Module payment.
Definition findFirst (P : Payment.t → bool) : M (option Payment.t) :=
  query (λ d, List.find P (payments d)).

(** [prisma.payment.update({ where: { id }, data })] *)
Definition update (id : string) (f : Payment.t → Payment.t) (now : Z)
  : M Payment.t := λ d,
  let here := λ p, bool_decide (Payment.id p = id) in
  match List.find here (payments d) with
  | None => throw P2025 d
  | Some p =>
      let p' := Payment.set_updated_at now (f p) in
      (execute (set_payments
                  (update_where here (λ r, Payment.set_updated_at now (f r))));;
       mret p') d
  end.

(** [prisma.payment.create({ data })] *)
Definition create (uuid user_id training_id : string) (amount : Z)
    (payment_method : string) (transaction_reference : option string)
    (status : PaymentStatus) (now : Z) : M Payment.t := λ d,
  if exists_row (λ r, bool_decide (Payment.id r = uuid)) (payments d)
  then throw P2002 d
  else if exists_row (λ u, bool_decide (User.id u = user_id)) (users d)
          && exists_row (λ t, bool_decide (TrainingProgram.id t = training_id))
               (training_programs d)
  then
    let p := Payment.mk uuid user_id training_id amount payment_method
               transaction_reference status now now in
    (execute (set_payments (λ rows, rows ++ [p]));; mret p) d
  else throw P2003 d.
End payment.

Definition _transaction {A} (body : M A) : M A := transaction body.

End prisma.

(** ** External collaborators

    Libraries and configuration the services call: [bcryptjs],
    [jsonwebtoken], the regular-expression engine, [URLSearchParams], the
    [qrcode] package and [process.env]. *)
Record Env : Type := mkEnv {
  bcrypt_hash : string → Z → string;
  jwt_sign : string → Role → string → bool → Z → string;
  emailRegex_test : string → bool;
  URLSearchParams_toString : list (string * string) → string;
  QRCode_toDataURL : string → option string;
  COMPANY_UPI_ID : option string;
  COMPANY_NAME : option string
}.

(** [process.env.X || fallback] *)
Definition env_or (v : option string) (fallback : string) : string :=
  match v with
  | Some s => if bool_decide (s = EmptyString) then fallback else s
  | None => fallback
  end.

(** [typeof v] *)
Definition typeof (v : JsVal) : string :=
  match v with
  | JsUndefined => "undefined"
  | JsNull => "object"
  | JsBool _ => "boolean"
  | JsNum _ => "number"
  | JsStr _ => "string"
  end.

(** [error.code === c] *)
Definition code_is (c : string) (error : Error) : bool :=
  match error with
  | PrismaError c' => bool_decide (c' = c)
  | JsError _ => false
  end.

(** Reading a property of a relation loaded by [include]; JavaScript throws
    a [TypeError] when the relation is [null]. *)
Definition TypeError : Error := JsError "TypeError: Cannot read properties of null".

Definition deref {A} (o : option A) : M A :=
  match o with
  | Some a => mret a
  | None => throw TypeError
  end.

(** [s.slice(-n)] *)
Definition slice_last (n : nat) (s : string) : string :=
  String.substring (String.length s - n) n s.

(** [x || 0] on a number *)
Definition or_zero (x : Z) : Z := if x =? 0 then 0 else x.

(** [if (v !== undefined) o[k] = w] *)
Definition assign_if_defined (k : string) (v w : JsVal) (o : JsObject) : JsObject :=
  if bool_decide (v = JsUndefined) then o else <[k := w]> o.

(** The message [Profession must be either "student" or "professional"]. *)
Definition Profession_must_be_either : Error :=
  let q := String (Ascii.ascii_of_nat 34) EmptyString in
  JsError ("Profession must be either " +:+ q +:+ "student" +:+ q +:+ " or "
           +:+ q +:+ "professional" +:+ q).

(** ** utils/jwt.js *)

Definition generateToken (env : Env) (id : string) (role : Role) (email : string)
    (is_admin : bool) (now : Z) : M string :=
  if bool_decide (id = EmptyString) || bool_decide (email = EmptyString)
  then throw (JsError "Token generation failed")
  else mret (jwt_sign env id role email is_admin (now / 1000)).

(** ** services/auth.service.js *)

Module SignupData.
(** The object literal the signup controller hands to the service. *)
Record t : Type := mk {
  full_name : JsVal;
  email : JsVal;
  phone : JsVal;
  profession : JsVal;
  college : JsVal;
  company : JsVal;
  password : JsVal
}.
End SignupData.

Module authService.

Definition userSignup (env : Env) (userData : SignupData.t) (uuid : string) (now : Z)
  : M (User.t * string) :=
  let full_name := SignupData.full_name userData in
  let email := SignupData.email userData in
  let phone := SignupData.phone userData in
  let profession := SignupData.profession userData in
  let college := SignupData.college userData in
  let company := SignupData.company userData in
  let password := SignupData.password userData in
  try_catch
    (if negb (truthy full_name) || negb (truthy email) || negb (truthy password)
     then throw (JsError "Full name, email, and password are required")
     else if negb (emailRegex_test env (toString email))
     then throw (JsError "Invalid email format")
     else if truthy profession && negb (includes ["student"; "professional"]%string profession)
     then throw Profession_must_be_either
     else
       existingUser ←
         match email with
         | JsStr e => prisma.user.findUnique (λ u, bool_decide (User.email u = e))
         | _ => throw PrismaClientValidationError
         end;
       if existingUser is Some _ then throw (JsError "Email already exists")
       else
         password_hash ←
           match password with
           | JsStr p => mret (bcrypt_hash env p 12)
           | _ => throw (JsError ("Illegal arguments: " +:+ typeof password +:+ ", number"))
           end;
         user ← prisma.user.create uuid
           (list_to_map
              [("full_name", full_name);
               ("email", email);
               ("phone", if truthy phone then JsStr (toString phone) else JsNull);
               ("profession", or_null profession);
               ("college", college);
               ("company", company);
               ("role", JsStr "user");
               ("is_admin", JsBool false);
               ("password", JsStr password_hash)]%string)
           now;
         token ← generateToken env (User.id user) (User.role user) (User.email user)
                   (User.is_admin user) now;
         mret (user, token))
    (λ error,
       if code_is "P2002" error then throw (JsError "Email already exists")
       else throw error).

End authService.

(** ** controllers/auth.controller.js *)

Module authController.

(** [POST /api/signup]: the seven fields are read from the body, [role] and
    [is_admin] are deleted from it, and the service receives the seven
    fields only. *)
Definition userSignup (env : Env) (body : JsObject) (uuid : string) (now : Z)
  : M (User.t * string) :=
  let userData :=
    SignupData.mk (prop body "full_name") (prop body "email") (prop body "phone")
      (prop body "profession") (prop body "college") (prop body "company")
      (prop body "password") in
  let body := delete "is_admin"%string (delete "role"%string body) in
  authService.userSignup env userData uuid now.

End authController.

(** ** services/user.service.js *)

Module ProfileData.
(** [{ full_name, phone }], built by the enrollment controller. *)
Record t : Type := mk { full_name : JsVal; phone : JsVal }.
End ProfileData.

Module PaymentSession.
(** What [initiatePaymentForEnrollment] returns. *)
Record t : Type := mk {
  payment_id : string;
  enrollment_id : string;
  training_title : string;
  amount : Z;
  upi_link : string;
  qr_code : string;
  payment_reference : string;
  expires_at : Z;
  timer_duration : Z
}.
End PaymentSession.

Module PaymentStatusView.
(** What [getPaymentStatus] returns. *)
Record t : Type := mk {
  id : string;
  status : PaymentStatus;
  amount : Z;
  training_title : string;
  transaction_reference : option string;
  created_at : Z;
  is_expired : bool
}.
End PaymentStatusView.

Definition FIVE_MINUTES : Z := 5 * 60 * 1000.

Definition Already_enrolled : Error :=
  JsError "Already enrolled in this training program".
Definition Payment_session_expired : Error :=
  JsError "Payment session expired. Please retry payment.".
Definition Payment_not_pending : Error :=
  JsError "Payment is not in pending verification status".
Definition Payment_not_found : Error :=
  JsError "Payment not found or access denied".

Module userService.

Definition updateUserProfile (userId : string) (userRole : Role)
    (updateData : JsObject) (now : Z) : M User.t :=
  let full_name := prop updateData "full_name" in
  let phone := prop updateData "phone" in
  let profession := prop updateData "profession" in
  let college := prop updateData "college" in
  let company := prop updateData "company" in
  try_catch
    (if truthy profession && negb (includes ["student"; "professional"]%string profession)
     then throw Profession_must_be_either
     else
       let updateFields : JsObject := ∅ in
       let updateFields := assign_if_defined "full_name" full_name full_name updateFields in
       let updateFields :=
         assign_if_defined "phone" phone
           (if truthy phone then JsStr (toString phone) else JsNull) updateFields in
       let updateFields := assign_if_defined "profession" profession profession updateFields in
       let updateFields := assign_if_defined "college" college college updateFields in
       let updateFields := assign_if_defined "company" company company updateFields in
       (* an update that returns always returns the row, so the
          [if (!user)] that follows it in the source never fires *)
       user ← prisma.user.update userId updateFields now;
       mret user)
    (λ error, throw error).

Definition createEnrollment (userId : string) (userRole : Role) (trainingId : JsVal)
    (uuid : string) (now : Z) : M Enrollment.t :=
  try_catch
    (if negb (truthy trainingId) then throw (JsError "Training ID is required")
     else match trainingId with
     | JsStr tid =>
         training ← prisma.trainingProgram.findFirst
           (λ t, bool_decide (TrainingProgram.id t = tid) && TrainingProgram.is_active t);
         if training is None then throw (JsError "Training program not found or not active")
         else
           existingEnrollment ← prisma.enrollment.findUnique
             (λ e, bool_decide (Enrollment.user_id e = userId)
                   && bool_decide (Enrollment.training_id e = tid));
           if existingEnrollment is Some _ then throw Already_enrolled
           else
             enrollment ← prisma.enrollment.create uuid userId tid pending_payment now;
             mret enrollment
     | _ => throw PrismaClientValidationError
     end)
    (λ error, if code_is "P2002" error then throw Already_enrolled else throw error).

Definition createEnrollmentWithDetails (userId : string) (userRole : Role)
    (trainingId : JsVal) (profileData : ProfileData.t) (uuid : string) (now : Z)
  : M Enrollment.t :=
  let data : JsObject :=
    list_to_map [("full_name", ProfileData.full_name profileData);
                 ("phone", ProfileData.phone profileData)]%string in
  try_catch
    (if negb (truthy trainingId) then throw (JsError "Training ID is required")
     else match trainingId with
     | JsStr tid =>
         training ← prisma.trainingProgram.findFirst
           (λ t, bool_decide (TrainingProgram.id t = tid) && TrainingProgram.is_active t);
         if training is None then throw (JsError "Training program not found or not active")
         else
           existingEnrollment ← prisma.enrollment.findUnique
             (λ e, bool_decide (Enrollment.user_id e = userId)
                   && bool_decide (Enrollment.training_id e = tid));
           match existingEnrollment with
           | Some existingEnrollment =>
               (* payment still pending: allow a retry by returning the
                  existing enrollment *)
               if bool_decide (Enrollment.status existingEnrollment = pending_payment)
               then
                 prisma.user.update userId data now;;
                 mret existingEnrollment
               else throw Already_enrolled
           | None =>
               result ← prisma._transaction
                 (prisma.user.update userId data now;;
                  enrollment ← prisma.enrollment.create uuid userId tid pending_payment now;
                  mret enrollment);
               mret result
           end
     | _ => throw PrismaClientValidationError
     end)
    (λ error, if code_is "P2002" error then throw Already_enrolled else throw error).

Definition generateUpiLink (env : Env) (upiId merchantName : string) (amount : Z)
    (transactionNote transactionRef : string) : string :=
  "upi://pay?" +:+
    URLSearchParams_toString env
      [("pa", upiId); ("pn", merchantName); ("am", pretty amount);
       ("tn", transactionNote); ("tr", transactionRef)]%string.

Definition generateQRCode (env : Env) (text : string) : M string :=
  match QRCode_toDataURL env text with
  | Some qrCodeDataURL => mret qrCodeDataURL
  | None => throw (JsError "Failed to generate QR code")
  end.

(** [`TXN-${Date.now()}-${enrollmentId.slice(-6)}`] *)
Definition TXN (now : Z) (enrollmentId : string) : string :=
  "TXN-" +:+ pretty now +:+ "-" +:+ slice_last 6 enrollmentId.

Definition initiatePaymentForEnrollment (env : Env) (userId : string) (userRole : Role)
    (enrollmentId : string) (uuid : string) (now : Z) : M PaymentSession.t :=
  try_catch
    (enrollment ← prisma.enrollment.findFirst
       (λ e, bool_decide (Enrollment.id e = enrollmentId)
             && bool_decide (Enrollment.user_id e = userId));
     match enrollment with
     | None => throw (JsError "Enrollment not found or access denied")
     | Some enrollment =>
       (* include: { training_program: true } *)
       training_program ← prisma.trainingProgram.findFirst
         (λ t, bool_decide (TrainingProgram.id t = Enrollment.training_id enrollment));
       if negb (bool_decide (Enrollment.status enrollment = pending_payment))
       then throw (JsError "Enrollment is not in pending payment status")
       else
         existingPayment ← prisma.payment.findFirst
           (λ p, bool_decide (Payment.user_id p = userId)
                 && bool_decide (Payment.training_id p = Enrollment.training_id enrollment)
                 && bool_decide (Payment.status p = pending_verification));
         let create_new : M PaymentSession.t :=
           let paymentReference := TXN now enrollmentId in
           program ← deref training_program;
           payment ← prisma.payment.create uuid userId (Enrollment.training_id enrollment)
                       (or_zero (TrainingProgram.price program)) "UPI" None
                       pending_verification now;
           let companyUpiId := env_or (COMPANY_UPI_ID env) "qthink@paytm" in
           let companyName := env_or (COMPANY_NAME env) "QThink Solutions" in
           let amount := or_zero (TrainingProgram.price program) in
           let transactionNote := "Payment for " +:+ TrainingProgram.title program in
           let upiLink :=
             generateUpiLink env companyUpiId companyName amount transactionNote
               paymentReference in
           qrCodeDataUrl ← generateQRCode env upiLink;
           let expiryTime := now + 5 * 60 * 1000 in
           mret (PaymentSession.mk (Payment.id payment) enrollmentId
                   (TrainingProgram.title program) amount upiLink qrCodeDataUrl
                   paymentReference expiryTime 300)
         in
         match existingPayment with
         | Some existingPayment =>
             let sessionAge := now - Payment.created_at existingPayment in
             if bool_decide (sessionAge >= FIVE_MINUTES)
             then
               prisma.payment.update (Payment.id existingPayment)
                 (Payment.set_status failed) now;;
               create_new
             else
               program ← deref training_program;
               let upiLink :=
                 generateUpiLink env
                   (env_or (COMPANY_UPI_ID env) "qthink@paytm")
                   (env_or (COMPANY_NAME env) "QThink Solutions")
                   (or_zero (TrainingProgram.price program))
                   ("Payment for " +:+ TrainingProgram.title program)
                   (TXN now enrollmentId) in
               qrCodeDataUrl ← generateQRCode env upiLink;
               let remainingTime := Z.max 0 ((FIVE_MINUTES - sessionAge) / 1000) in
               mret (PaymentSession.mk (Payment.id existingPayment) enrollmentId
                       (TrainingProgram.title program)
                       (or_zero (TrainingProgram.price program)) upiLink qrCodeDataUrl
                       (TXN now enrollmentId)
                       (Payment.created_at existingPayment + FIVE_MINUTES)
                       remainingTime)
         | None => create_new
         end
     end)
    (λ error, throw error).

Definition confirmPayment (userId : string) (userRole : Role) (paymentId : string)
    (transactionReference : JsVal) (now : Z) : M Payment.t :=
  try_catch
    (payment ← prisma.payment.findFirst
       (λ p, bool_decide (Payment.id p = paymentId)
             && bool_decide (Payment.user_id p = userId));
     match payment with
     | None => throw Payment_not_found
     | Some payment =>
         if negb (bool_decide (Payment.status payment = pending_verification))
         then throw Payment_not_pending
         else
           let sessionAge := now - Payment.created_at payment in
           if bool_decide (sessionAge >= FIVE_MINUTES)
           then
             prisma.payment.update paymentId (Payment.set_status failed) now;;
             throw Payment_session_expired
           else
             (* data: { transaction_reference: transactionReference || null,
                        updated_at: new Date() } *)
             updatedPayment ←
               match or_null transactionReference with
               | JsNull =>
                   prisma.payment.update paymentId
                     (Payment.set_transaction_reference None) now
               | JsStr reference =>
                   prisma.payment.update paymentId
                     (Payment.set_transaction_reference (Some reference)) now
               | _ => throw PrismaClientValidationError
               end;
             mret updatedPayment
     end)
    (λ error, throw error).

Definition getPaymentStatus (userId : string) (userRole : Role) (paymentId : string)
    (now : Z) : M PaymentStatusView.t :=
  try_catch
    (payment ← prisma.payment.findFirst
       (λ p, bool_decide (Payment.id p = paymentId)
             && bool_decide (Payment.user_id p = userId));
     match payment with
     | None => throw Payment_not_found
     | Some payment =>
         (* include: { training_program: { select: { title: true } } } *)
         training_program ← prisma.trainingProgram.findFirst
           (λ t, bool_decide (TrainingProgram.id t = Payment.training_id payment));
         let sessionAge := now - Payment.created_at payment in
         let expired :=
           bool_decide (Payment.status payment = pending_verification)
           && bool_decide (sessionAge >= FIVE_MINUTES) in
         status ←
           (if expired
            then
              prisma.payment.update paymentId (Payment.set_status failed) now;;
              mret failed
            else mret (Payment.status payment));
         program ← deref training_program;
         mret (PaymentStatusView.mk (Payment.id payment) status (Payment.amount payment)
                 (TrainingProgram.title program) (Payment.transaction_reference payment)
                 (Payment.created_at payment)
                 (bool_decide (sessionAge >= FIVE_MINUTES)
                  && bool_decide (Payment.status payment = pending_verification)))
     end)
    (λ error, throw error).

End userService.

(** ** controllers/user.controller.js *)

Module userController.

(** [PUT /api/user/profile]: only the allowed fields of the body reach the
    service. *)
Definition updateProfile (userId : string) (userRole : Role) (body : JsObject)
    (now : Z) : M User.t :=
  let allowedFields := ["full_name"; "phone"; "profession"; "college"; "company"]%string in
  let updateData : JsObject :=
    foldl (λ updateData field, assign_if_defined field (prop body field) (prop body field)
                                 updateData)
          ∅ allowedFields in
  userService.updateUserProfile userId userRole updateData now.

End userController.

(** ** services/admin.service.js *)

Definition Invalid_payment_status : Error := JsError "Invalid payment status".

(** A status string handed to Prisma for an enum column. *)
Definition as_EnrollmentStatus (v : JsVal) : option EnrollmentStatus :=
  match v with JsStr s => EnrollmentStatus_of_string s | _ => None end.
Definition as_PaymentStatus (v : JsVal) : option PaymentStatus :=
  match v with JsStr s => PaymentStatus_of_string s | _ => None end.

Module adminService.

Definition updateUserRole (adminId : string) (adminRole : Role) (userId : string)
    (roleData : JsObject) (now : Z) : M User.t :=
  let role := prop roleData "role" in
  let is_admin := prop roleData "is_admin" in
  try_catch
    (if truthy role && negb (includes ["user"; "admin"]%string role)
     then throw (JsError "Invalid role")
     else
       let updateFields : JsObject := ∅ in
       let updateFields := assign_if_defined "role" role role updateFields in
       let updateFields := assign_if_defined "is_admin" is_admin is_admin updateFields in
       user ← prisma.user.update userId updateFields now;
       mret user)
    (λ error, throw error).

Definition updateEnrollmentStatus (adminId : string) (adminRole : Role)
    (enrollmentId : string) (status : JsVal) (now : Z) : M Enrollment.t :=
  try_catch
    (if negb (includes ["pending_payment"; "enrolled"; "completed"]%string status)
     then throw (JsError "Invalid status")
     else
       match as_EnrollmentStatus status with
       | None => throw PrismaClientValidationError
       | Some status' =>
           (* an update that returns always returns the row: the
              [if (!enrollment)] after it in the source never fires *)
           enrollment ← prisma.enrollment.update enrollmentId
                          (Enrollment.set_status status') now;
           mret enrollment
       end)
    (λ error, throw error).

Definition updatePaymentStatus (adminId : string) (adminRole : Role)
    (paymentId : string) (status : JsVal) (now : Z) : M Payment.t :=
  try_catch
    (if negb (includes ["pending_verification"; "verified"; "failed"; "refunded"]%string
                status)
     then throw Invalid_payment_status
     else
       match as_PaymentStatus status with
       | None => throw PrismaClientValidationError
       | Some status' =>
           (* one transaction updates both the payment and the enrollment;
              [tx.payment.update] throws when there is no such payment, so
              the [if (!payment)] after it in the source never fires *)
           result ← prisma._transaction
             (payment ← prisma.payment.update paymentId (Payment.set_status status') now;
              (if is_literal "verified" status
               then
                 prisma.enrollment.updateMany
                   (λ e, bool_decide (Enrollment.user_id e = Payment.user_id payment)
                         && bool_decide (Enrollment.training_id e = Payment.training_id payment)
                         && bool_decide (Enrollment.status e = pending_payment))
                   (Enrollment.set_status enrolled) now
               else if is_literal "failed" status
               then
                 prisma.enrollment.updateMany
                   (λ e, bool_decide (Enrollment.user_id e = Payment.user_id payment)
                         && bool_decide (Enrollment.training_id e = Payment.training_id payment)
                         && bool_decide (Enrollment.status e = enrolled))
                   (Enrollment.set_status pending_payment) now
               else mret tt);;
              mret payment);
           mret result
       end)
    (λ error, throw error).

End adminService.

(** ** The operations as one transition system

    Every modelled operation that writes to [users], [enrollments] or
    [payments], as a request with its arguments; [handle] runs it and forgets
    the type of the answer. *)
Inductive Request : Type :=
  | Signup (body : JsObject) (uuid : string)
  | UpdateProfile (userId : string) (userRole : Role) (body : JsObject)
  | CreateEnrollment (userId : string) (userRole : Role) (trainingId : JsVal) (uuid : string)
  | CreateEnrollmentWithDetails (userId : string) (userRole : Role) (trainingId : JsVal)
      (profileData : ProfileData.t) (uuid : string)
  | InitiatePayment (userId : string) (userRole : Role) (enrollmentId : string) (uuid : string)
  | ConfirmPayment (userId : string) (userRole : Role) (paymentId : string)
      (transactionReference : JsVal)
  | GetPaymentStatus (userId : string) (userRole : Role) (paymentId : string)
  | AdminUpdateUserRole (adminId : string) (userId : string) (roleData : JsObject)
  | AdminUpdateEnrollmentStatus (adminId : string) (enrollmentId : string) (status : JsVal)
  | AdminUpdatePaymentStatus (adminId : string) (paymentId : string) (status : JsVal).

(** Forget the answer of a computation, keep its effect. *)
Definition effect {A} (m : M A) : M unit := m ≫= (λ _, mret tt).

Definition handle (env : Env) (now : Z) (r : Request) : M unit :=
  match r with
  | Signup body uuid => effect (authController.userSignup env body uuid now)
  | UpdateProfile userId userRole body =>
      effect (userController.updateProfile userId userRole body now)
  | CreateEnrollment userId userRole trainingId uuid =>
      effect (userService.createEnrollment userId userRole trainingId uuid now)
  | CreateEnrollmentWithDetails userId userRole trainingId profileData uuid =>
      effect (userService.createEnrollmentWithDetails userId userRole trainingId
                profileData uuid now)
  | InitiatePayment userId userRole enrollmentId uuid =>
      effect (userService.initiatePaymentForEnrollment env userId userRole enrollmentId
                uuid now)
  | ConfirmPayment userId userRole paymentId transactionReference =>
      effect (userService.confirmPayment userId userRole paymentId transactionReference now)
  | GetPaymentStatus userId userRole paymentId =>
      effect (userService.getPaymentStatus userId userRole paymentId now)
  | AdminUpdateUserRole adminId userId roleData =>
      effect (adminService.updateUserRole adminId admin userId roleData now)
  | AdminUpdateEnrollmentStatus adminId enrollmentId status =>
      effect (adminService.updateEnrollmentStatus adminId admin enrollmentId status now)
  | AdminUpdatePaymentStatus adminId paymentId status =>
      effect (adminService.updatePaymentStatus adminId admin paymentId status now)
  end.

(** The database after a sequence of requests, each with its clock reading. *)
Fixpoint run_requests (env : Env) (rs : list (Z * Request)) (d : Db) : Db :=
  match rs with
  | [] => d
  | (now, r) :: rs => run_requests env rs (db_after (handle env now r d))
  end.


(** ** Predicates used in the statements *)

(** At most one enrollment per (user, training program) pair. *)
Definition enrollment_key (e : Enrollment.t) : string * string :=
  (Enrollment.user_id e, Enrollment.training_id e).

Definition one_enrollment_per_pair (d : Db) : Prop :=
  NoDup (enrollment_key <$> enrollments d).

(** The verification window of a payment has elapsed at [now]. *)
Definition window_elapsed (p : Payment.t) (now : Z) : Prop :=
  now - Payment.created_at p >= FIVE_MINUTES.

(** The enrollment a confirmed payment advances. *)
Definition matching_pending (p : Payment.t) (e : Enrollment.t) : bool :=
  bool_decide (Enrollment.user_id e = Payment.user_id p)
  && bool_decide (Enrollment.training_id e = Payment.training_id p)
  && bool_decide (Enrollment.status e = pending_payment).

(** A transaction reference as a member may send it: absent, [null] or a
    string. *)
Definition optional_reference (v : JsVal) : Prop :=
  match v with
  | JsUndefined | JsNull | JsStr _ => True
  | _ => False
  end.

(** The reference stored for it: [transactionReference || null]. *)
Definition recorded_reference (v : JsVal) : option string :=
  match or_null v with
  | JsStr s => Some s
  | _ => None
  end.

(** [p] is the payment with identifier [paymentId], and [userId] owns it. *)
Definition payment_of (d : Db) (paymentId userId : string) (p : Payment.t) : Prop :=
  List.find (λ q, bool_decide (Payment.id q = paymentId)) (payments d) = Some p
  ∧ Payment.user_id p = userId.

(** [prog] is the training program a payment refers to (its foreign key). *)
Definition program_of (d : Db) (training_id : string) (prog : TrainingProgram.t) : Prop :=
  List.find (λ t, bool_decide (TrainingProgram.id t = training_id)) (training_programs d)
  = Some prog.

(** [e] is the enrollment [enrollmentId] of user [userId]. *)
Definition enrollment_of (d : Db) (enrollmentId userId : string) (e : Enrollment.t) : Prop :=
  List.find (λ e, bool_decide (Enrollment.id e = enrollmentId)
                  && bool_decide (Enrollment.user_id e = userId)) (enrollments d)
  = Some e.

(** [p] is the payment under verification for a user and training program. *)
Definition unresolved_payment (d : Db) (userId training_id : string) (p : Payment.t)
  : Prop :=
  List.find (λ q, bool_decide (Payment.user_id q = userId)
                  && bool_decide (Payment.training_id q = training_id)
                  && bool_decide (Payment.status q = pending_verification)) (payments d)
  = Some p.

(** A computation keeps a relation [R] between the database it starts from
    and every database state it commits or leaves behind. *)
Definition preserves (R : Db → Db → Prop) {A} (m : M A) : Prop :=
  ∀ d, R d (db_after (m d)) ∧ Forall (R d) (commits (m d)).

(** The enrollments table is not written. *)
Definition same_enrollments (d d' : Db) : Prop := enrollments d' = enrollments d.

(** The uniqueness invariant is kept. *)
Definition keeps_one_per_pair (d d' : Db) : Prop :=
  one_enrollment_per_pair d → one_enrollment_per_pair d'.

(** Every enrollment row that is 'completed' is still there, unchanged. *)
Definition keeps_completed (d d' : Db) : Prop :=
  ∀ e, e ∈ enrollments d → Enrollment.status e = completed → e ∈ enrollments d'.

(** [e] is the enrollment of user [userId] in training program [tid]. *)
Definition enrolled_pair (d : Db) (userId tid : string) (e : Enrollment.t) : Prop :=
  List.find (λ e, bool_decide (Enrollment.user_id e = userId)
                  && bool_decide (Enrollment.training_id e = tid)) (enrollments d)
  = Some e.

(** [prog] is the active training program [tid]. *)
Definition active_program (d : Db) (tid : string) (prog : TrainingProgram.t) : Prop :=
  List.find (λ t, bool_decide (TrainingProgram.id t = tid) && TrainingProgram.is_active t)
    (training_programs d)
  = Some prog.

(** Two versions of an account that agree on everything a profile update
    must not touch: identity, credentials, role and the [is_admin] flag. *)
Definition same_account (u u' : User.t) : Prop :=
  User.id u' = User.id u
  ∧ User.email u' = User.email u
  ∧ User.password u' = User.password u
  ∧ User.role u' = User.role u
  ∧ User.is_admin u' = User.is_admin u
  ∧ User.created_at u' = User.created_at u.

(** Between two database states, only profile columns of users differ. *)
Definition only_profiles_differ (d d' : Db) : Prop :=
  Forall2 same_account (users d) (users d')
  ∧ training_programs d' = training_programs d
  ∧ enrollments d' = enrollments d
  ∧ payments d' = payments d.

(** A [data] object that names none of the protected columns. *)
Definition protected_absent (data : JsObject) : Prop :=
  prop data "email" = JsUndefined
  ∧ prop data "password" = JsUndefined
  ∧ prop data "role" = JsUndefined
  ∧ prop data "is_admin" = JsUndefined.

(** Between two database states, users were only added, each with role
    'user' and [is_admin = false]. *)
Definition only_members_added (d d' : Db) : Prop :=
  ∃ created, users d' = users d ++ created
             ∧ Forall (λ u, User.role u = user ∧ User.is_admin u = false) created.

(** What a signup run may have done to the database [d]: nothing, or one
    commit that appended a single account with role 'user' and
    [is_admin = false]; a returned account is that account. *)
Definition signup_post (d : Db) (r : Run (User.t * string)) : Prop :=
  let added u :=
    User.role u = user ∧ User.is_admin u = false
    ∧ db_after r = set_users (λ rows, rows ++ [u]) d ∧ commits r = [db_after r] in
  match outcome r with
  | Return (u, _) => added u
  | Throw _ => (db_after r = d ∧ commits r = []) ∨ ∃ u, added u
  end.

(** A column value that may be left out: [undefined], [null] or a string. *)
Definition optional_text (v : JsVal) : Prop :=
  match v with
  | JsUndefined | JsNull | JsStr _ => True
  | _ => False
  end.

(** A signup body the service accepts, with name [n], e-mail [e] and
    password [p]: the three are non-empty strings, the e-mail passes the
    format test, the profession is falsy or one of the two listed, and
    [college] and [company] are absent, [null] or strings.  Nothing is asked
    of [phone], [role] and [is_admin]. *)
Definition accepted_signup (env : Env) (body : JsObject) (n e p : string) : Prop :=
  prop body "full_name" = JsStr n ∧ n ≠ EmptyString
  ∧ prop body "email" = JsStr e ∧ e ≠ EmptyString ∧ emailRegex_test env e = true
  ∧ prop body "password" = JsStr p ∧ p ≠ EmptyString
  ∧ (truthy (prop body "profession") = false
     ∨ includes ["student"; "professional"]%string (prop body "profession") = true)
  ∧ optional_text (prop body "college")
  ∧ optional_text (prop body "company").

(** ** Sample data *)

Definition env0 : Env :=
  mkEnv (λ p _, "$2a$12$" +:+ p)
        (λ id _ email _ _, "jwt." +:+ id +:+ "." +:+ email)
        (λ s, existsb (Ascii.eqb (Ascii.ascii_of_nat 64)) (String.list_ascii_of_string s))
        (λ kvs, foldr (λ kv acc, kv.1 +:+ "=" +:+ kv.2 +:+ "&" +:+ acc) EmptyString kvs)
        (λ s, Some ("data:image/png;" +:+ s))
        None None.

Definition asha : User.t :=
  User.mk "u1" "Asha" "asha@example.com" "$2a$12$pw" None (Some student) None None
    user false 1000 1000.
Definition root : User.t :=
  User.mk "a1" "Root" "root@example.com" "$2a$12$pw" None None None None
    admin true 1000 1000.
Definition rocq101 : TrainingProgram.t := TrainingProgram.mk "t1" "Rocq 101" 4999 true.
Definition retired : TrainingProgram.t := TrainingProgram.mk "t2" "Retired" 100 false.

Definition e1 (st : EnrollmentStatus) : Enrollment.t :=
  Enrollment.mk "e-000001" "u1" "t1" st 2000 2000.
Definition p1 (st : PaymentStatus) (ref : option string) : Payment.t :=
  Payment.mk "p1" "u1" "t1" 4999 "UPI" ref st 10000 10000.

Definition db0 (est : EnrollmentStatus) (pst : PaymentStatus) (ref : option string) : Db :=
  mkDb [asha; root] [rocq101; retired] [e1 est] [p1 pst ref].

(** A signup body that asks for the administrator role. *)
Definition greedy_signup : JsObject :=
  list_to_map [("full_name", JsStr "Mallory"); ("email", JsStr "mallory@example.com");
               ("password", JsStr "hunter22"); ("role", JsStr "admin");
               ("is_admin", JsBool true)]%string.

(** A profile update that asks for the administrator role. *)
Definition greedy_profile : JsObject :=
  list_to_map [("full_name", JsStr "Asha K"); ("phone", JsNum 9876543210);
               ("role", JsStr "admin"); ("is_admin", JsBool true)]%string.


(** * Authentication and authorization middleware *)

(** ** utils/jwt.js, continued *)

(** [s.split(sep)] for a one-character separator. *)
Fixpoint split (sep : Ascii.ascii) (s : string) : list string :=
  match s with
  | EmptyString => [EmptyString]
  | String c rest =>
      if Ascii.eqb c sep then EmptyString :: split sep rest
      else match split sep rest with
           | part :: parts => String c part :: parts
           | [] => [String c EmptyString]
           end
  end.

Definition space : Ascii.ascii := Ascii.ascii_of_nat 32.

(** The header value is a string, or absent. *)
Definition extractTokenFromHeader (authHeader : option string) : option string :=
  match authHeader with
  | None => None
  | Some header =>
      if bool_decide (header = EmptyString) then None
      else
        match split space header with
        | [scheme; token] => if String.eqb scheme "Bearer" then Some token else None
        | _ => None
        end
  end.

Module Decoded.
(** The payload [jwt.verify] hands back: the claims the server signed, with
    the numeric [iat] and [exp] the library maintains. *)
Record t : Type := mk {
  id : JsVal;
  role : JsVal;
  email : JsVal;
  is_admin : JsVal;
  iat : option Z;
  exp : option Z
}.
End Decoded.

(** What [jwt.verify(token, secret, options)] does: it returns the payload,
    or throws an error of the library with the given [name]. *)
Inductive JwtVerify : Type :=
  | JwtPayload (decoded : Decoded.t)
  | JwtThrows (name message : string).

(** [isTokenExpired(decoded)] at clock reading [now]. *)
Definition isTokenExpired (decoded : option Decoded.t) (now : Z) : bool :=
  match decoded with
  | None => true
  | Some decoded =>
      match Decoded.exp decoded with
      | None => true
      | Some exp =>
          if exp =? 0 then true
          else
            let currentTime := now / 1000 in
            exp <? currentTime
      end
  end.

Module Thrown.
(** An error as the [catch] of [verifyToken] looks at it. *)
Record t : Type := mk { name : string; message : string }.
End Thrown.

(** The [try] block of [verifyToken]. *)
Definition verifyToken_try (jwt_verify : string → JwtVerify) (token : string)
  : Decoded.t + Thrown.t :=
  if bool_decide (token = EmptyString)
  then inr (Thrown.mk "Error" "No token provided")
  else
    match jwt_verify token with
    | JwtThrows name message => inr (Thrown.mk name message)
    | JwtPayload decoded =>
        if negb (truthy (Decoded.id decoded)) || negb (truthy (Decoded.role decoded))
           || negb (truthy (Decoded.email decoded))
        then inr (Thrown.mk "Error" "Invalid token payload structure")
        else if negb (includes ["user"; "admin"]%string (Decoded.role decoded))
        then inr (Thrown.mk "Error" "Invalid role in token")
        else inl decoded
    end.

Definition verifyToken (jwt_verify : string → JwtVerify) (token : string)
  : Outcome Decoded.t :=
  match verifyToken_try jwt_verify token with
  | inl decoded => Return decoded
  | inr error =>
      if String.eqb (Thrown.name error) "JsonWebTokenError"
      then Throw (JsError "Invalid token")
      else if String.eqb (Thrown.name error) "TokenExpiredError"
      then Throw (JsError "Token expired")
      else if String.eqb (Thrown.name error) "NotBeforeError"
      then Throw (JsError "Token not active")
      else Throw (JsError "Token verification failed")
  end.

(** ** middleware/auth.middleware.js and middleware/role.middleware.js *)

(** [error.message === m] *)
Definition message_is (m : string) (error : Error) : bool :=
  match error with
  | JsError m' => String.eqb m' m
  | PrismaError _ => false
  end.

(** A middleware either hands the request on, possibly with something
    attached to it, or answers it with a status and a message. *)
Inductive Middleware (A : Type) : Type :=
  | Next (a : A)
  | Respond (status : Z) (message : string).
Arguments Next {A} a.
Arguments Respond {A} status message.

Module ReqUser.
(** [req.user] *)
Record t : Type := mk {
  id : JsVal;
  role : JsVal;
  email : JsVal;
  is_admin : JsVal;
  iat : option Z;
  exp : option Z
}.
End ReqUser.

(** [decoded.is_admin || false] *)
Definition or_false (v : JsVal) : JsVal := if truthy v then v else JsBool false.

Definition authenticateToken (jwt_verify : string → JwtVerify)
    (authorization : option string) : Middleware ReqUser.t :=
  match extractTokenFromHeader authorization with
  | None => Respond 401 "Access token required"
  | Some token =>
      if bool_decide (token = EmptyString) then Respond 401 "Access token required"
      else
        match verifyToken jwt_verify token with
        | Return decoded =>
            if negb (truthy (Decoded.id decoded)) || negb (truthy (Decoded.role decoded))
               || negb (truthy (Decoded.email decoded))
            then Respond 401 "Invalid token structure"
            else if negb (includes ["user"; "admin"]%string (Decoded.role decoded))
            then Respond 401 "Invalid role in token"
            else
              Next (ReqUser.mk (Decoded.id decoded) (Decoded.role decoded)
                      (Decoded.email decoded) (or_false (Decoded.is_admin decoded))
                      (Decoded.iat decoded) (Decoded.exp decoded))
        | Throw error =>
            if message_is "Token expired" error
            then Respond 401 "Token expired"
            else if message_is "Invalid token" error
            then Respond 401 "Invalid token"
            else Respond 401 "Token verification failed"
        end
  end.

(** [optionalAuth]: the request always goes on, with or without a user. *)
Definition optionalAuth (jwt_verify : string → JwtVerify)
    (authorization : option string) : option ReqUser.t :=
  match extractTokenFromHeader authorization with
  | None => None
  | Some token =>
      if bool_decide (token = EmptyString) then None
      else
        match verifyToken jwt_verify token with
        | Return decoded =>
            if truthy (Decoded.id decoded) && truthy (Decoded.role decoded)
               && truthy (Decoded.email decoded)
               && includes ["user"; "admin"]%string (Decoded.role decoded)
            then Some (ReqUser.mk (Decoded.id decoded) (Decoded.role decoded)
                         (Decoded.email decoded) (or_false (Decoded.is_admin decoded))
                         (Decoded.iat decoded) (Decoded.exp decoded))
            else None
        | Throw _ => None
        end
  end.

(** [requireRole(...allowedRoles)] *)
Definition requireRole (allowedRoles : list string) (req_user : option ReqUser.t)
  : Middleware unit :=
  match req_user with
  | None => Respond 401 "Authentication required"
  | Some req_user =>
      let userRole := ReqUser.role req_user in
      if negb (includes allowedRoles userRole)
      then Respond 403 "Insufficient permissions"
      else Next tt
  end.

Definition requireAdmin := requireRole ["admin"%string].
Definition requireUser := requireRole ["user"%string].

(** A path parameter is a string, or absent. *)
Definition param (params : gmap string string) (k : string) : JsVal :=
  match params !! k with
  | Some v => JsStr v
  | None => JsUndefined
  end.

(** [a || b] *)
Definition js_or (a b : JsVal) : JsVal := if truthy a then a else b.

(** [requireSelfOrAdmin(userIdParam)] *)
Definition requireSelfOrAdmin (userIdParam : string) (req_user : option ReqUser.t)
    (params : gmap string string) (body : JsObject) : Middleware unit :=
  match req_user with
  | None => Respond 401 "Authentication required"
  | Some req_user =>
      if is_literal "admin" (ReqUser.role req_user) then Next tt
      else
        let targetUserId := js_or (param params userIdParam) (prop body userIdParam) in
        let currentUserId := ReqUser.id req_user in
        if negb (truthy targetUserId) then Respond 400 "User ID required"
        else if negb (bool_decide (targetUserId = currentUserId))
        then Respond 403 "You can only access your own resources"
        else Next tt
  end.

(** The result of [query(text, params)] of db/connection.js: the rows, each
    an object of column values, or a thrown error. *)
Inductive QueryResult : Type :=
  | Rows (rows : list JsObject)
  | QueryError.

(** [requireResourceOwnership(resourceTable, resourceIdParam, ownerField)] *)
Definition requireResourceOwnership (query : string → list JsVal → QueryResult)
    (resourceTable resourceIdParam ownerField : string)
    (req_user : option ReqUser.t) (params : gmap string string) : Middleware unit :=
  match req_user with
  | None => Respond 401 "Authentication required"
  | Some req_user =>
      if is_literal "admin" (ReqUser.role req_user) then Next tt
      else
        let resourceId := param params resourceIdParam in
        let currentUserId := ReqUser.id req_user in
        if negb (truthy resourceId) then Respond 400 "Resource ID required"
        else
          match query ("SELECT " +:+ ownerField +:+ " FROM " +:+ resourceTable
                       +:+ " WHERE id = $1") [resourceId] with
          | QueryError => Respond 500 "Failed to verify resource ownership"
          | Rows [] => Respond 404 "Resource not found"
          | Rows (row :: _) =>
              let resourceOwnerId := prop row ownerField in
              if negb (bool_decide (resourceOwnerId = currentUserId))
              then Respond 403 "You do not own this resource"
              else Next tt
          end
  end.

(** The stack in front of every [/api/user] route:
    [router.use(authenticateToken); router.use(requireUser)], and the one in
    front of every [/api/admin] route, with [requireAdmin]. *)
Definition user_routes_gate (jwt_verify : string → JwtVerify)
    (authorization : option string) : Middleware ReqUser.t :=
  match authenticateToken jwt_verify authorization with
  | Next req_user =>
      match requireUser (Some req_user) with
      | Next _ => Next req_user
      | Respond status message => Respond status message
      end
  | Respond status message => Respond status message
  end.

Definition admin_routes_gate (jwt_verify : string → JwtVerify)
    (authorization : option string) : Middleware ReqUser.t :=
  match authenticateToken jwt_verify authorization with
  | Next req_user =>
      match requireAdmin (Some req_user) with
      | Next _ => Next req_user
      | Respond status message => Respond status message
      end
  | Respond status message => Respond status message
  end.


(** [s.includes(c)] for a character. *)
Fixpoint mentions (c : Ascii.ascii) (s : string) : bool :=
  match s with
  | EmptyString => false
  | String c' rest => Ascii.eqb c' c || mentions c rest
  end.

(** [parts.join(sep)] *)
Fixpoint join (sep : Ascii.ascii) (parts : list string) : string :=
  match parts with
  | [] => EmptyString
  | [part] => part
  | part :: parts => part +:+ String sep (join sep parts)
  end.


(** * Error handling and the remaining services *)

(** ** middleware/error.middleware.js *)

(** [hay.includes(needle)] *)
Fixpoint contains (needle hay : string) : bool :=
  String.prefix needle hay
  || match hay with
     | EmptyString => false
     | String _ rest => contains needle rest
     end.

(** [msgs.join(', ')] *)
Fixpoint join_comma (msgs : list string) : string :=
  match msgs with
  | [] => EmptyString
  | [msg] => msg
  | msg :: msgs => msg +:+ ", " +:+ join_comma msgs
  end.

Module Err.
(** An error object as [errorHandler] inspects it.  [errors] holds the [msg]
    of each entry when [err.errors] is an array; [malformed_json] stands for
    [err instanceof SyntaxError && err.status === 400 && 'body' in err]. *)
Record t : Type := mk {
  name : string;
  message : string;
  code : JsVal;
  statusCode : JsVal;
  constraint : option string;
  errors : option (list string);
  malformed_json : bool;
  stack : string
}.
End Err.

Module Response.
(** [res.status(status).json({ status: 'error', message, details })] *)
Record t : Type := mk {
  status : Z;
  message : string;
  details_name : string;
  details_message : string;
  details_stack : string
}.
End Response.

Definition errorHandler (err : Err.t) : Response.t :=
  let answer : Z * string := (500, "Internal server error"%string) in
  let answer :=
    if String.eqb (Err.name err) "ValidationError"
    then (400, match Err.errors err with
               | Some msgs => join_comma msgs
               | None => "Validation error"%string
               end)
    else answer in
  let answer :=
    if String.eqb (Err.name err) "CastError" then (400, "Invalid data format"%string)
    else answer in
  let answer :=
    if is_literal "23505" (Err.code err)
    then (409, match Err.constraint err with
               | Some constraint =>
                   if negb (bool_decide (constraint = EmptyString))
                      && contains "email" constraint
                   then "Email already exists"%string
                   else "Resource already exists"%string
               | None => "Resource already exists"%string
               end)
    else answer in
  let answer :=
    if is_literal "23503" (Err.code err)
    then (400, "Referenced resource does not exist"%string)
    else answer in
  let answer :=
    if is_literal "23502" (Err.code err) then (400, "Required field missing"%string)
    else answer in
  let answer :=
    if is_literal "42501" (Err.code err) then (403, "Access denied"%string)
    else answer in
  let answer :=
    if String.eqb (Err.name err) "JsonWebTokenError"
    then (401, "Invalid authentication token"%string)
    else answer in
  let answer :=
    if String.eqb (Err.name err) "TokenExpiredError"
    then (401, "Authentication token expired"%string)
    else answer in
  let answer :=
    if String.eqb (Err.message err) "Invalid email or password"
    then (401, "Invalid email or password"%string)
    else answer in
  let answer :=
    if bool_decide (Err.statusCode err = JsNum 429) then (429, "Too many requests"%string)
    else answer in
  let answer :=
    if Err.malformed_json err
    then (400, "Invalid JSON format: " +:+ Err.message err)
    else answer in
  (* the test on NODE_ENV around [details] is commented out in the source *)
  Response.mk answer.1 answer.2 (Err.name err) (Err.message err) (Err.stack err).

(** The object [new Error(message)] is. *)
Definition new_Error (message stack : string) : Err.t :=
  Err.mk "Error" message JsUndefined JsUndefined None None false stack.

(** What [asyncHandler] forwards to [errorHandler] when a service throws:
    the [Error] itself, or the request error of the Prisma client with its
    code and the client's own text. *)
Definition forwarded (error : Error) (prisma_text stack : string) : Err.t :=
  match error with
  | JsError message => new_Error message stack
  | PrismaError code =>
      if String.eqb code "PrismaClientValidationError"
      then Err.mk "PrismaClientValidationError" prisma_text JsUndefined JsUndefined
             None None false stack
      else Err.mk "PrismaClientKnownRequestError" prisma_text (JsStr code) JsUndefined
             None None false stack
  end.

(** ** services/auth.service.js, continued *)

Definition Invalid_email_or_password : Error := JsError "Invalid email or password".

Module LoginUser.
(** The [user] part of what [login] returns. *)
Record t : Type := mk {
  id : string;
  full_name : string;
  email : string;
  role : Role;
  is_admin : bool
}.
End LoginUser.

(** [bcrypt.compare(s, hash)] is handed a string and a hash, and throws
    when [s] is no string. *)
Definition bcrypt_compare_js (bcrypt_compare : string → string → bool)
    (s : JsVal) (hash : string) : M bool :=
  match s with
  | JsStr s => mret (bcrypt_compare s hash)
  | _ => throw (JsError ("Illegal arguments: " +:+ typeof s +:+ ", string"))
  end.

Definition login (env : Env) (bcrypt_compare : string → string → bool)
    (email password : JsVal) (now : Z) : M (LoginUser.t * string) :=
  try_catch
    (if negb (truthy email) || negb (truthy password)
     then throw (JsError "Email and password are required")
     else
       user ←
         match email with
         | JsStr e => prisma.user.findUnique (λ u, bool_decide (User.email u = e))
         | _ => throw PrismaClientValidationError
         end;
       match user with
       | None => throw Invalid_email_or_password
       | Some account =>
           isPasswordValid ←
             bcrypt_compare_js bcrypt_compare password (User.password account);
           if negb isPasswordValid then throw Invalid_email_or_password
           else
             token ← generateToken env (User.id account) (User.role account)
                       (User.email account) (User.is_admin account) now;
             mret (LoginUser.mk (User.id account) (User.full_name account)
                     (User.email account) (User.role account) (User.is_admin account),
                   token)
       end)
    (λ error, throw error).

Definition changePassword (env : Env) (bcrypt_compare : string → string → bool)
    (userId : string) (currentPassword newPassword : JsVal) (now : Z) : M unit :=
  try_catch
    (if negb (truthy currentPassword) || negb (truthy newPassword)
     then throw (JsError "Current password and new password are required")
     else
       user ← prisma.user.findUnique (λ u, bool_decide (User.id u = userId));
       match user with
       | None => throw (JsError "User not found")
       | Some account =>
           isCurrentPasswordValid ←
             bcrypt_compare_js bcrypt_compare currentPassword (User.password account);
           if negb isCurrentPasswordValid
           then throw (JsError "Current password is incorrect")
           else
             new_password_hash ←
               match newPassword with
               | JsStr p => mret (bcrypt_hash env p 12)
               | _ => throw (JsError ("Illegal arguments: " +:+ typeof newPassword
                                      +:+ ", number"))
               end;
             prisma.user.update userId
               (list_to_map [("password"%string, JsStr new_password_hash)]) now;;
             mret tt
       end)
    (λ error, throw error).

Definition verifyUser (userId : string) : M LoginUser.t :=
  try_catch
    (user ← prisma.user.findUnique (λ u, bool_decide (User.id u = userId));
     match user with
     | None => throw (JsError "User not found")
     | Some account =>
         mret (LoginUser.mk (User.id account) (User.full_name account)
                 (User.email account) (User.role account) (User.is_admin account))
     end)
    (λ error, throw error).


(** What the client receives when a service call ends: the error handler's
    answer when the service threw, nothing from the handler when it
    returned (the controller then answers with a 2xx status). *)
Definition handled {A} (result : Outcome A) (prisma_text stack : string)
  : option Response.t :=
  match result with
  | Throw error => Some (errorHandler (forwarded error prisma_text stack))
  | Return _ => None
  end.


(** Two versions of an account with the same identifier, e-mail and
    password hash. *)
Definition same_credentials (u u' : User.t) : Prop :=
  User.id u' = User.id u ∧ User.email u' = User.email u
  ∧ User.password u' = User.password u.

(** [bcrypt.compare] accepts a password against its own hash. *)
Definition bcrypt_sound (env : Env) (bcrypt_compare : string → string → bool) : Prop :=
  ∀ p, bcrypt_compare p (bcrypt_hash env p 12) = true.

(** ** middleware/auth.middleware.js, continued *)

Module RefreshTokenData.
(** What [validateRefreshToken] attaches as [req.refreshTokenData]. *)
Record t : Type := mk { id : JsVal; role : JsVal; email : JsVal; is_admin : JsVal }.
End RefreshTokenData.

(** [validateRefreshToken]; a refresh token that is not a string is refused
    by [jwt.verify], which [verifyToken] reports as an invalid token. *)
Definition validateRefreshToken (jwt_verify : string → JwtVerify) (body : JsObject)
  : Middleware RefreshTokenData.t :=
  let refreshToken := prop body "refreshToken" in
  if negb (truthy refreshToken) then Respond 400 "Refresh token required"
  else
    match refreshToken with
    | JsStr token =>
        match verifyToken jwt_verify token with
        | Return decoded =>
            Next (RefreshTokenData.mk (Decoded.id decoded) (Decoded.role decoded)
                    (Decoded.email decoded) (or_false (Decoded.is_admin decoded)))
        | Throw _ => Respond 401 "Invalid refresh token"
        end
    | _ => Respond 401 "Invalid refresh token"
    end.

(** [validateAdminSignupSecret], with [process.env.ADMIN_SIGNUP_SECRET]. *)
Definition validateAdminSignupSecret (ADMIN_SIGNUP_SECRET : option string)
    (body : JsObject) : Middleware unit :=
  let adminSecret := prop body "adminSecret" in
  match ADMIN_SIGNUP_SECRET with
  | None => Respond 500 "Admin signup not properly configured"
  | Some expectedSecret =>
      if bool_decide (expectedSecret = EmptyString)
      then Respond 500 "Admin signup not properly configured"
      else if negb (truthy adminSecret) then Respond 400 "Admin signup secret required"
      else if negb (bool_decide (adminSecret = JsStr expectedSecret))
      then Respond 401 "Invalid admin signup secret"
      else Next tt
  end.

(** ** What no request changes *)

(** The columns of a row that identify it: who it belongs to, what it is
    for, for how much, and when it was created. *)
Definition same_user_identity (u u' : User.t) : Prop :=
  User.id u' = User.id u ∧ User.email u' = User.email u
  ∧ User.created_at u' = User.created_at u.

Definition same_enrollment_identity (e e' : Enrollment.t) : Prop :=
  Enrollment.id e' = Enrollment.id e ∧ Enrollment.user_id e' = Enrollment.user_id e
  ∧ Enrollment.training_id e' = Enrollment.training_id e
  ∧ Enrollment.created_at e' = Enrollment.created_at e.

Definition same_payment_identity (p p' : Payment.t) : Prop :=
  Payment.id p' = Payment.id p ∧ Payment.user_id p' = Payment.user_id p
  ∧ Payment.training_id p' = Payment.training_id p
  ∧ Payment.amount p' = Payment.amount p
  ∧ Payment.payment_method p' = Payment.payment_method p
  ∧ Payment.created_at p' = Payment.created_at p.

(** A table grows: its rows are kept, in place and up to [Q], and rows may
    be added after them. *)
Definition grows {A} (Q : A → A → Prop) (rows rows' : list A) : Prop :=
  ∃ kept added, rows' = kept ++ added ∧ Forall2 Q rows kept.

Definition history_kept (d d' : Db) : Prop :=
  training_programs d' = training_programs d
  ∧ grows same_user_identity (users d) (users d')
  ∧ grows same_enrollment_identity (enrollments d) (enrollments d')
  ∧ grows same_payment_identity (payments d) (payments d').

(** ** What a member cannot touch *)

(** Everything that does not belong to member [U] is as it was: the training
    programs, the accounts of the others, every enrollment row, the payments
    of the others. *)
Definition isolated (U : string) (d d' : Db) : Prop :=
  training_programs d' = training_programs d
  ∧ (∀ i u, users d !! i = Some u → User.id u ≠ U → users d' !! i = Some u)
  ∧ (∀ i e, enrollments d !! i = Some e → enrollments d' !! i = Some e)
  ∧ (∀ i q, payments d !! i = Some q → Payment.user_id q ≠ U →
            payments d' !! i = Some q).

(** The requests of the public and user routes, made by member [U]: the
    controllers pass [req.user.id] as [userId]. *)
Definition member_request (U : string) (r : Request) : bool :=
  match r with
  | Signup _ _ => true
  | UpdateProfile userId _ _
  | CreateEnrollment userId _ _ _
  | CreateEnrollmentWithDetails userId _ _ _ _
  | InitiatePayment userId _ _ _
  | ConfirmPayment userId _ _ _
  | GetPaymentStatus userId _ _ => bool_decide (userId = U)
  | AdminUpdateUserRole _ _ _
  | AdminUpdateEnrollmentStatus _ _ _
  | AdminUpdatePaymentStatus _ _ _ => false
  end.

(** [preserves], from one database. *)
Definition preserves_at (R : Db → Db → Prop) (d : Db) {A} (m : M A) : Prop :=
  R d (db_after (m d)) ∧ Forall (R d) (commits (m d)).

(** ** Keys *)

(** The primary keys of the three tables the services write, and the unique
    index on [users.email]. *)
Definition keys_unique (d : Db) : Prop :=
  NoDup (User.id <$> users d) ∧ NoDup (User.email <$> users d)
  ∧ NoDup (Enrollment.id <$> enrollments d) ∧ NoDup (Payment.id <$> payments d).

Definition keeps_keys (d d' : Db) : Prop := keys_unique d → keys_unique d'.

(** The enrollments a rejected payment reopens. *)
Definition matching_enrolled (p : Payment.t) (e : Enrollment.t) : bool :=
  bool_decide (Enrollment.user_id e = Payment.user_id p)
  && bool_decide (Enrollment.training_id e = Payment.training_id p)
  && bool_decide (Enrollment.status e = enrolled).

(** The payment row [initiatePaymentForEnrollment] creates. *)
Definition new_payment (uuid userId : string) (prog : TrainingProgram.t) (now : Z)
  : Payment.t :=
  Payment.mk uuid userId (TrainingProgram.id prog) (TrainingProgram.price prog) "UPI"
    None pending_verification now now.

(** The UPI link of a payment session. *)
Definition session_link (env : Env) (prog : TrainingProgram.t) (now : Z)
    (enrollmentId : string) : string :=
  userService.generateUpiLink env
    (env_or (COMPANY_UPI_ID env) "qthink@paytm")
    (env_or (COMPANY_NAME env) "QThink Solutions")
    (TrainingProgram.price prog)
    ("Payment for " +:+ TrainingProgram.title prog)
    (userService.TXN now enrollmentId).

(** What a payment session for a new payment answers, given the QR code. *)
Definition new_session (env : Env) (uuid enrollmentId : string)
    (prog : TrainingProgram.t) (now : Z) (qr : string) : PaymentSession.t :=
  PaymentSession.mk uuid enrollmentId (TrainingProgram.title prog)
    (TrainingProgram.price prog) (session_link env prog now enrollmentId) qr
    (userService.TXN now enrollmentId) (now + 300000) 300.




(** What an enrollment request leaves behind: nothing when it throws; when it
    returns an enrollment, the caller's 'pending_payment' enrollment in an
    active training program, either the one that was there or one new row. *)
Definition enrollment_request_post (userId : string) (trainingId : JsVal)
    (uuid : string) (now : Z) (d : Db) (r : Run Enrollment.t) : Prop :=
  match outcome r with
  | Throw _ => db_after r = d ∧ commits r = []
  | Return e =>
      ∃ tid prog,
        trainingId = JsStr tid ∧ active_program d tid prog
        ∧ Enrollment.user_id e = userId ∧ Enrollment.training_id e = tid
        ∧ Enrollment.status e = pending_payment
        ∧ payments (db_after r) = payments d
        ∧ training_programs (db_after r) = training_programs d
        ∧ (enrollments (db_after r) = enrollments d ∧ enrolled_pair d userId tid e
           ∨ enrollments (db_after r) = enrollments d ++ [e]
             ∧ e = Enrollment.mk uuid userId tid pending_payment now now)
  end.


(** ** Sample tokens *)

Definition asha_claims : Decoded.t :=
  Decoded.mk (JsStr "u1") (JsStr "user") (JsStr "asha@example.com") (JsBool false)
    (Some 1700000000) (Some 1700086400).
Definition root_claims : Decoded.t :=
  Decoded.mk (JsStr "a1") (JsStr "admin") (JsStr "root@example.com") (JsBool true)
    (Some 1700000000) (Some 1700086400).
Definition odd_claims : Decoded.t :=
  Decoded.mk (JsStr "u7") (JsStr "superuser") (JsStr "eve@example.com") (JsBool true)
    (Some 1700000000) (Some 1700086400).

(** A verifier that knows four tokens. *)
Definition jwt_verify0 (token : string) : JwtVerify :=
  if String.eqb token "asha.token" then JwtPayload asha_claims
  else if String.eqb token "root.token" then JwtPayload root_claims
  else if String.eqb token "odd.token" then JwtPayload odd_claims
  else if String.eqb token "old.token" then JwtThrows "TokenExpiredError" "jwt expired"
  else JwtThrows "JsonWebTokenError" "invalid signature".

(** A [bcrypt.compare] for [env0]: the hash is the prefix followed by the
    password. *)
Definition bcrypt_compare0 (password hash : string) : bool :=
  String.eqb hash ("$2a$12$" +:+ password).

(** An enrollment awaiting its first payment. *)
Definition db1 : Db := mkDb [asha; root] [rocq101; retired] [e1 pending_payment] [].

(** A body that sends an access token as refresh token. *)
Definition refresh_body : JsObject :=
  list_to_map [("refreshToken"%string, JsStr "asha.token")].


(** A member and a catalogue, nothing else yet. *)
Definition db2 : Db := mkDb [asha; root] [rocq101; retired] [] [].

(** * Properties *)

(** ** The monad *)

(** [catch (error) { throw error; }] changes nothing. *)
Lemma try_rethrow {A} (m : M A) (d : Db) : try_catch m (λ error, throw error) d = m d.
Proof.
  unfold try_catch, throw. destruct (m d) as [[a|e] d' cs]; simpl; [done|].
  by rewrite app_nil_r.
Qed.

Ltac unfold_monad :=
  unfold prisma._transaction, transaction, mbind, M_bind, mret, M_ret, throw, query,
    execute, deref.

(** ** [includes] on the status lists *)

Lemma includes_cases (xs : list string) (v : JsVal) :
  includes xs v = true → ∃ s, v = JsStr s ∧ s ∈ xs.
Proof.
  destruct v as [| | | |s]; simpl; try done.
  intros (s' & Hin & Heq)%existsb_exists.
  apply String.eqb_eq in Heq as <-. exists s. by rewrite list_elem_of_In.
Qed.

Lemma includes_payment_status (v : JsVal) :
  includes ["pending_verification"; "verified"; "failed"; "refunded"]%string v = true →
  v = JsStr "pending_verification" ∨ v = JsStr "verified" ∨ v = JsStr "failed"
  ∨ v = JsStr "refunded".
Proof.
  intros (s & -> & Hin)%includes_cases.
  repeat (apply elem_of_cons in Hin as [->|Hin]; [tauto|]).
  by apply elem_of_nil in Hin.
Qed.

(** ** Rows rewritten in place *)

Lemma update_where_lookup {A} (P : A → bool) (f : A → A) (rows : list A) (i : nat) :
  update_where P f rows !! i = (λ r, if P r then f r else r) <$> rows !! i.
Proof. apply list_lookup_fmap. Qed.

Lemma update_where_elem {A} (P : A → bool) (f : A → A) (rows : list A) (r' : A) :
  r' ∈ update_where P f rows ↔ ∃ r, r ∈ rows ∧ r' = if P r then f r else r.
Proof.
  unfold update_where. rewrite list_elem_of_fmap.
  split; intros (r & H1 & H2); exists r; by split.
Qed.


(** ** Administrator payment-status update *)

(** The update is one transaction: it either throws, leaving the database as
    it was with nothing committed, or commits exactly once, the final state. *)
Lemma updatePaymentStatus_atomic adminId adminRole paymentId status now d :
  let r := adminService.updatePaymentStatus adminId adminRole paymentId status now d in
  (∃ e, outcome r = Throw e ∧ db_after r = d ∧ commits r = [])
  ∨ (∃ q, outcome r = Return q ∧ commits r = [db_after r]).
Proof.
  unfold adminService.updatePaymentStatus. rewrite try_rethrow.
  destruct (includes _ status) eqn:Hin; [|left; eauto].
  unfold_monad. unfold prisma.payment.update.
  destruct (includes_payment_status _ Hin) as [-> | [-> | [-> | ->]]]; simpl;
    (destruct (List.find _ (payments d)) as [p|]; simpl; [right|left]; eauto).
Qed.

(** C1. When an administrator sets a payment to 'verified' (confirmed), the
    payment becomes verified and every enrollment of the same user and
    training program that is 'pending_payment' (awaiting payment) becomes
    'enrolled', all other enrollments keeping their status; both changes are
    committed together, so the only database states that can be observed are
    the one before and the one after. *)
Theorem C1_confirmation_cascades_in_one_transaction
    (adminId : string) (adminRole : Role) (paymentId : string) (now : Z) (d : Db)
    (p : Payment.t) :
  List.find (λ q, bool_decide (Payment.id q = paymentId)) (payments d) = Some p →
  let op := adminService.updatePaymentStatus adminId adminRole paymentId
              (JsStr "verified") now in
  let d' := db_after (op d) in
  outcome (op d) = Return (Payment.set_updated_at now (Payment.set_status verified p))
  ∧ (∀ q, q ∈ payments d' → Payment.id q = paymentId → Payment.status q = verified)
  ∧ (∀ i e, enrollments d !! i = Some e →
       ∃ e', enrollments d' !! i = Some e'
             ∧ Enrollment.id e' = Enrollment.id e
             ∧ Enrollment.status e' =
                 if matching_pending p e then enrolled else Enrollment.status e)
  ∧ observable op d = [d; d'].
Proof.
  intros Hp op d'. subst op d'. unfold observable, adminService.updatePaymentStatus.
  rewrite try_rethrow. simpl. unfold_monad. unfold prisma.payment.update.
  rewrite Hp. simpl. split_and!; [done| | |done].
  - intros q [r [_ ->]]%update_where_elem Hid.
    case_bool_decide; [done|]. simpl in Hid. congruence.
  - intros i e Hi. rewrite update_where_lookup, Hi. simpl.
    unfold matching_pending. eexists; split; [done|].
    by destruct (_ && _).
Qed.

(** C9, in the form the code satisfies. A target status outside the four values the service
    lists -- 'pending_verification', 'verified', 'failed', 'refunded' -- is
    refused with 'Invalid payment status'; the database is left as it was and
    nothing is committed. *)
Theorem C9_unlisted_status_is_refused
    (adminId : string) (adminRole : Role) (paymentId : string) (status : JsVal)
    (now : Z) (d : Db) :
  includes ["pending_verification"; "verified"; "failed"; "refunded"]%string status = false →
  let r := adminService.updatePaymentStatus adminId adminRole paymentId status now d in
  outcome r = Throw Invalid_payment_status ∧ db_after r = d ∧ commits r = [].
Proof.
  intros Hno. unfold adminService.updatePaymentStatus. rewrite try_rethrow.
  by rewrite Hno.
Qed.

(** ** Member confirmation and status read *)

Lemma find_and {A} (P Q : A → bool) (rows : list A) (r : A) :
  List.find P rows = Some r → Q r = true →
  List.find (λ x, P x && Q x) rows = Some r.
Proof.
  induction rows as [|x rows IH]; simpl; [done|].
  destruct (P x) eqn:HP; simpl.
  - intros [= ->] ->. done.
  - auto.
Qed.

Lemma payment_of_findFirst d paymentId userId p :
  payment_of d paymentId userId p →
  List.find (λ q, bool_decide (Payment.id q = paymentId)
                  && bool_decide (Payment.user_id q = userId)) (payments d) = Some p.
Proof.
  intros [Hfind Hown]. apply find_and; [done|]. by apply bool_decide_eq_true.
Qed.

Ltac run_service :=
  rewrite ?try_rethrow; unfold_monad;
  unfold prisma.payment.findFirst, prisma.payment.update,
    prisma.trainingProgram.findFirst, prisma.enrollment.findFirst, query; simpl.

(** What [confirmPayment] does to a payment found for the caller, by cases. *)
Lemma confirmPayment_not_pending userId userRole paymentId ref now d p :
  payment_of d paymentId userId p →
  Payment.status p ≠ pending_verification →
  let r := userService.confirmPayment userId userRole paymentId ref now d in
  outcome r = Throw Payment_not_pending ∧ db_after r = d ∧ commits r = [].
Proof.
  intros Hp Hst. pose proof (payment_of_findFirst _ _ _ _ Hp) as Hfind.
  unfold userService.confirmPayment. run_service. rewrite Hfind. simpl.
  by rewrite bool_decide_eq_false_2.
Qed.

Lemma confirmPayment_expired userId userRole paymentId ref now d p :
  payment_of d paymentId userId p →
  Payment.status p = pending_verification →
  window_elapsed p now →
  let r := userService.confirmPayment userId userRole paymentId ref now d in
  outcome r = Throw Payment_session_expired
  ∧ db_after r = set_payments
      (update_where (λ q, bool_decide (Payment.id q = paymentId))
         (λ q, Payment.set_updated_at now (Payment.set_status failed q))) d
  ∧ commits r = [db_after r].
Proof.
  intros Hp Hst Hlate. pose proof (payment_of_findFirst _ _ _ _ Hp) as Hfind.
  destruct Hp as [Hid _]. unfold userService.confirmPayment. run_service.
  rewrite Hfind. simpl. rewrite (bool_decide_eq_true_2 _ Hst). simpl.
  rewrite (bool_decide_eq_true_2 _ Hlate). run_service. by rewrite Hid.
Qed.

Lemma confirmPayment_in_window userId userRole paymentId ref now d p :
  payment_of d paymentId userId p →
  Payment.status p = pending_verification →
  ¬ window_elapsed p now →
  optional_reference ref →
  let r := userService.confirmPayment userId userRole paymentId ref now d in
  outcome r = Return (Payment.set_updated_at now
                        (Payment.set_transaction_reference (recorded_reference ref) p))
  ∧ db_after r = set_payments
      (update_where (λ q, bool_decide (Payment.id q = paymentId))
         (λ q, Payment.set_updated_at now
                 (Payment.set_transaction_reference (recorded_reference ref) q))) d
  ∧ commits r = [db_after r].
Proof.
  intros Hp Hst Hearly Href. pose proof (payment_of_findFirst _ _ _ _ Hp) as Hfind.
  destruct Hp as [Hid _]. unfold userService.confirmPayment. run_service.
  rewrite Hfind. simpl. rewrite (bool_decide_eq_true_2 _ Hst). simpl.
  rewrite (bool_decide_eq_false_2 _ Hearly). unfold recorded_reference, or_null.
  destruct ref as [| |[]|n|s]; simpl in *; try done; run_service; try (by rewrite Hid).
  destruct (bool_decide (s = EmptyString)); run_service; by rewrite Hid.
Qed.

Lemma find_update_where {A} (P : A → bool) (f : A → A) (rows : list A) :
  (∀ r, P (f r) = P r) →
  List.find P (update_where P f rows) = f <$> List.find P rows.
Proof.
  intros Hf. induction rows as [|x rows IH]; simpl; [done|].
  destruct (P x) eqn:HP; simpl.
  - by rewrite Hf, HP.
  - by rewrite HP.
Qed.

(** The payment [paymentId] after an update of its columns other than the
    identifier and the owner. *)
Lemma payment_of_updated d paymentId userId p (f : Payment.t → Payment.t) :
  (∀ q, Payment.id (f q) = Payment.id q) →
  (∀ q, Payment.user_id (f q) = Payment.user_id q) →
  payment_of d paymentId userId p →
  payment_of
    (set_payments (update_where (λ q, bool_decide (Payment.id q = paymentId)) f) d)
    paymentId userId (f p).
Proof.
  intros Hid Hown [Hfind <-]. split; [|done]. simpl.
  rewrite find_update_where; [by rewrite Hfind|].
  intros q. by rewrite Hid.
Qed.

(** C6, in the form the code satisfies.  Member confirmation of a payment
    succeeds only while the payment is 'pending_verification' (awaiting
    verification) and its five-minute window has not elapsed; it then
    records the optional transaction reference and the payment stays
    'pending_verification'.  When the window of a payment that is
    'pending_verification' has elapsed, the payment is set to 'failed'
    (rejected) and the call fails with 'Payment session expired'.  The
    status is looked at before the window: a payment in any other status is
    refused with 'Payment is not in pending verification status' and left as
    it is, whether or not its window has elapsed. *)
Theorem C6_member_confirmation
    (userId : string) (userRole : Role) (paymentId : string) (ref : JsVal) (now : Z)
    (d : Db) (p : Payment.t) :
  payment_of d paymentId userId p →
  let r := userService.confirmPayment userId userRole paymentId ref now d in
  ((∃ q, outcome r = Return q) →
     Payment.status p = pending_verification ∧ ¬ window_elapsed p now)
  ∧ (Payment.status p = pending_verification → ¬ window_elapsed p now →
     optional_reference ref →
     ∃ q, outcome r = Return q
          ∧ payment_of (db_after r) paymentId userId q
          ∧ Payment.transaction_reference q = recorded_reference ref
          ∧ Payment.status q = pending_verification)
  ∧ (Payment.status p = pending_verification → window_elapsed p now →
     outcome r = Throw Payment_session_expired
     ∧ ∃ q, payment_of (db_after r) paymentId userId q ∧ Payment.status q = failed)
  ∧ (Payment.status p ≠ pending_verification →
     outcome r = Throw Payment_not_pending ∧ db_after r = d ∧ commits r = []).
Proof.
  intros Hp r. subst r. split_and!.
  - intros [q Hq].
    destruct (decide (Payment.status p = pending_verification)) as [Hst|Hst].
    + split; [done|]. intros Hlate.
      destruct (confirmPayment_expired _ userRole _ ref _ _ _ Hp Hst Hlate) as (Ho & _).
      congruence.
    + destruct (confirmPayment_not_pending _ userRole _ ref now _ _ Hp Hst) as (Ho & _).
      congruence.
  - intros Hst Hearly Href.
    destruct (confirmPayment_in_window _ userRole _ _ _ _ _ Hp Hst Hearly Href)
      as (Ho & Hd & _).
    eexists. split; [exact Ho|]. rewrite Hd. split_and!; [|done|done].
    by apply (payment_of_updated _ _ _ _
                (λ q, Payment.set_updated_at now
                        (Payment.set_transaction_reference (recorded_reference ref) q))).
  - intros Hst Hlate.
    destruct (confirmPayment_expired _ userRole _ ref _ _ _ Hp Hst Hlate) as (Ho & Hd & _).
    split; [done|]. rewrite Hd.
    exists (Payment.set_updated_at now (Payment.set_status failed p)). split; [|done].
    by apply (payment_of_updated _ _ _ _
                (λ q, Payment.set_updated_at now (Payment.set_status failed q))).
  - intros Hst. exact (confirmPayment_not_pending _ userRole _ ref now _ _ Hp Hst).
Qed.

(** C10. While a payment is 'pending_verification' and inside its window, a
    member confirmation that omits the transaction reference, or passes the
    empty string, stores [null] as the payment's transaction reference,
    whatever reference an earlier confirmation had recorded. *)
Theorem C10_confirmation_without_reference_erases_it
    (userId : string) (userRole : Role) (paymentId : string) (ref : JsVal) (now : Z)
    (d : Db) (p : Payment.t) :
  payment_of d paymentId userId p →
  Payment.status p = pending_verification →
  ¬ window_elapsed p now →
  ref = JsUndefined ∨ ref = JsStr EmptyString →
  let r := userService.confirmPayment userId userRole paymentId ref now d in
  ∃ q, outcome r = Return q
       ∧ payment_of (db_after r) paymentId userId q
       ∧ Payment.transaction_reference q = None.
Proof.
  intros Hp Hst Hearly Href.
  assert (optional_reference ref ∧ recorded_reference ref = None) as [Hopt Hrec].
  { by destruct Href as [-> | ->]. }
  destruct (confirmPayment_in_window _ userRole _ _ _ _ _ Hp Hst Hearly Hopt)
    as (Ho & Hd & _).
  simpl. eexists. split; [exact Ho|]. rewrite Hd, Hrec. split; [|done].
  by apply (payment_of_updated _ _ _ _
              (λ q, Payment.set_updated_at now (Payment.set_transaction_reference None q))).
Qed.

Lemma getPaymentStatus_expired userId userRole paymentId now d p prog :
  payment_of d paymentId userId p →
  program_of d (Payment.training_id p) prog →
  Payment.status p = pending_verification →
  window_elapsed p now →
  let r := userService.getPaymentStatus userId userRole paymentId now d in
  outcome r = Return (PaymentStatusView.mk (Payment.id p) failed (Payment.amount p)
                        (TrainingProgram.title prog) (Payment.transaction_reference p)
                        (Payment.created_at p) true)
  ∧ db_after r = set_payments
      (update_where (λ q, bool_decide (Payment.id q = paymentId))
         (λ q, Payment.set_updated_at now (Payment.set_status failed q))) d
  ∧ commits r = [db_after r].
Proof.
  intros Hp Hprog Hst Hlate. pose proof (payment_of_findFirst _ _ _ _ Hp) as Hfind.
  destruct Hp as [Hid _]. unfold userService.getPaymentStatus. run_service.
  rewrite Hfind. simpl. rewrite Hprog. simpl.
  rewrite (bool_decide_eq_true_2 _ Hst), (bool_decide_eq_true_2 _ Hlate).
  run_service. by rewrite Hid.
Qed.

Lemma getPaymentStatus_in_window userId userRole paymentId now d p prog :
  payment_of d paymentId userId p →
  program_of d (Payment.training_id p) prog →
  ¬ window_elapsed p now →
  let r := userService.getPaymentStatus userId userRole paymentId now d in
  outcome r = Return (PaymentStatusView.mk (Payment.id p) (Payment.status p)
                        (Payment.amount p) (TrainingProgram.title prog)
                        (Payment.transaction_reference p) (Payment.created_at p) false)
  ∧ db_after r = d
  ∧ commits r = [].
Proof.
  intros Hp Hprog Hearly. pose proof (payment_of_findFirst _ _ _ _ Hp) as Hfind.
  unfold userService.getPaymentStatus. run_service.
  rewrite Hfind. simpl. rewrite Hprog. simpl.
  rewrite (bool_decide_eq_false_2 _ Hearly), andb_false_r. by run_service.
Qed.

(** C7. For a payment that is 'pending_verification' (awaiting
    verification), a status read one millisecond past the end of the
    five-minute window sets the payment to 'failed' (rejected) -- the write is
    committed by the read itself -- and the answer carries status 'failed'
    and [is_expired = true]; a read one millisecond before the end of the
    window answers 'pending_verification' with [is_expired = false] and
    leaves the database as it was. *)
Theorem C7_status_read_expires_lazily
    (userId : string) (userRole : Role) (paymentId : string) (d : Db)
    (p : Payment.t) (prog : TrainingProgram.t) :
  payment_of d paymentId userId p →
  program_of d (Payment.training_id p) prog →
  Payment.status p = pending_verification →
  let boundary := Payment.created_at p + FIVE_MINUTES in
  let late := userService.getPaymentStatus userId userRole paymentId (boundary + 1) d in
  let early := userService.getPaymentStatus userId userRole paymentId (boundary - 1) d in
  (∃ v, outcome late = Return v
        ∧ PaymentStatusView.status v = failed
        ∧ PaymentStatusView.is_expired v = true)
  ∧ (∃ q, payment_of (db_after late) paymentId userId q ∧ Payment.status q = failed)
  ∧ commits late = [db_after late]
  ∧ (∃ v, outcome early = Return v
          ∧ PaymentStatusView.status v = pending_verification
          ∧ PaymentStatusView.is_expired v = false)
  ∧ db_after early = d
  ∧ commits early = [].
Proof.
  intros Hp Hprog Hst boundary late early. subst boundary late early.
  assert (window_elapsed p (Payment.created_at p + FIVE_MINUTES + 1)) as Hlate
    by (unfold window_elapsed; lia).
  assert (¬ window_elapsed p (Payment.created_at p + FIVE_MINUTES - 1)) as Hearly
    by (unfold window_elapsed; lia).
  destruct (getPaymentStatus_expired _ userRole _ _ _ _ _ Hp Hprog Hst Hlate)
    as (Ho & Hd & Hc).
  destruct (getPaymentStatus_in_window _ userRole _ _ _ _ _ Hp Hprog Hearly)
    as (Ho' & Hd' & Hc').
  split_and!; [by eexists| |done| |done|done].
  - rewrite Hd. exists (Payment.set_updated_at (Payment.created_at p + FIVE_MINUTES + 1)
                          (Payment.set_status failed p)). split; [|done].
    by apply (payment_of_updated _ _ _ _
                (λ q, Payment.set_updated_at (Payment.created_at p + FIVE_MINUTES + 1)
                        (Payment.set_status failed q))).
  - eexists. split; [exact Ho'|]. by rewrite <-Hst.
Qed.

(** ** Initiating a payment again *)

Lemma append_length (a b : string) :
  String.length (a +:+ b) = (String.length a + String.length b)%nat.
Proof. induction a as [|c a IH]; simpl; [done|]. by rewrite IH. Qed.

Lemma append_cancel_r (a b r : string) : a +:+ r = b +:+ r → a = b.
Proof.
  revert b. induction a as [|c a IH]; intros [|c' b] Heq; simpl in *.
  - done.
  - apply (f_equal String.length) in Heq. rewrite !append_length in Heq.
    simpl in Heq. exfalso. lia.
  - apply (f_equal String.length) in Heq. rewrite !append_length in Heq.
    simpl in Heq. exfalso. lia.
  - injection Heq as -> Heq. f_equal. by apply IH.
Qed.

(** The reference is a function of the clock reading, and a different
    reading gives a different reference. *)
Lemma TXN_inj (now1 now2 : Z) (enrollmentId : string) :
  userService.TXN now1 enrollmentId = userService.TXN now2 enrollmentId ↔ now1 = now2.
Proof.
  split; [|by intros ->]. unfold userService.TXN. intros Heq.
  simpl in Heq. injection Heq as Heq. change (EmptyString +:+ ?x) with x in Heq.
  apply append_cancel_r in Heq. by apply (inj pretty) in Heq.
Qed.

(** A call that finds a payment under verification inside its window answers
    with that payment and writes nothing. *)
Lemma initiatePayment_reuses env userId userRole enrollmentId uuid now d e prog p :
  enrollment_of d enrollmentId userId e →
  Enrollment.status e = pending_payment →
  program_of d (Enrollment.training_id e) prog →
  unresolved_payment d userId (Enrollment.training_id e) p →
  ¬ window_elapsed p now →
  (∀ text, is_Some (QRCode_toDataURL env text)) →
  let r := userService.initiatePaymentForEnrollment env userId userRole enrollmentId
             uuid now d in
  (∃ s, outcome r = Return s
        ∧ PaymentSession.payment_id s = Payment.id p
        ∧ PaymentSession.payment_reference s = userService.TXN now enrollmentId)
  ∧ db_after r = d
  ∧ commits r = [].
Proof.
  intros He Hst Hprog Hpay Hearly Hqr.
  unfold userService.initiatePaymentForEnrollment. run_service.
  rewrite He. simpl. rewrite Hprog. simpl.
  rewrite (bool_decide_eq_true_2 _ Hst). simpl. rewrite Hpay. simpl.
  rewrite (bool_decide_eq_false_2 _ Hearly). run_service.
  unfold userService.generateQRCode.
  match goal with |- context [QRCode_toDataURL env ?t] =>
    destruct (Hqr t) as [qr ->] end.
  run_service. split_and!; [|done|done].
  eexists. split_and!; reflexivity.
Qed.

(** C5, in the form the code satisfies.  For an enrollment that is
    'pending_payment', when the payment the lookup returns -- the first
    payment of the same user and training program that is
    'pending_verification' -- is inside its window at both calls, two
    initiate-payment calls both answer with the identifier of that payment
    and write nothing, so no payment row is added.  The payment reference is
    not stored: each call builds it anew as TXN-<clock reading>-<last six
    characters of the enrollment identifier>, so the two references agree
    exactly when the two calls read the same clock value. *)
Theorem C5_retry_reuses_the_payment
    (env : Env) (userId : string) (userRole : Role) (enrollmentId uuid1 uuid2 : string)
    (now1 now2 : Z) (d : Db) (e : Enrollment.t) (prog : TrainingProgram.t)
    (p : Payment.t) :
  enrollment_of d enrollmentId userId e →
  Enrollment.status e = pending_payment →
  program_of d (Enrollment.training_id e) prog →
  unresolved_payment d userId (Enrollment.training_id e) p →
  ¬ window_elapsed p now1 →
  ¬ window_elapsed p now2 →
  (∀ text, is_Some (QRCode_toDataURL env text)) →
  let first := userService.initiatePaymentForEnrollment env userId userRole
                 enrollmentId uuid1 now1 d in
  let second := userService.initiatePaymentForEnrollment env userId userRole
                  enrollmentId uuid2 now2 (db_after first) in
  ∃ s1 s2,
    outcome first = Return s1 ∧ outcome second = Return s2
    ∧ PaymentSession.payment_id s1 = Payment.id p
    ∧ PaymentSession.payment_id s2 = Payment.id p
    ∧ PaymentSession.payment_reference s1 = userService.TXN now1 enrollmentId
    ∧ PaymentSession.payment_reference s2 = userService.TXN now2 enrollmentId
    ∧ (PaymentSession.payment_reference s1 = PaymentSession.payment_reference s2
       ↔ now1 = now2)
    ∧ db_after first = d ∧ db_after second = d
    ∧ commits first = [] ∧ commits second = [].
Proof.
  intros He Hst Hprog Hpay Hearly1 Hearly2 Hqr first second. subst first second.
  destruct (initiatePayment_reuses env _ userRole _ uuid1 _ _ _ _ _
              He Hst Hprog Hpay Hearly1 Hqr) as ((s1 & Ho1 & Hid1 & Href1) & Hd1 & Hc1).
  rewrite Hd1.
  destruct (initiatePayment_reuses env _ userRole _ uuid2 _ _ _ _ _
              He Hst Hprog Hpay Hearly2 Hqr) as ((s2 & Ho2 & Hid2 & Href2) & Hd2 & Hc2).
  exists s1, s2. split_and!; try done.
  rewrite Href1, Href2. apply TXN_inj.
Qed.


(** ** A frame rule for the service monad *)

Section Preserves.
Context (R : Db → Db → Prop) `{!PreOrder R}.

Lemma preserves_ret {A} (a : A) : preserves R (mret a).
Proof. intros d. simpl. split; [reflexivity|constructor]. Qed.

Lemma preserves_throw {A} (e : Error) : preserves R (@throw A e).
Proof. intros d. simpl. split; [reflexivity|constructor]. Qed.

Lemma preserves_query {A} (f : Db → A) : preserves R (query f).
Proof. intros d. simpl. split; [reflexivity|constructor]. Qed.

Lemma preserves_execute (f : Db → Db) : (∀ d, R d (f d)) → preserves R (execute f).
Proof. intros Hf d. simpl. split; [done|]. by repeat constructor. Qed.

Lemma preserves_bind {A B} (m : M A) (k : A → M B) :
  preserves R m → (∀ a, preserves R (k a)) → preserves R (m ≫= k).
Proof.
  intros Hm Hk d. specialize (Hm d). unfold mbind, M_bind.
  destruct (m d) as [[a|e] d1 c1]; simpl in *; [|done].
  specialize (Hk a d1). destruct (k a d1) as [o d2 c2]; simpl in *.
  destruct Hm as [Hd1 Hc1], Hk as [Hd2 Hc2]. split; [by etrans|].
  apply Forall_app. split; [done|].
  eapply Forall_impl; [exact Hc2|]. intros c Hc. by etrans.
Qed.

Lemma preserves_try_catch {A} (m : M A) (h : Error → M A) :
  preserves R m → (∀ e, preserves R (h e)) → preserves R (try_catch m h).
Proof.
  intros Hm Hh d. specialize (Hm d). unfold try_catch.
  destruct (m d) as [[a|e] d1 c1]; simpl in *; [done|].
  specialize (Hh e d1). destruct (h e d1) as [o d2 c2]; simpl in *.
  destruct Hm as [Hd1 Hc1], Hh as [Hd2 Hc2]. split; [by etrans|].
  apply Forall_app. split; [done|].
  eapply Forall_impl; [exact Hc2|]. intros c Hc. by etrans.
Qed.

Lemma preserves_transaction {A} (m : M A) :
  preserves R m → preserves R (prisma._transaction m).
Proof.
  intros Hm d. specialize (Hm d). unfold prisma._transaction, transaction.
  destruct (m d) as [[a|e] d1 c1]; simpl in *.
  - destruct Hm as [Hd1 _]. split; [done|]. by repeat constructor.
  - split; [reflexivity|constructor].
Qed.

Lemma preserves_effect {A} (m : M A) : preserves R m → preserves R (effect m).
Proof. intros Hm. apply preserves_bind; [done|]. intros _. apply preserves_ret. Qed.
End Preserves.


Global Instance same_enrollments_preorder : PreOrder same_enrollments.
Proof.
  split; [by intros d|]. intros d1 d2 d3 H12 H23. unfold same_enrollments in *. congruence.
Qed.

(** Walks a service body down to its database primitives. *)
Ltac frame_step :=
  first
    [ by apply preserves_ret; tc_solve
    | by apply preserves_throw; tc_solve
    | by apply preserves_query; tc_solve
    | apply preserves_transaction; try tc_solve
    | apply preserves_effect; try tc_solve
    | apply preserves_bind; try tc_solve; [|intros ?]
    | apply preserves_try_catch; try tc_solve; [|intros ?]
    | match goal with
      | |- preserves _ (if ?b then _ else _) => destruct b
      | |- preserves _ (match ?x with _ => _ end) => destruct x
      end ].

Ltac frame := repeat frame_step.

(** *** Primitives that leave the enrollments alone *)





(** *** Writes to the enrollments *)

Global Instance keeps_one_per_pair_preorder : PreOrder keeps_one_per_pair.
Proof. split; unfold keeps_one_per_pair; [by intros d|]. intros d1 d2 d3. tauto. Qed.

Global Instance keeps_completed_preorder : PreOrder keeps_completed.
Proof.
  split; unfold keeps_completed; [by intros d|].
  intros d1 d2 d3 H12 H23 e He Hst. auto.
Qed.










(** *** Every operation keeps the relations *)

Ltac unfold_services :=
  unfold handle, authController.userSignup, authService.userSignup, generateToken,
    userController.updateProfile, userService.updateUserProfile,
    userService.createEnrollment, userService.createEnrollmentWithDetails,
    userService.initiatePaymentForEnrollment, userService.generateQRCode,
    userService.confirmPayment, userService.getPaymentStatus,
    adminService.updateUserRole, adminService.updateEnrollmentStatus,
    adminService.updatePaymentStatus, deref,
    prisma.user.findUnique, prisma.trainingProgram.findFirst,
    prisma.enrollment.findUnique, prisma.enrollment.findFirst,
    prisma.payment.findFirst;
  cbv zeta.






(** ** Creating an enrollment for a pair that has one *)


Ltac run_create :=
  unfold_monad;
  unfold prisma.trainingProgram.findFirst, prisma.enrollment.findUnique,
    prisma.enrollment.findFirst, prisma.user.update, query; simpl.

Lemma createEnrollment_existing userId userRole tid uuid now d e :
  enrolled_pair d userId tid e →
  let r := userService.createEnrollment userId userRole (JsStr tid) uuid now d in
  db_after r = d ∧ commits r = []
  ∧ (tid ≠ EmptyString → ∀ prog, active_program d tid prog →
       outcome r = Throw Already_enrolled).
Proof.
  intros He. unfold userService.createEnrollment, try_catch. run_create.
  destruct (bool_decide (tid = EmptyString)) eqn:Htid; simpl.
  { apply bool_decide_eq_true in Htid. split_and!; done. }
  destruct (List.find _ (training_programs d)) as [prog|] eqn:Hprog; simpl.
  - rewrite He. simpl. split_and!; done.
  - split_and!; [done..|]. intros _ prog' Hprog'. unfold active_program in Hprog'. congruence.
Qed.



(** ** Administrator enrollment-status update *)

Lemma includes_enrollment_status (v : JsVal) :
  includes ["pending_payment"; "enrolled"; "completed"]%string v = true →
  is_Some (as_EnrollmentStatus v).
Proof.
  intros (s & -> & Hin)%includes_cases.
  repeat (apply elem_of_cons in Hin as [->|Hin]; [by eexists|]).
  by apply elem_of_nil in Hin.
Qed.



(** ** Self-service profile update *)

Global Instance same_account_equiv : Equivalence same_account.
Proof.
  split.
  - by intros u.
  - intros u u' (?&?&?&?&?&?). by repeat split.
  - intros u1 u2 u3 (?&?&?&?&?&?) (?&?&?&?&?&?). repeat split; congruence.
Qed.

Global Instance only_profiles_differ_preorder : PreOrder only_profiles_differ.
Proof.
  split.
  - intros d. by repeat split.
  - intros d1 d2 d3 (Hu & ? & ? & ?) (Hu' & ? & ? & ?).
    split; [by etrans|]. repeat split; congruence.
Qed.

Lemma column_string_frame (Q : User.t → User.t → Prop) `{!PreOrder Q}
    (set : string → User.t → User.t) (v : JsVal) (f : User.t → User.t) :
  (∀ s u, Q u (set s u)) → column_string set v = Some f → ∀ u, Q u (f u).
Proof. intros Hset Hf u. destruct v; simplify_eq/=; done. Qed.

Lemma column_string_null_frame (Q : User.t → User.t → Prop) `{!PreOrder Q}
    (set : option string → User.t → User.t) (v : JsVal) (f : User.t → User.t) :
  (∀ s u, Q u (set s u)) → column_string_null set v = Some f → ∀ u, Q u (f u).
Proof. intros Hset Hf u. destruct v; simplify_eq/=; done. Qed.

Lemma column_profession_null_frame (Q : User.t → User.t → Prop) `{!PreOrder Q}
    (set : option Profession → User.t → User.t) (v : JsVal) (f : User.t → User.t) :
  (∀ s u, Q u (set s u)) → column_profession_null set v = Some f → ∀ u, Q u (f u).
Proof.
  intros Hset Hf u. destruct v as [| | | |s]; simplify_eq/=; try done.
  destruct (Profession_of_string s); simplify_eq/=; done.
Qed.

(** A [data] object without protected columns rewrites profile columns only. *)
Lemma user_data_profile_only (data : JsObject) (f : User.t → User.t) :
  protected_absent data → user_data data = Some f → ∀ u, same_account u (f u).
Proof.
  intros (He & Hp & Hr & Ha). unfold user_data. case_bool_decide; [|done].
  rewrite He, Hp, Hr, Ha. simpl.
  destruct (column_string User.set_full_name _) as [f1|] eqn:H1; simpl; [|done].
  destruct (column_string_null User.set_phone _) as [f4|] eqn:H4; simpl; [|done].
  destruct (column_profession_null User.set_profession _) as [f5|] eqn:H5; simpl; [|done].
  destruct (column_string_null User.set_college _) as [f6|] eqn:H6; simpl; [|done].
  destruct (column_string_null User.set_company _) as [f7|] eqn:H7; simpl; [|done].
  intros [= <-] u.
  etrans; [eapply (column_string_frame same_account), H1; done|].
  etrans; [eapply (column_string_null_frame same_account), H4; done|].
  etrans; [eapply (column_profession_null_frame same_account), H5; done|].
  etrans; [eapply (column_string_null_frame same_account), H6; done|].
  eapply (column_string_null_frame same_account), H7; done.
Qed.

Lemma update_where_Forall2 {A} (Q : A → A → Prop) `{!Reflexive Q} (P : A → bool)
    (f : A → A) (rows : list A) :
  (∀ r, Q r (f r)) → Forall2 Q rows (update_where P f rows).
Proof.
  intros Hf. induction rows as [|r rows IH]; simpl; constructor; [|done].
  by destruct (P r).
Qed.

Lemma user_update_profile_only id data now :
  protected_absent data → preserves only_profiles_differ (prisma.user.update id data now).
Proof.
  intros Habs d. unfold prisma.user.update.
  destruct (user_data data) as [f|] eqn:Hf; [|apply preserves_throw; tc_solve].
  destruct (List.find _ (users d)); [|apply preserves_throw; tc_solve].
  assert (only_profiles_differ d
            (set_users (update_where (λ u, bool_decide (User.id u = id))
                          (λ r, User.set_updated_at now (f r))) d)).
  { split; [|done]. simpl. apply update_where_Forall2; [tc_solve|].
    intros u. etrans; [by eapply user_data_profile_only|]. done. }
  simpl. split; [done|]. constructor; [done|constructor].
Qed.

Lemma prop_assign_if_defined (k k' : string) (v w : JsVal) (o : JsObject) :
  k ≠ k' → prop (assign_if_defined k v w o) k' = prop o k'.
Proof.
  intros Hne. unfold assign_if_defined, prop. case_bool_decide; [done|].
  by rewrite lookup_insert_ne.
Qed.

(** The object the service hands to Prisma names profile columns only. *)
Lemma updateFields_protected_absent (full_name phone phone' profession college company : JsVal) :
  protected_absent
    (assign_if_defined "company" company company
       (assign_if_defined "college" college college
          (assign_if_defined "profession" profession profession
             (assign_if_defined "phone" phone phone'
                (assign_if_defined "full_name" full_name full_name ∅))))).
Proof. repeat split; by rewrite !prop_assign_if_defined. Qed.

Lemma updateUserProfile_profile_only userId userRole updateData now :
  preserves only_profiles_differ
    (userService.updateUserProfile userId userRole updateData now).
Proof.
  unfold userService.updateUserProfile. cbv zeta. frame.
  apply user_update_profile_only, updateFields_protected_absent.
Qed.

(** C2. A self-service profile update, whatever the request body contains
    (a [role] or an [is_admin] field included), leaves the role and the
    [is_admin] flag of every account as they were: each account keeps its
    identifier, e-mail, password, role, flag and creation time, and no other
    table is written; this holds for the controller, which filters the body,
    and for the service called with an unfiltered object, and for every state
    they commit. *)
Theorem C2_profile_update_keeps_role_and_flag
    (userId : string) (userRole : Role) (body : JsObject) (now : Z) (d : Db) :
  let via_controller := userController.updateProfile userId userRole body now d in
  let via_service := userService.updateUserProfile userId userRole body now d in
  (∀ i u, users d !! i = Some u →
     ∃ u', users (db_after via_controller) !! i = Some u'
           ∧ User.id u' = User.id u
           ∧ User.role u' = User.role u
           ∧ User.is_admin u' = User.is_admin u)
  ∧ (∀ i u, users d !! i = Some u →
     ∃ u', users (db_after via_service) !! i = Some u'
           ∧ User.id u' = User.id u
           ∧ User.role u' = User.role u
           ∧ User.is_admin u' = User.is_admin u)
  ∧ only_profiles_differ d (db_after via_controller)
  ∧ Forall (only_profiles_differ d) (commits via_controller)
  ∧ only_profiles_differ d (db_after via_service)
  ∧ Forall (only_profiles_differ d) (commits via_service).
Proof.
  intros via_controller via_service. subst via_controller via_service.
  unfold userController.updateProfile. cbv zeta.
  match goal with |- context [userService.updateUserProfile _ _ ?o now d] =>
    destruct (updateUserProfile_profile_only userId userRole o now d) as [Hc Hcs] end.
  destruct (updateUserProfile_profile_only userId userRole body now d) as [Hs Hss].
  assert (∀ d' : Db, only_profiles_differ d d' →
            ∀ i u, users d !! i = Some u →
              ∃ u', users d' !! i = Some u' ∧ User.id u' = User.id u
                    ∧ User.role u' = User.role u
                    ∧ User.is_admin u' = User.is_admin u) as Hrow.
  { intros d' [Hu _] i u Hi.
    destruct (Forall2_lookup_l _ _ _ _ _ Hu Hi) as (u' & Hi' & (?&?&?&?&?&?)).
    by exists u'. }
  split_and!; auto.
Qed.

(** ** Signup *)

Global Instance only_members_added_preorder : PreOrder only_members_added.
Proof.
  split.
  - intros d. exists []. by rewrite app_nil_r.
  - intros d1 d2 d3 (c1 & H1 & Hc1) (c2 & H2 & Hc2). exists (c1 ++ c2).
    split; [by rewrite H2, H1, app_assoc|]. by apply Forall_app.
Qed.

(** A [data] object with [role: 'user'] and [is_admin: false] yields rows
    with exactly these values. *)
Lemma user_data_member (data : JsObject) (f : User.t → User.t) :
  prop data "role" = JsStr "user" → prop data "is_admin" = JsBool false →
  user_data data = Some f →
  ∀ u, User.role (f u) = user ∧ User.is_admin (f u) = false.
Proof.
  intros Hr Ha. unfold user_data. case_bool_decide; [|done]. rewrite Hr, Ha. simpl.
  destruct (column_string User.set_full_name _) as [f1|]; simpl; [|done].
  destruct (column_string User.set_email _) as [f2|]; simpl; [|done].
  destruct (column_string User.set_password _) as [f3|]; simpl; [|done].
  destruct (column_string_null User.set_phone _) as [f4|]; simpl; [|done].
  destruct (column_profession_null User.set_profession _) as [f5|]; simpl; [|done].
  destruct (column_string_null User.set_college _) as [f6|]; simpl; [|done].
  destruct (column_string_null User.set_company _) as [f7|]; simpl; [|done].
  by intros [= <-] u.
Qed.

Lemma user_create_member uuid data now d :
  prop data "role" = JsStr "user" → prop data "is_admin" = JsBool false →
  let r := prisma.user.create uuid data now d in
  match outcome r with
  | Return u =>
      User.role u = user ∧ User.is_admin u = false
      ∧ db_after r = set_users (λ rows, rows ++ [u]) d ∧ commits r = [db_after r]
  | Throw _ => db_after r = d ∧ commits r = []
  end.
Proof.
  intros Hr Ha. unfold prisma.user.create.
  destruct (user_data data) as [f|] eqn:Hf; [|done].
  destruct (_ && _); [|done].
  destruct (exists_row _ _); [done|]. simpl.
  destruct (user_data_member _ _ Hr Ha Hf
              (User.mk uuid EmptyString EmptyString EmptyString None None None None
                 user false now now)) as [??].
  done.
Qed.

Lemma userSignup_post env userData uuid now d :
  signup_post d (authService.userSignup env userData uuid now d).
Proof.
  unfold authService.userSignup, try_catch. cbv zeta.
  destruct userData as [full_name email phone profession college company password].
  cbn [SignupData.full_name SignupData.email SignupData.phone SignupData.profession
       SignupData.college SignupData.company SignupData.password].
  destruct (negb (truthy full_name) || negb (truthy email) || negb (truthy password));
    [by left|].
  destruct (negb (emailRegex_test env (toString email))); [by left|].
  destruct (truthy profession && negb (includes _ profession)); [by left|].
  unfold mbind at 1, M_bind at 1.
  destruct email as [| | | |em]; [left; split; reflexivity..|].
  unfold prisma.user.findUnique, query.
  destruct (List.find _ (users d)) as [existing|]; [left; split; reflexivity|].
  unfold mbind at 1, M_bind at 1.
  destruct password as [| | | |pw]; [left; split; reflexivity..|].
  unfold mret at 1, M_ret at 1. unfold mbind at 1, M_bind at 1.
  match goal with |- context [prisma.user.create uuid ?data now d] =>
    assert (prop data "role" = JsStr "user") as Hr by (vm_compute; reflexivity);
    assert (prop data "is_admin" = JsBool false) as Ha by (vm_compute; reflexivity);
    pose proof (user_create_member uuid data now d Hr Ha) as Hcreate;
    clear Hr Ha;
    destruct (prisma.user.create uuid data now d) as [[u|e] d1 c1]
  end; cbn [outcome db_after commits] in Hcreate.
  - destruct Hcreate as (Hrole & Hflag & -> & ->).
    unfold generateToken, mbind, M_bind.
    destruct (_ || _); unfold throw, mret, M_ret; cbn [app].
    + right. exists u. unfold signup_post. cbn [outcome db_after commits]. done.
    + done.
  - destruct Hcreate as [-> ->]. destruct (code_is _ e); left; split; reflexivity.
Qed.

(** *** An accepted signup *)

Global Instance same_credentials_preorder : PreOrder same_credentials.
Proof.
  split.
  - by intros u.
  - intros u1 u2 u3 (?&?&?) (?&?&?). repeat split; congruence.
Qed.

Lemma column_role_frame (Q : User.t → User.t → Prop) `{!PreOrder Q}
    (set : Role → User.t → User.t) (v : JsVal) (f : User.t → User.t) :
  (∀ s u, Q u (set s u)) → column_role set v = Some f → ∀ u, Q u (f u).
Proof.
  intros Hset Hf u. destruct v as [| | | |s]; simplify_eq/=; try done.
  destruct (Role_of_string s); simplify_eq/=; done.
Qed.

Lemma column_bool_frame (Q : User.t → User.t → Prop) `{!PreOrder Q}
    (set : bool → User.t → User.t) (v : JsVal) (f : User.t → User.t) :
  (∀ s u, Q u (set s u)) → column_bool set v = Some f → ∀ u, Q u (f u).
Proof. intros Hset Hf u. destruct v; simplify_eq/=; done. Qed.

(** The row a [data] object with an [email] and a [password] produces. *)
Lemma user_data_credentials (data : JsObject) (f : User.t → User.t) (e h : string) :
  prop data "email" = JsStr e → prop data "password" = JsStr h →
  user_data data = Some f →
  ∀ u, User.id (f u) = User.id u ∧ User.email (f u) = e ∧ User.password (f u) = h.
Proof.
  intros He Hp. unfold user_data. case_bool_decide; [|done]. rewrite He, Hp. simpl.
  destruct (column_string User.set_full_name _) as [f1|] eqn:H1; simpl; [|done].
  destruct (column_string_null User.set_phone _) as [f4|] eqn:H4; simpl; [|done].
  destruct (column_profession_null User.set_profession _) as [f5|] eqn:H5; simpl; [|done].
  destruct (column_string_null User.set_college _) as [f6|] eqn:H6; simpl; [|done].
  destruct (column_string_null User.set_company _) as [f7|] eqn:H7; simpl; [|done].
  destruct (column_role User.set_role _) as [f8|] eqn:H8; simpl; [|done].
  destruct (column_bool User.set_is_admin _) as [f9|] eqn:H9; simpl; [|done].
  intros [= <-] u.
  set (u3 := User.set_password h (User.set_email e (f1 u))).
  assert (same_credentials u (f1 u)) as (I1 & _ & _).
  { eapply (column_string_frame same_credentials), H1; done. }
  assert (same_credentials u3 (f9 (f8 (f7 (f6 (f5 (f4 u3))))))) as (I & E & P).
  { etrans; [eapply (column_string_null_frame same_credentials), H4; done|].
    etrans; [eapply (column_profession_null_frame same_credentials), H5; done|].
    etrans; [eapply (column_string_null_frame same_credentials), H6; done|].
    etrans; [eapply (column_string_null_frame same_credentials), H7; done|].
    etrans; [eapply (column_role_frame same_credentials), H8; done|].
    eapply (column_bool_frame same_credentials), H9; done. }
  rewrite I, E, P. subst u3. simpl. done.
Qed.

(** What a successful [prisma.user.create] with an [email] and a [password]
    stored. *)
Lemma user_create_credentials uuid data now d e h account d1 c1 :
  prop data "email" = JsStr e → prop data "password" = JsStr h →
  prisma.user.create uuid data now d = mkRun (Return account) d1 c1 →
  User.id account = uuid ∧ User.email account = e ∧ User.password account = h
  ∧ d1 = set_users (λ rows, rows ++ [account]) d.
Proof.
  intros He Hp. unfold prisma.user.create.
  destruct (user_data data) as [f|] eqn:Hf; [|done].
  destruct (_ && _); [|done].
  destruct (exists_row _ _); [done|]. simpl. intros [= <- <- _].
  destruct (user_data_credentials _ _ _ _ He Hp Hf
              (User.mk uuid EmptyString EmptyString EmptyString None None None None
                 user false now now)) as (? & ? & ?).
  done.
Qed.

Lemma find_none_Forall {A} (P : A → bool) (rows : list A) :
  (∀ r, r ∈ rows → P r = false) → List.find P rows = None.
Proof.
  intros HP. induction rows as [|r rows IH]; simpl; [done|].
  rewrite (HP r) by apply list_elem_of_here. apply IH.
  intros r' Hr'. apply HP. by apply list_elem_of_further.
Qed.

Lemma exists_row_false_Forall {A} (P : A → bool) (rows : list A) :
  (∀ r, r ∈ rows → P r = false) → exists_row P rows = false.
Proof.
  intros HP. apply not_true_is_false. intros (r & Hin & Hr)%existsb_exists.
  apply list_elem_of_In in Hin. by rewrite (HP r Hin) in Hr.
Qed.

(** The [data] object of a signup fits the schema. *)
Lemma signup_data_fits (n e h : string) (phone profession college company : JsVal) :
  (truthy profession = false
   ∨ includes ["student"; "professional"]%string profession = true) →
  optional_text college → optional_text company →
  is_Some
    (user_data
       (list_to_map
          [("full_name", JsStr n); ("email", JsStr e);
           ("phone", if truthy phone then JsStr (toString phone) else JsNull);
           ("profession", or_null profession); ("college", college);
           ("company", company); ("role", JsStr "user"); ("is_admin", JsBool false);
           ("password", JsStr h)]%string)).
Proof.
  intros Hprofession Hcollege Hcompany.
  assert (∃ v, or_null profession = v
               ∧ (v = JsNull ∨ v = JsStr "student" ∨ v = JsStr "professional"))
    as (vp & -> & Hvp).
  { unfold or_null. destruct Hprofession as [-> | Hin]; [by eexists; eauto|].
    apply includes_cases in Hin as (s & -> & Hs).
    repeat (apply elem_of_cons in Hs as [->|Hs]; [by eexists; eauto|]).
    by apply elem_of_nil in Hs. }
  assert (∃ v, (if truthy phone then JsStr (toString phone) else JsNull) = v
               ∧ optional_text v) as (vphone & -> & Hphone).
  { by destruct (truthy phone); eexists. }
  match goal with |- is_Some (user_data ?data) =>
    assert (prop data "full_name" = JsStr n) as H1 by (vm_compute; reflexivity);
    assert (prop data "email" = JsStr e) as H2 by (vm_compute; reflexivity);
    assert (prop data "password" = JsStr h) as H3 by (vm_compute; reflexivity);
    assert (prop data "phone" = vphone) as H4 by (vm_compute; reflexivity);
    assert (prop data "profession" = vp) as H5 by (vm_compute; reflexivity);
    assert (prop data "college" = college) as H6 by (vm_compute; reflexivity);
    assert (prop data "company" = company) as H7 by (vm_compute; reflexivity);
    assert (prop data "role" = JsStr "user") as H8 by (vm_compute; reflexivity);
    assert (prop data "is_admin" = JsBool false) as H9 by (vm_compute; reflexivity);
    assert (bool_decide (map_Forall (λ k _, k ∈ user_columns) data) = true) as H0
      by (vm_compute; reflexivity)
  end.
  unfold user_data. rewrite H0, H1, H2, H3, H4, H5, H6, H7, H8, H9.
  clear H0 H1 H2 H3 H4 H5 H6 H7 H8 H9. simpl.
  assert (is_Some (column_string_null User.set_phone vphone)) as [f4 ->]
    by (destruct vphone; done).
  assert (is_Some (column_profession_null User.set_profession vp)) as [f5 ->]
    by (destruct Hvp as [-> | [-> | ->]]; done).
  assert (is_Some (column_string_null User.set_college college)) as [f6 ->]
    by (destruct college; done).
  assert (is_Some (column_string_null User.set_company company)) as [f7 ->]
    by (destruct company; done).
  simpl. by eexists.
Qed.

(** A [create] whose [data] fits the schema and whose key and e-mail are
    new stores the row. *)
Lemma user_create_accepts uuid data now d n e h :
  is_Some (user_data data) →
  prop data "full_name" = JsStr n → prop data "email" = JsStr e →
  prop data "password" = JsStr h →
  (∀ u, u ∈ users d → User.id u ≠ uuid ∧ User.email u ≠ e) →
  ∃ account,
    prisma.user.create uuid data now d
    = mkRun (Return account) (set_users (λ rows, rows ++ [account]) d)
        [set_users (λ rows, rows ++ [account]) d].
Proof.
  intros [f Hf] Hn He Hp Hnew. unfold prisma.user.create.
  rewrite Hf, Hn, He, Hp. simpl.
  destruct (user_data_credentials _ _ _ _ He Hp Hf
              (User.mk uuid EmptyString EmptyString EmptyString None None None None
                 user false now now)) as (Hid & Hemail & _).
  rewrite exists_row_false_Forall.
  - unfold_monad. simpl. by eexists.
  - intros u Hu. destruct (Hnew u Hu) as [Hi Hm]. rewrite Hid, Hemail. simpl.
    by rewrite !bool_decide_eq_false_2.
Qed.

(** The run of a signup that is accepted. *)
Lemma userSignup_accepts env n e p phone profession college company uuid now d :
  n ≠ EmptyString → e ≠ EmptyString → emailRegex_test env e = true →
  p ≠ EmptyString →
  (truthy profession = false
   ∨ includes ["student"; "professional"]%string profession = true) →
  optional_text college → optional_text company →
  uuid ≠ EmptyString →
  (∀ u, u ∈ users d → User.id u ≠ uuid ∧ User.email u ≠ e) →
  ∃ account,
    authService.userSignup env
      (SignupData.mk (JsStr n) (JsStr e) phone profession college company (JsStr p))
      uuid now d
    = mkRun (Return (account, jwt_sign env uuid user e false (now / 1000)))
        (set_users (λ rows, rows ++ [account]) d)
        [set_users (λ rows, rows ++ [account]) d]
    ∧ User.id account = uuid ∧ User.email account = e
    ∧ User.password account = bcrypt_hash env p 12
    ∧ User.role account = user ∧ User.is_admin account = false.
Proof.
  intros Hn He Hregex Hp Hprofession Hcollege Hcompany Huuid Hnew.
  unfold authService.userSignup, try_catch. cbv zeta.
  cbn [SignupData.full_name SignupData.email SignupData.phone SignupData.profession
       SignupData.college SignupData.company SignupData.password].
  assert (truthy profession
          && negb (includes ["student"; "professional"]%string profession) = false)
    as ->.
  { destruct Hprofession as [-> | ->]; [done|apply andb_false_r]. }
  cbn [truthy toString]. rewrite !bool_decide_eq_false_2 by done. rewrite Hregex.
  cbn [negb orb].
  unfold mbind at 1, M_bind at 1, prisma.user.findUnique, query.
  rewrite find_none_Forall.
  2:{ intros u Hu. destruct (Hnew u Hu) as [_ Hm]. by rewrite bool_decide_eq_false_2. }
  unfold mbind at 1, M_bind at 1, mret at 1, M_ret at 1.
  unfold mbind at 1, M_bind at 1.
  match goal with |- context [prisma.user.create uuid ?data now d] =>
    assert (prop data "full_name" = JsStr n) as H1 by (vm_compute; reflexivity);
    assert (prop data "email" = JsStr e) as H2 by (vm_compute; reflexivity);
    assert (prop data "password" = JsStr (bcrypt_hash env p 12)) as H3
      by (vm_compute; reflexivity);
    assert (prop data "role" = JsStr "user") as H8 by (vm_compute; reflexivity);
    assert (prop data "is_admin" = JsBool false) as H9 by (vm_compute; reflexivity);
    destruct (user_create_accepts uuid data now d n e (bcrypt_hash env p 12)
                (signup_data_fits n e (bcrypt_hash env p 12) phone profession college
                   company Hprofession Hcollege Hcompany) H1 H2 H3 Hnew)
      as [account Hrun];
    pose proof (user_create_member uuid data now d H8 H9) as Hmember;
    pose proof (user_create_credentials uuid data now d e (bcrypt_hash env p 12)
                  account _ _ H2 H3 Hrun) as (Hid & Hemail & Hhash & _);
    rewrite Hrun in Hmember |- *
  end.
  cbn [outcome db_after commits] in Hmember. destruct Hmember as (Hrole & Hflag & _).
  clear H1 H2 H3 H8 H9 Hrun.
  exists account. split; [|by split_and!].
  unfold generateToken. rewrite Hid, Hemail, Hrole, Hflag.
  rewrite !bool_decide_eq_false_2 by done. by unfold_monad.
Qed.

(** C3. A public signup creates a member, whatever [role] or [is_admin]
    the request body carries.  A body with a non-empty name and password and
    a well-formed e-mail address that no account has yet is accepted -- its
    [role] and [is_admin] fields are not looked at -- and the account it
    stores and answers with has role 'user' (member) and [is_admin = false].
    No run of the signup, accepted or refused, can do anything else to the
    accounts than add one such account. *)
Theorem C3_signup_creates_a_member
    (env : Env) (body : JsObject) (uuid : string) (now : Z) (d : Db) :
  let r := authController.userSignup env body uuid now d in
  only_members_added d (db_after r)
  ∧ Forall (only_members_added d) (commits r)
  ∧ match outcome r with
    | Return (account, _) =>
        User.role account = user ∧ User.is_admin account = false
        ∧ users (db_after r) = users d ++ [account]
    | Throw _ => True
    end
  ∧ (∀ n e p,
       accepted_signup env body n e p → uuid ≠ EmptyString →
       (∀ u, u ∈ users d → User.id u ≠ uuid ∧ User.email u ≠ e) →
       ∃ account token,
         outcome r = Return (account, token)
         ∧ User.id account = uuid ∧ User.email account = e
         ∧ User.password account = bcrypt_hash env p 12
         ∧ User.role account = user ∧ User.is_admin account = false
         ∧ users (db_after r) = users d ++ [account]
         ∧ commits r = [db_after r]).
Proof.
  intros r. subst r. unfold authController.userSignup. cbv zeta. split_and!.
  - match goal with |- context [authService.userSignup env ?data uuid now d] =>
      pose proof (userSignup_post env data uuid now d) as Hpost;
      destruct (authService.userSignup env data uuid now d) as [[[u t]|e] d1 c1]
    end; unfold signup_post in Hpost; cbn [outcome db_after commits] in *.
    + destruct Hpost as (Hrole & Hflag & -> & ->). exists [u]. split; [done|].
      by constructor.
    + destruct Hpost as [[-> ->]|(u & Hrole & Hflag & -> & ->)]; [reflexivity|].
      exists [u]. split; [done|]. by constructor.
  - match goal with |- context [authService.userSignup env ?data uuid now d] =>
      pose proof (userSignup_post env data uuid now d) as Hpost;
      destruct (authService.userSignup env data uuid now d) as [[[u t]|e] d1 c1]
    end; unfold signup_post in Hpost; cbn [outcome db_after commits] in *.
    + destruct Hpost as (Hrole & Hflag & -> & ->). constructor; [|constructor].
      exists [u]. split; [done|]. by constructor.
    + destruct Hpost as [[-> ->]|(u & Hrole & Hflag & -> & ->)]; [constructor|].
      constructor; [|constructor]. exists [u]. split; [done|]. by constructor.
  - match goal with |- context [authService.userSignup env ?data uuid now d] =>
      pose proof (userSignup_post env data uuid now d) as Hpost;
      destruct (authService.userSignup env data uuid now d) as [[[u t]|e] d1 c1]
    end; unfold signup_post in Hpost; cbn [outcome db_after commits] in *; [|done].
    by destruct Hpost as (Hrole & Hflag & -> & ->).
  - intros n e p (Hn & Hn' & He & He' & Hregex & Hp & Hp' & Hprofession & Hcollege
                  & Hcompany) Huuid Hnew.
    rewrite Hn, He, Hp.
    destruct (userSignup_accepts env n e p (prop body "phone") (prop body "profession")
                (prop body "college") (prop body "company") uuid now d)
      as (account & -> & Hid & Hemail & Hhash & Hrole & Hflag); try done.
    exists account, (jwt_sign env uuid user e false (now / 1000)).
    cbn [outcome db_after commits]. split_and!; done.
Qed.

(** * The operations on sample data *)

(** The Prisma client does change roles when asked to: the administrator
    operation promotes an account. *)
Example updateUserRole_promotes :
  users (db_after (adminService.updateUserRole "a1" admin "u1" greedy_profile 5000
                     (db0 enrolled verified None)))
  = [User.mk "u1" "Asha" "asha@example.com" "$2a$12$pw" None (Some student) None None
       admin true 1000 5000; root].
Proof. vm_compute. reflexivity. Qed.

(** The same body sent as a self-service profile update changes the name and
    the phone only. *)
Example updateProfile_ignores_role :
  users (db_after (userController.updateProfile "u1" user greedy_profile 5000
                     (db0 enrolled verified None)))
  = [User.mk "u1" "Asha K" "asha@example.com" "$2a$12$pw" (Some "9876543210")
       (Some student) None None user false 1000 5000; root].
Proof. vm_compute. reflexivity. Qed.

(** A signup that asks for the administrator role succeeds as a member. *)
Example signup_ignores_role :
  outcome (authController.userSignup env0 greedy_signup "u2" 7000
             (db0 enrolled verified None))
  = Return (User.mk "u2" "Mallory" "mallory@example.com" "$2a$12$hunter22" None None
              None None user false 7000 7000,
            "jwt.u2.mallory@example.com"%string).
Proof. vm_compute. reflexivity. Qed.

(** An expired payment is replaced: the old one fails, a new one is created. *)
Example initiatePayment_after_expiry :
  Payment.status <$>
    payments (db_after (userService.initiatePaymentForEnrollment env0 "u1" user
                          "e-000001" "p2" 310000
                          (db0 pending_payment pending_verification None)))
  = [failed; pending_verification].
Proof. vm_compute. reflexivity. Qed.

(** * Witnesses and counterexamples *)

Lemma C1_witness :
  let d := db0 pending_payment pending_verification None in
  let op := adminService.updatePaymentStatus "a1" admin "p1" (JsStr "verified") 20000 in
  List.find (λ q, bool_decide (Payment.id q = "p1"%string)) (payments d)
  = Some (p1 pending_verification None)
  ∧ observable op d = [d; db_after (op d)].
Proof.
  split; [reflexivity|].
  apply (C1_confirmation_cascades_in_one_transaction "a1" admin "p1" 20000
           (db0 pending_payment pending_verification None) (p1 pending_verification None)).
  reflexivity.
Defined.

Lemma C3_witness :
  prop greedy_signup "role" = JsStr "admin"
  ∧ prop greedy_signup "is_admin" = JsBool true
  ∧ accepted_signup env0 greedy_signup "Mallory" "mallory@example.com" "hunter22"
  ∧ ∃ account token,
      outcome (authController.userSignup env0 greedy_signup "u2" 7000
                 (db0 enrolled verified None)) = Return (account, token)
      ∧ User.role account = user ∧ User.is_admin account = false.
Proof.
  assert (accepted_signup env0 greedy_signup "Mallory" "mallory@example.com" "hunter22")
    as Haccepted.
  { unfold accepted_signup.
    split; [reflexivity|]. split; [discriminate|]. split; [reflexivity|].
    split; [discriminate|]. split; [reflexivity|]. split; [reflexivity|].
    split; [discriminate|]. split; [left; reflexivity|]. split; exact I. }
  split; [reflexivity|]. split; [reflexivity|]. split; [exact Haccepted|].
  destruct (C3_signup_creates_a_member env0 greedy_signup "u2" 7000
              (db0 enrolled verified None)) as (_ & _ & _ & Hcreated).
  destruct (Hcreated "Mallory"%string "mallory@example.com"%string "hunter22"%string
              Haccepted) as (account & token & Ho & _ & _ & _ & Hrole & Hflag & _).
  - discriminate.
  - intros u Hu. simpl in Hu.
    apply elem_of_cons in Hu as [-> | Hu]; [split; discriminate|].
    apply elem_of_cons in Hu as [-> | Hu]; [split; discriminate|].
    by apply elem_of_nil in Hu.
  - exists account, token. split; [exact Ho|]. split; [exact Hrole|exact Hflag].
Defined.



Lemma C5_witness :
  let d := db0 pending_payment pending_verification None in
  let first := userService.initiatePaymentForEnrollment env0 "u1" user "e-000001"
                 "p2" 20000 d in
  let second := userService.initiatePaymentForEnrollment env0 "u1" user "e-000001"
                  "p3" 20001 (db_after first) in
  enrollment_of d "e-000001" "u1" (e1 pending_payment)
  ∧ unresolved_payment d "u1" "t1" (p1 pending_verification None)
  ∧ ∃ s1 s2, outcome first = Return s1 ∧ outcome second = Return s2
             ∧ PaymentSession.payment_id s1 = "p1"%string
             ∧ PaymentSession.payment_id s2 = "p1"%string.
Proof.
  split; [reflexivity|]. split; [reflexivity|].
  destruct (C5_retry_reuses_the_payment env0 "u1" user "e-000001" "p2" "p3" 20000 20001
              (db0 pending_payment pending_verification None) (e1 pending_payment)
              rocq101 (p1 pending_verification None))
    as (s1 & s2 & H1 & H2 & H3 & H4 & _).
  - reflexivity.
  - reflexivity.
  - reflexivity.
  - reflexivity.
  - unfold window_elapsed, FIVE_MINUTES. simpl. lia.
  - unfold window_elapsed, FIVE_MINUTES. simpl. lia.
  - intros text. exists ("data:image/png;" +:+ text). reflexivity.
  - exists s1, s2. split; [exact H1|]. split; [exact H2|]. split; [exact H3|exact H4].
Defined.

(** C5, as stated, fails in two ways.  Two calls one millisecond apart, both
    inside the window, answer with different payment references.  And when
    an older payment of the pair is still 'pending_verification' but past
    its window, beside a newer one inside its window, the first call marks
    the older one 'failed' and creates a third payment, which it answers
    with, while the second call answers with the newer one: the two
    identities differ and a row was added. *)
Lemma C5_counterexample :
  (let d := db0 pending_payment pending_verification None in
   let first := userService.initiatePaymentForEnrollment env0 "u1" user "e-000001"
                  "p2" 20000 d in
   let second := userService.initiatePaymentForEnrollment env0 "u1" user "e-000001"
                   "p3" 20001 (db_after first) in
   ∃ s1 s2, outcome first = Return s1 ∧ outcome second = Return s2
            ∧ PaymentSession.payment_reference s1 = "TXN-20000-000001"%string
            ∧ PaymentSession.payment_reference s2 = "TXN-20001-000001"%string
            ∧ PaymentSession.payment_reference s1 ≠ PaymentSession.payment_reference s2)
  ∧ (let newer := Payment.mk "p2" "u1" "t1" 4999 "UPI" None pending_verification
                    390000 390000 in
     let d := mkDb [asha; root] [rocq101; retired] [e1 pending_payment]
                [p1 pending_verification None; newer] in
     let first := userService.initiatePaymentForEnrollment env0 "u1" user "e-000001"
                    "p3" 400100 d in
     let second := userService.initiatePaymentForEnrollment env0 "u1" user "e-000001"
                     "p4" 400200 (db_after first) in
     ∃ s1 s2, outcome first = Return s1 ∧ outcome second = Return s2
              ∧ PaymentSession.payment_id s1 = "p3"%string
              ∧ PaymentSession.payment_id s2 = "p2"%string
              ∧ Payment.id <$> payments d = ["p1"; "p2"]%string
              ∧ Payment.id <$> payments (db_after second) = ["p1"; "p2"; "p3"]%string
              ∧ Payment.status <$> payments (db_after second)
                = [failed; pending_verification; pending_verification]).
Proof.
  split.
  - vm_compute. eexists _, _. split_and!; [reflexivity..|discriminate].
  - vm_compute. eexists _, _. split_and!; reflexivity.
Qed.

Lemma C6_witness :
  let d := db0 pending_payment pending_verification None in
  payment_of d "p1" "u1" (p1 pending_verification None)
  ∧ outcome (userService.confirmPayment "u1" user "p1" (JsStr "UTR123") 400000 d)
    = Throw Payment_session_expired
  ∧ ∃ q, outcome (userService.confirmPayment "u1" user "p1" (JsStr "UTR123") 20000 d)
         = Return q
         ∧ Payment.transaction_reference q = Some "UTR123"%string
         ∧ Payment.status q = pending_verification.
Proof.
  assert (payment_of (db0 pending_payment pending_verification None) "p1" "u1"
            (p1 pending_verification None)) as Hp.
  { split; reflexivity. }
  split; [exact Hp|]. split.
  - apply (C6_member_confirmation "u1" user "p1" (JsStr "UTR123") 400000
             (db0 pending_payment pending_verification None)
             (p1 pending_verification None) Hp).
    + reflexivity.
    + unfold window_elapsed, FIVE_MINUTES. simpl. lia.
  - destruct (C6_member_confirmation "u1" user "p1" (JsStr "UTR123") 20000
                (db0 pending_payment pending_verification None)
                (p1 pending_verification None) Hp) as (_ & Hin & _).
    destruct Hin as (q & Ho & _ & Href & Hst).
    + reflexivity.
    + unfold window_elapsed, FIVE_MINUTES. simpl. lia.
    + exact I.
    + exists q. split; [exact Ho|]. split; [exact Href|exact Hst].
Defined.

(** C6, as stated, fails: a payment that is already 'verified' and whose
    window has elapsed is not set to 'failed', and the call does not fail
    with 'Payment session expired'; it is refused for its status and stays
    'verified'. *)
Lemma C6_counterexample :
  let d := db0 enrolled verified None in
  let r := userService.confirmPayment "u1" user "p1" (JsStr "UTR123") 400000 d in
  payment_of d "p1" "u1" (p1 verified None)
  ∧ window_elapsed (p1 verified None) 400000
  ∧ outcome r = Throw Payment_not_pending
  ∧ outcome r ≠ Throw Payment_session_expired
  ∧ db_after r = d
  ∧ Payment.status <$> payments (db_after r) = [verified].
Proof.
  split; [split; reflexivity|].
  split; [unfold window_elapsed, FIVE_MINUTES; simpl; lia|].
  vm_compute. split_and!; [reflexivity|discriminate|reflexivity..].
Qed.

Lemma C7_witness :
  let d := db0 pending_payment pending_verification None in
  payment_of d "p1" "u1" (p1 pending_verification None)
  ∧ program_of d "t1" rocq101
  ∧ (∃ v, outcome (userService.getPaymentStatus "u1" user "p1" 310001 d) = Return v
          ∧ PaymentStatusView.status v = failed
          ∧ PaymentStatusView.is_expired v = true)
  ∧ db_after (userService.getPaymentStatus "u1" user "p1" 309999 d) = d.
Proof.
  assert (payment_of (db0 pending_payment pending_verification None) "p1" "u1"
            (p1 pending_verification None)) as Hp.
  { split; reflexivity. }
  split; [exact Hp|]. split; [reflexivity|].
  destruct (C7_status_read_expires_lazily "u1" user "p1"
              (db0 pending_payment pending_verification None)
              (p1 pending_verification None) rocq101 Hp)
    as (Hlate & _ & _ & _ & Hearly & _).
  - reflexivity.
  - reflexivity.
  - split; [exact Hlate|exact Hearly].
Defined.



Lemma C9_witness :
  let r := adminService.updatePaymentStatus "a1" admin "p1" (JsStr "paid") 20000
             (db0 pending_payment pending_verification None) in
  outcome r = Throw Invalid_payment_status
  ∧ db_after r = db0 pending_payment pending_verification None
  ∧ commits r = [].
Proof.
  apply (C9_unlisted_status_is_refused "a1" admin "p1" (JsStr "paid") 20000
           (db0 pending_payment pending_verification None)).
  reflexivity.
Defined.

(** C9, as stated, fails: the target 'pending_verification' is none of
    'verified', 'failed', 'refunded', yet it is accepted, and it takes a
    verified payment back to 'pending_verification'. *)
Lemma C9_counterexample :
  let d := db0 enrolled verified None in
  let r := adminService.updatePaymentStatus "a1" admin "p1" (JsStr "pending_verification")
             20000 d in
  outcome r = Return (Payment.mk "p1" "u1" "t1" 4999 "UPI" None pending_verification
                        10000 20000)
  ∧ outcome r ≠ Throw Invalid_payment_status
  ∧ Payment.status <$> payments d = [verified]
  ∧ Payment.status <$> payments (db_after r) = [pending_verification].
Proof. vm_compute. split_and!; [reflexivity|discriminate|reflexivity..]. Qed.

Lemma C10_witness :
  let d := db0 pending_payment pending_verification (Some "UTR123"%string) in
  payment_of d "p1" "u1" (p1 pending_verification (Some "UTR123"%string))
  ∧ ∃ q, outcome (userService.confirmPayment "u1" user "p1" JsUndefined 20000 d) = Return q
         ∧ Payment.transaction_reference q = None.
Proof.
  assert (payment_of (db0 pending_payment pending_verification (Some "UTR123"%string))
            "p1" "u1" (p1 pending_verification (Some "UTR123"%string))) as Hp.
  { split; reflexivity. }
  split; [exact Hp|].
  destruct (C10_confirmation_without_reference_erases_it "u1" user "p1" JsUndefined 20000
              (db0 pending_payment pending_verification (Some "UTR123"%string))
              (p1 pending_verification (Some "UTR123"%string)) Hp)
    as (q & Ho & _ & Href).
  - reflexivity.
  - unfold window_elapsed, FIVE_MINUTES. simpl. lia.
  - left. reflexivity.
  - exists q. split; [exact Ho|exact Href].
Defined.


(** * Authentication and authorization middleware: properties *)

Lemma split_nonempty sep s : split sep s ≠ [].
Proof.
  induction s as [|c s IH]; simpl; [done|].
  destruct (Ascii.eqb c sep); [done|]. by destruct (split sep s).
Qed.

(** Splitting loses nothing, and no part contains the separator. *)
Lemma join_split sep s : join sep (split sep s) = s.
Proof.
  induction s as [|c s IH]; simpl; [done|].
  destruct (Ascii.eqb c sep) eqn:Hc.
  - apply Ascii.eqb_eq in Hc as ->.
    pose proof (split_nonempty sep s). destruct (split sep s) as [|p ps]; [done|].
    simpl in *. by rewrite IH.
  - pose proof (split_nonempty sep s). destruct (split sep s) as [|p ps]; [done|].
    destruct ps as [|q ps]; simpl in *; by rewrite <-IH.
Qed.

Lemma split_parts sep s : Forall (λ part, mentions sep part = false) (split sep s).
Proof.
  induction s as [|c s IH]; simpl; [by repeat constructor|].
  destruct (Ascii.eqb c sep) eqn:Hc.
  - by constructor.
  - pose proof (split_nonempty sep s). destruct (split sep s) as [|p ps]; [done|].
    inversion IH as [|? ? Hp Hps]; subst. constructor; [|done]. simpl. by rewrite Hc.
Qed.

Lemma split_append sep a b :
  mentions sep a = false → split sep (a +:+ String sep b) = a :: split sep b.
Proof.
  induction a as [|c a IH]; simpl.
  - intros _. by rewrite Ascii.eqb_refl.
  - intros [Hc Ha]%orb_false_iff. rewrite Hc, IH by done. done.
Qed.

Lemma split_without sep b : mentions sep b = false → split sep b = [b].
Proof.
  induction b as [|c b IH]; simpl; [done|].
  intros [Hc Hb]%orb_false_iff. by rewrite Hc, IH.
Qed.

(** X1. [extractTokenFromHeader] answers with a token exactly for the headers
    of the form "Bearer <token>" whose token contains no space; every other
    header -- absent, empty, another scheme, more than one space -- gives
    [null]. *)
Theorem X1_extractTokenFromHeader_bearer (header token : string) :
  extractTokenFromHeader (Some header) = Some token
  ↔ header = "Bearer " +:+ token ∧ mentions space token = false.
Proof.
  unfold extractTokenFromHeader. split.
  - case_bool_decide; [done|].
    pose proof (join_split space header) as Hjoin.
    pose proof (split_parts space header) as Hparts.
    destruct (split space header) as [|scheme [|tok [|? ?]]]; try done.
    destruct (String.eqb scheme "Bearer") eqn:Hs; [|done].
    apply String.eqb_eq in Hs as ->. intros [= ->]. simpl in Hjoin.
    split; [done|]. inversion Hparts as [|? ? _ Htok]; subst.
    by inversion Htok.
  - intros [-> Hno]. rewrite bool_decide_eq_false_2 by done.
    change ("Bearer " +:+ token) with ("Bearer" +:+ String space token).
    rewrite split_append by done. by rewrite split_without.
Qed.

(** X2. [isTokenExpired] treats a payload as live exactly when it carries a
    non-zero [exp] and the clock, in milliseconds, has not yet reached the end
    of the second [exp]; a missing payload, a missing [exp] and [exp = 0] all
    count as expired. *)
Theorem X2_isTokenExpired_boundary (decoded : option Decoded.t) (now : Z) :
  isTokenExpired decoded now = false
  ↔ ∃ d exp, decoded = Some d ∧ Decoded.exp d = Some exp ∧ exp ≠ 0
             ∧ now < (exp + 1) * 1000.
Proof.
  unfold isTokenExpired. split.
  - destruct decoded as [d|]; [|done]. destruct (Decoded.exp d) as [exp|] eqn:He; [|done].
    destruct (exp =? 0) eqn:H0; [done|]. intros Hlt%Z.ltb_ge.
    exists d, exp. split_and!; [done..|lia|].
    pose proof (Z.div_mod now 1000). pose proof (Z.mod_pos_bound now 1000). lia.
  - intros (d & exp & -> & -> & H0 & Hnow).
    rewrite (proj2 (Z.eqb_neq exp 0)) by done. apply Z.ltb_ge.
    pose proof (Z.div_mod now 1000). pose proof (Z.mod_pos_bound now 1000). lia.
Qed.

Lemma includes_user_admin (v : JsVal) :
  includes ["user"; "admin"]%string v = true → v = JsStr "user" ∨ v = JsStr "admin".
Proof.
  intros (s & -> & Hin)%includes_cases.
  repeat (apply elem_of_cons in Hin as [->|Hin]; [tauto|]).
  by apply elem_of_nil in Hin.
Qed.

(** What [verifyToken] returns and throws. *)
Lemma verifyToken_cases jwt_verify token :
  match verifyToken jwt_verify token with
  | Return decoded =>
      token ≠ EmptyString ∧ jwt_verify token = JwtPayload decoded
      ∧ truthy (Decoded.id decoded) = true ∧ truthy (Decoded.email decoded) = true
      ∧ (Decoded.role decoded = JsStr "user" ∨ Decoded.role decoded = JsStr "admin")
  | Throw error =>
      error = JsError "Invalid token" ∨ error = JsError "Token expired"
      ∨ error = JsError "Token not active" ∨ error = JsError "Token verification failed"
  end.
Proof.
  unfold verifyToken, verifyToken_try. case_bool_decide as Htok; simpl; [tauto|].
  destruct (jwt_verify token) as [decoded|name message]; simpl.
  - destruct (truthy (Decoded.id decoded)) eqn:Hid; simpl; [|tauto].
    destruct (truthy (Decoded.role decoded)) eqn:Hrole; simpl; [|tauto].
    destruct (truthy (Decoded.email decoded)) eqn:Hemail; simpl; [|tauto].
    destruct (includes _ (Decoded.role decoded)) eqn:Hin; simpl; [|tauto].
    apply includes_user_admin in Hin. done.
  - repeat (destruct (String.eqb name _); [tauto|]). tauto.
Qed.

(** X3. [verifyToken] returns a payload only when the library accepted the
    token and the payload has a truthy [id] and [email] and the role 'user'
    or 'admin'.  It throws one of four messages only; the messages of its own
    checks ('No token provided', 'Invalid token payload structure', 'Invalid
    role in token') never leave it: its [catch] turns them into 'Token
    verification failed'. *)
Theorem X3_verifyToken_outcomes (jwt_verify : string → JwtVerify) (token : string) :
  (∀ decoded, verifyToken jwt_verify token = Return decoded →
     token ≠ EmptyString ∧ jwt_verify token = JwtPayload decoded
     ∧ truthy (Decoded.id decoded) = true ∧ truthy (Decoded.email decoded) = true
     ∧ (Decoded.role decoded = JsStr "user" ∨ Decoded.role decoded = JsStr "admin"))
  ∧ (∀ error, verifyToken jwt_verify token = Throw error →
     error = JsError "Invalid token" ∨ error = JsError "Token expired"
     ∨ error = JsError "Token not active" ∨ error = JsError "Token verification failed")
  ∧ (∀ decoded, jwt_verify token = JwtPayload decoded →
     includes ["user"; "admin"]%string (Decoded.role decoded) = false →
     verifyToken jwt_verify token = Throw (JsError "Token verification failed")).
Proof.
  pose proof (verifyToken_cases jwt_verify token) as H. split_and!.
  - intros decoded Hd. by rewrite Hd in H.
  - intros error He. by rewrite He in H.
  - intros decoded Hd Hrole. unfold verifyToken, verifyToken_try.
    case_bool_decide; [done|]. rewrite Hd, Hrole. simpl.
    by destruct (_ || _).
Qed.


Lemma X3_witness :
  verifyToken jwt_verify0 "asha.token" = Return asha_claims
  ∧ verifyToken jwt_verify0 "odd.token" = Throw (JsError "Token verification failed").
Proof.
  split; [reflexivity|].
  apply (X3_verifyToken_outcomes jwt_verify0 "odd.token") with (decoded := odd_claims).
  - reflexivity.
  - reflexivity.
Defined.

Lemma authenticateToken_cases jwt_verify authorization :
  match authenticateToken jwt_verify authorization with
  | Next req_user =>
      truthy (ReqUser.id req_user) = true ∧ truthy (ReqUser.email req_user) = true
      ∧ (ReqUser.role req_user = JsStr "user" ∨ ReqUser.role req_user = JsStr "admin")
  | Respond status message =>
      status = 401
      ∧ (message = "Access token required"%string ∨ message = "Token expired"%string
         ∨ message = "Invalid token"%string
         ∨ message = "Token verification failed"%string)
  end.
Proof.
  unfold authenticateToken.
  destruct (extractTokenFromHeader authorization) as [token|]; [|tauto].
  case_bool_decide as Htok; [tauto|].
  pose proof (verifyToken_cases jwt_verify token) as Hv.
  destruct (verifyToken jwt_verify token) as [decoded|error].
  - destruct Hv as (_ & _ & Hid & Hemail & Hrole). rewrite Hid, Hemail. simpl.
    destruct Hrole as [Hr|Hr]; rewrite Hr; simpl; tauto.
  - destruct Hv as [-> | [-> | [-> | ->]]]; simpl; tauto.
Qed.

(** X4. When [authenticateToken] lets a request through, the attached
    [req.user] has a truthy [id] and [email] and the role 'user' or 'admin'.
    Every refusal is a 401 with one of four messages; the answers 'Invalid
    token structure' and 'Invalid role in token' of its own checks are never
    given, because [verifyToken] has already refused such payloads. *)
Theorem X4_authenticateToken_answers
    (jwt_verify : string → JwtVerify) (authorization : option string) :
  match authenticateToken jwt_verify authorization with
  | Next req_user =>
      truthy (ReqUser.id req_user) = true ∧ truthy (ReqUser.email req_user) = true
      ∧ (ReqUser.role req_user = JsStr "user" ∨ ReqUser.role req_user = JsStr "admin")
  | Respond status message =>
      status = 401
      ∧ (message = "Access token required"%string ∨ message = "Token expired"%string
         ∨ message = "Invalid token"%string
         ∨ message = "Token verification failed"%string)
  end.
Proof. apply authenticateToken_cases. Qed.

Lemma authenticateToken_role jwt_verify authorization req_user :
  authenticateToken jwt_verify authorization = Next req_user →
  ReqUser.role req_user = JsStr "user" ∨ ReqUser.role req_user = JsStr "admin".
Proof.
  intros H. pose proof (authenticateToken_cases jwt_verify authorization) as Hx.
  rewrite H in Hx. tauto.
Qed.

(** X5. Behind [authenticateToken], the gate of the user routes
    ([requireUser]) and the gate of the administrator routes
    ([requireAdmin]) admit disjoint requests: a request that authenticates is
    admitted by exactly one of the two, by the user routes when its role is
    'user' and by the administrator routes when it is 'admin', and the other
    gate answers 403 'Insufficient permissions'. *)
Theorem X5_route_gates_are_disjoint
    (jwt_verify : string → JwtVerify) (authorization : option string)
    (req_user : ReqUser.t) :
  authenticateToken jwt_verify authorization = Next req_user →
  (ReqUser.role req_user = JsStr "user"
   ∧ user_routes_gate jwt_verify authorization = Next req_user
   ∧ admin_routes_gate jwt_verify authorization = Respond 403 "Insufficient permissions")
  ∨ (ReqUser.role req_user = JsStr "admin"
     ∧ admin_routes_gate jwt_verify authorization = Next req_user
     ∧ user_routes_gate jwt_verify authorization = Respond 403 "Insufficient permissions").
Proof.
  intros Hauth. unfold user_routes_gate, admin_routes_gate. rewrite Hauth.
  unfold requireUser, requireAdmin, requireRole.
  destruct (authenticateToken_role _ _ _ Hauth) as [Hr|Hr]; rewrite Hr; simpl; tauto.
Qed.

Lemma X5_witness :
  authenticateToken jwt_verify0 (Some "Bearer root.token"%string)
  = Next (ReqUser.mk (JsStr "a1") (JsStr "admin") (JsStr "root@example.com")
            (JsBool true) (Some 1700000000) (Some 1700086400))
  ∧ user_routes_gate jwt_verify0 (Some "Bearer root.token"%string)
    = Respond 403 "Insufficient permissions".
Proof.
  split; [reflexivity|].
  destruct (X5_route_gates_are_disjoint jwt_verify0 (Some "Bearer root.token"%string)
              (ReqUser.mk (JsStr "a1") (JsStr "admin") (JsStr "root@example.com")
                 (JsBool true) (Some 1700000000) (Some 1700086400)))
    as [(Hrole & _)|(_ & _ & Hgate)].
  - reflexivity.
  - discriminate Hrole.
  - exact Hgate.
Defined.

(** X6. [requireSelfOrAdmin]: a request without a user is answered 401; an
    administrator always passes; anyone else passes exactly when the target
    identifier -- the path parameter when it is present and non-empty, the
    body field otherwise -- is truthy and strictly equal to the caller's own
    identifier. *)
Theorem X6_requireSelfOrAdmin_decides
    (userIdParam : string) (req_user : ReqUser.t) (params : gmap string string)
    (body : JsObject) :
  requireSelfOrAdmin userIdParam None params body = Respond 401 "Authentication required"
  ∧ (ReqUser.role req_user = JsStr "admin" →
     requireSelfOrAdmin userIdParam (Some req_user) params body = Next tt)
  ∧ (ReqUser.role req_user = JsStr "user" →
     ∀ target,
       target = match params !! userIdParam with
                | Some p => if bool_decide (p = EmptyString)
                            then prop body userIdParam else JsStr p
                | None => prop body userIdParam
                end →
       (requireSelfOrAdmin userIdParam (Some req_user) params body = Next tt
        ↔ truthy target = true ∧ target = ReqUser.id req_user)).
Proof.
  split_and!; [done| |].
  - intros Hr. unfold requireSelfOrAdmin. by rewrite Hr.
  - intros Hr target Htarget.
    assert (js_or (param params userIdParam) (prop body userIdParam) = target) as Hjs.
    { subst target. unfold js_or, param.
      destruct (params !! userIdParam) as [p|]; simpl; [|done].
      by destruct (bool_decide (p = EmptyString)). }
    unfold requireSelfOrAdmin. rewrite Hr. simpl. rewrite Hjs.
    destruct (truthy target); simpl.
    + case_bool_decide as Heq; simpl; split; try done; [by intros [_ ?]].
    + split; [done|]. by intros [? _].
Qed.


Lemma X6_witness :
  requireSelfOrAdmin "userId"
    (Some (ReqUser.mk (JsStr "u1") (JsStr "user") (JsStr "asha@example.com")
             (JsBool false) None None))
    ∅ (list_to_map [("userId"%string, JsStr "u1")])
  = Next tt.
Proof.
  apply (X6_requireSelfOrAdmin_decides "userId"
           (ReqUser.mk (JsStr "u1") (JsStr "user") (JsStr "asha@example.com")
              (JsBool false) None None)
           ∅ (list_to_map [("userId"%string, JsStr "u1")])) with (target := JsStr "u1").
  - reflexivity.
  - reflexivity.
  - split; reflexivity.
Defined.

(** X7. [optionalAuth] attaches a user to the request exactly when
    [authenticateToken] would let the same request through, and it attaches
    the same user; in every other case the request goes on without one. *)
Theorem X7_optionalAuth_agrees_with_authenticateToken
    (jwt_verify : string → JwtVerify) (authorization : option string)
    (req_user : ReqUser.t) :
  optionalAuth jwt_verify authorization = Some req_user
  ↔ authenticateToken jwt_verify authorization = Next req_user.
Proof.
  unfold optionalAuth, authenticateToken.
  destruct (extractTokenFromHeader authorization) as [token|]; [|done].
  case_bool_decide as Htok; [done|].
  pose proof (verifyToken_cases jwt_verify token) as Hv.
  destruct (verifyToken jwt_verify token) as [decoded|error].
  - destruct Hv as (_ & _ & Hid & Hemail & Hrole). rewrite Hid, Hemail. simpl.
    destruct Hrole as [Hr|Hr]; rewrite Hr; simpl; split; congruence.
  - split; [done|]. by repeat destruct (message_is _ error).
Qed.

(** X8. [requireResourceOwnership] fails closed: a caller who is not an
    administrator is let through only when the ownership query returned at
    least one row and the owner column of the first row is strictly equal to
    the caller's identifier; a failing query is answered 500, a missing
    resource 404, and a request without a user 401. *)
Theorem X8_requireResourceOwnership_fails_closed
    (query : string → list JsVal → QueryResult)
    (resourceTable resourceIdParam ownerField : string)
    (req_user : ReqUser.t) (params : gmap string string) :
  let sql := "SELECT " +:+ ownerField +:+ " FROM " +:+ resourceTable
             +:+ " WHERE id = $1" in
  let check := requireResourceOwnership query resourceTable resourceIdParam ownerField in
  check None params = Respond 401 "Authentication required"
  ∧ (ReqUser.role req_user ≠ JsStr "admin" →
     check (Some req_user) params = Next tt →
     ∃ resourceId row rows,
       params !! resourceIdParam = Some resourceId ∧ resourceId ≠ EmptyString
       ∧ query sql [JsStr resourceId] = Rows (row :: rows)
       ∧ prop row ownerField = ReqUser.id req_user)
  ∧ (ReqUser.role req_user ≠ JsStr "admin" →
     ∀ resourceId, params !! resourceIdParam = Some resourceId →
                   resourceId ≠ EmptyString →
       (query sql [JsStr resourceId] = QueryError →
        check (Some req_user) params = Respond 500 "Failed to verify resource ownership")
       ∧ (query sql [JsStr resourceId] = Rows [] →
          check (Some req_user) params = Respond 404 "Resource not found")).
Proof.
  intros sql check. subst sql check.
  assert (ReqUser.role req_user ≠ JsStr "admin" →
          is_literal "admin" (ReqUser.role req_user) = false) as Hnot.
  { intros Hr. destruct (ReqUser.role req_user) as [| | | |s]; simpl; try done.
    apply String.eqb_neq. congruence. }
  split_and!; [done| |].
  - intros Hr%Hnot. unfold requireResourceOwnership, param. rewrite Hr.
    destruct (params !! resourceIdParam) as [rid|]; simpl; [|done].
    case_bool_decide as Hrid; simpl; [done|].
    destruct (query _ _) as [[|row rows]|] eqn:Hq; try done.
    case_bool_decide as Hown; simpl; [|done]. intros _.
    exists rid, row, rows. done.
  - intros Hr%Hnot rid Hrid Hne. unfold requireResourceOwnership, param.
    rewrite Hr, Hrid. simpl. rewrite bool_decide_eq_false_2 by done. simpl.
    split; by intros ->.
Qed.

Lemma X8_witness :
  let query := λ (text : string) (args : list JsVal),
    if String.eqb text "SELECT user_id FROM payments WHERE id = $1"
    then Rows [list_to_map [("user_id"%string, JsStr "u2")]]
    else QueryError in
  let mallory := ReqUser.mk (JsStr "u9") (JsStr "user") (JsStr "mallory@example.com")
                   (JsBool false) None None in
  requireResourceOwnership query "payments" "id" "user_id" (Some mallory)
    (list_to_map [("id"%string, "p1"%string)])
  = Respond 403 "You do not own this resource"
  ∧ requireResourceOwnership query "certificates" "id" "user_id" (Some mallory)
      (list_to_map [("id"%string, "c1"%string)])
    = Respond 500 "Failed to verify resource ownership".
Proof.
  split; [reflexivity|].
  apply (X8_requireResourceOwnership_fails_closed
           (λ (text : string) (args : list JsVal),
              if String.eqb text "SELECT user_id FROM payments WHERE id = $1"
              then Rows [list_to_map [("user_id"%string, JsStr "u2")]]
              else QueryError)
           "certificates" "id" "user_id"
           (ReqUser.mk (JsStr "u9") (JsStr "user") (JsStr "mallory@example.com")
              (JsBool false) None None)
           (list_to_map [("id"%string, "c1"%string)])) with (resourceId := "c1"%string).
  - discriminate.
  - reflexivity.
  - discriminate.
  - reflexivity.
Defined.


(** * Error handling: properties *)

(** X9. For an error made with [new Error(message)], the error handler
    answers 401 with the message itself when the message is 'Invalid email or
    password', and 500 'Internal server error' for every other message; in
    both cases the original message is sent along in [details]. *)
Theorem X9_errorHandler_plain_errors (message stack : string) :
  let response := errorHandler (new_Error message stack) in
  Response.details_message response = message
  ∧ Response.details_name response = "Error"%string
  ∧ (if String.eqb message "Invalid email or password"
     then Response.status response = 401 ∧ Response.message response = message
     else Response.status response = 500
          ∧ Response.message response = "Internal server error"%string).
Proof.
  unfold errorHandler, new_Error. simpl.
  destruct (String.eqb message "Invalid email or password") eqn:Hm; simpl.
  - apply String.eqb_eq in Hm. by subst.
  - done.
Qed.

Lemma errorHandler_forwarded error prisma_text stack :
  (∀ code, error = PrismaError code →
     String.eqb prisma_text "Invalid email or password" = false
     ∧ code ∉ ["23505"; "23503"; "23502"; "42501"]%string) →
  let response := errorHandler (forwarded error prisma_text stack) in
  if message_is "Invalid email or password" error
  then Response.status response = 401
  else Response.status response = 500
       ∧ Response.message response = "Internal server error"%string.
Proof.
  intros Hprisma. destruct error as [message|code]; simpl.
  - unfold errorHandler, new_Error. simpl.
    by destruct (String.eqb message "Invalid email or password").
  - destruct (Hprisma code eq_refl) as [Htext Hcode].
    assert (∀ c, c ∈ ["23505"; "23503"; "23502"; "42501"]%string →
                 String.eqb code c = false) as Hne.
    { intros c Hc. apply String.eqb_neq. intros ->. done. }
    destruct (String.eqb code "PrismaClientValidationError");
      unfold errorHandler; simpl; rewrite ?Htext; simpl;
      rewrite ?Hne by (apply list_elem_of_In; simpl; tauto); done.
Qed.

(** X10. A second [createEnrollment] for a pair that already has an
    enrollment in an active training program reaches the client as status 500
    'Internal server error': the service throws a plain [Error], which none
    of the handler's rules recognises, so the conflict is not answered 409;
    the text 'Already enrolled in this training program' appears in
    [details] only. *)
Theorem X10_duplicate_enrollment_is_answered_500
    (userId : string) (userRole : Role) (tid uuid : string) (now : Z) (d : Db)
    (e : Enrollment.t) (prog : TrainingProgram.t) (prisma_text stack : string) :
  enrolled_pair d userId tid e →
  tid ≠ EmptyString →
  active_program d tid prog →
  ∃ response,
    handled (outcome (userService.createEnrollment userId userRole (JsStr tid) uuid now d))
      prisma_text stack = Some response
    ∧ Response.status response = 500
    ∧ Response.message response = "Internal server error"%string
    ∧ Response.details_message response
      = "Already enrolled in this training program"%string.
Proof.
  intros He Htid Hprog.
  destruct (createEnrollment_existing _ userRole _ uuid now _ _ He) as (_ & _ & Ho).
  rewrite (Ho Htid prog Hprog). simpl. eexists. split; [done|]. done.
Qed.


(** * Login and password change: properties *)

Ltac run_auth :=
  rewrite ?try_rethrow; unfold_monad;
  unfold prisma.user.findUnique, bcrypt_compare_js, generateToken, query; simpl.

(** What [login] does, by cases on the account found for the e-mail. *)
Lemma login_cases env bcrypt_compare e p now d :
  e ≠ EmptyString → p ≠ EmptyString →
  let r := login env bcrypt_compare (JsStr e) (JsStr p) now d in
  db_after r = d ∧ commits r = []
  ∧ match List.find (λ u, bool_decide (User.email u = e)) (users d) with
    | None => outcome r = Throw Invalid_email_or_password
    | Some account =>
        if bcrypt_compare p (User.password account)
        then
          if bool_decide (User.id account = EmptyString)
          then outcome r = Throw (JsError "Token generation failed")
          else outcome r =
               Return (LoginUser.mk (User.id account) (User.full_name account)
                         (User.email account) (User.role account)
                         (User.is_admin account),
                       jwt_sign env (User.id account) (User.role account)
                         (User.email account) (User.is_admin account) (now / 1000))
        else outcome r = Throw Invalid_email_or_password
    end.
Proof.
  intros He Hp. unfold login. run_auth.
  rewrite !bool_decide_eq_false_2 by done. simpl.
  destruct (List.find _ (users d)) as [account|] eqn:Hfind; simpl; [|done].
  destruct (bcrypt_compare p (User.password account)); simpl; [|done].
  assert (User.email account = e) as Hemail.
  { apply find_some in Hfind as [_ Hfind]. by apply bool_decide_eq_true in Hfind. }
  rewrite Hemail. rewrite (bool_decide_eq_false_2 (e = EmptyString)) by done.
  rewrite orb_false_r. by destruct (bool_decide (User.id account = EmptyString)).
Qed.

Lemma login_reads_only env bcrypt_compare email password now d :
  let r := login env bcrypt_compare email password now d in
  db_after r = d ∧ commits r = [].
Proof.
  unfold login. run_auth.
  destruct (negb (truthy email) || negb (truthy password)); simpl; [done|].
  destruct email as [| | | |e]; simpl; try done.
  destruct (List.find _ (users d)) as [account|]; simpl; [|done].
  destruct password as [| | | |p]; simpl; try done.
  destruct (bcrypt_compare p (User.password account)); simpl; [|done].
  by destruct (_ || _).
Qed.

(** X11. [login] never writes to the database, and it does not tell an
    unknown e-mail from a wrong password: both fail with the same error,
    'Invalid email or password'. *)
Theorem X11_login_reads_only_and_fails_uniformly
    (env : Env) (bcrypt_compare : string → string → bool) (email password : JsVal)
    (now : Z) (d : Db) :
  let r := login env bcrypt_compare email password now d in
  db_after r = d ∧ commits r = []
  ∧ (∀ e p, email = JsStr e → password = JsStr p → e ≠ EmptyString → p ≠ EmptyString →
       (List.find (λ u, bool_decide (User.email u = e)) (users d) = None →
        outcome r = Throw Invalid_email_or_password)
       ∧ (∀ account,
            List.find (λ u, bool_decide (User.email u = e)) (users d) = Some account →
            bcrypt_compare p (User.password account) = false →
            outcome r = Throw Invalid_email_or_password)).
Proof.
  destruct (login_reads_only env bcrypt_compare email password now d) as [Hd Hc].
  split_and!; [done..|].
  intros e p -> -> He Hp.
  destruct (login_cases env bcrypt_compare e p now d He Hp) as (_ & _ & Hcase).
  split.
  - intros Hnone. by rewrite Hnone in Hcase.
  - intros account Hsome Hwrong. by rewrite Hsome, Hwrong in Hcase.
Qed.

Lemma truthy_JsStr s : truthy (JsStr s) = true → s ≠ EmptyString.
Proof. simpl. by intros ?%negb_true_iff%bool_decide_eq_false. Qed.

(** What a successful signup found and stored. *)
Lemma userSignup_success env userData uuid now d account token :
  outcome (authService.userSignup env userData uuid now d) = Return (account, token) →
  ∃ e p,
    SignupData.email userData = JsStr e ∧ SignupData.password userData = JsStr p
    ∧ e ≠ EmptyString ∧ p ≠ EmptyString
    ∧ List.find (λ u, bool_decide (User.email u = e)) (users d) = None
    ∧ User.id account = uuid ∧ uuid ≠ EmptyString
    ∧ User.email account = e
    ∧ User.password account = bcrypt_hash env p 12
    ∧ User.role account = user ∧ User.is_admin account = false
    ∧ db_after (authService.userSignup env userData uuid now d)
      = set_users (λ rows, rows ++ [account]) d.
Proof.
  remember (authService.userSignup env userData uuid now d) as r eqn:Hr.
  unfold authService.userSignup, try_catch in Hr. cbv zeta in Hr.
  destruct userData as [full_name email phone profession college company password].
  cbn [SignupData.full_name SignupData.email SignupData.phone SignupData.profession
       SignupData.college SignupData.company SignupData.password] in *.
  destruct (truthy full_name) eqn:Hfn; [|by subst r].
  destruct (truthy email) eqn:Hemail; [|by subst r].
  destruct (truthy password) eqn:Hpw; [|by subst r]. cbn [negb orb] in Hr.
  destruct (negb (emailRegex_test env (toString email))); [by subst r|].
  destruct (truthy profession && negb (includes _ profession)); [by subst r|].
  unfold mbind at 1, M_bind at 1 in Hr.
  destruct email as [| | | |e]; [by subst r..|].
  unfold prisma.user.findUnique, query in Hr.
  destruct (List.find _ (users d)) as [existing|] eqn:Hfind; [by subst r|].
  unfold mbind at 1, M_bind at 1 in Hr.
  destruct password as [| | | |p]; [by subst r..|].
  unfold mret at 1, M_ret at 1 in Hr. unfold mbind at 1, M_bind at 1 in Hr.
  match type of Hr with context [prisma.user.create uuid ?data now d] =>
    assert (prop data "role" = JsStr "user") as Hrl by (vm_compute; reflexivity);
    assert (prop data "is_admin" = JsBool false) as Ha by (vm_compute; reflexivity);
    assert (prop data "email" = JsStr e) as He by (vm_compute; reflexivity);
    assert (prop data "password" = JsStr (bcrypt_hash env p 12)) as Hp
      by (vm_compute; reflexivity);
    pose proof (user_create_member uuid data now d Hrl Ha) as Hmember;
    pose proof (λ a d1 c1, user_create_credentials uuid data now d e
                             (bcrypt_hash env p 12) a d1 c1 He Hp) as Hcred;
    clear Hrl Ha He Hp;
    destruct (prisma.user.create uuid data now d) as [[u|err] d1 c1]
  end; cbn [outcome db_after commits] in Hmember.
  - destruct (Hcred u d1 c1 eq_refl) as (Hid & He & Hp & ->).
    destruct Hmember as (Hrole & Hflag & _ & _).
    unfold generateToken, mbind, M_bind in Hr.
    destruct (bool_decide (User.id u = EmptyString)) eqn:Hemp; simpl in Hr;
      [by subst r|].
    destruct (bool_decide (User.email u = EmptyString)); simpl in Hr; [by subst r|].
    subst r. simpl. intros [= <- <-]. apply bool_decide_eq_false in Hemp.
    exists e, p.
    split_and!; try done; try (by apply truthy_JsStr). congruence.
  - destruct (code_is _ err); by subst r.
Qed.

Lemma find_append {A} (P : A → bool) (l1 l2 : list A) :
  List.find P (l1 ++ l2)
  = match List.find P l1 with Some x => Some x | None => List.find P l2 end.
Proof. induction l1 as [|x l1 IH]; simpl; [done|]. by destruct (P x). Qed.

(** X12. Signup and login round trip.  With a [bcrypt.compare] that accepts
    a password against its own hash, a signup that succeeded is followed by a
    successful [login] with the e-mail and password of the signup body, and
    the login answers with the account that was created: same identifier and
    e-mail, role 'user', [is_admin = false]. *)
Theorem X12_login_after_signup
    (env : Env) (bcrypt_compare : string → string → bool) (body : JsObject)
    (uuid : string) (now later : Z) (d : Db) (account : User.t) (token : string) :
  bcrypt_sound env bcrypt_compare →
  let signup := authController.userSignup env body uuid now d in
  outcome signup = Return (account, token) →
  outcome (login env bcrypt_compare (prop body "email") (prop body "password") later
             (db_after signup))
  = Return (LoginUser.mk uuid (User.full_name account) (User.email account) user false,
            jwt_sign env uuid user (User.email account) false (later / 1000)).
Proof.
  intros Hsound signup Hok. subst signup. unfold authController.userSignup in *.
  cbv zeta in *.
  destruct (userSignup_success _ _ _ _ _ _ _ Hok)
    as (e & p & He & Hp & Hne & Hnp & Hfresh & Hid & Hnid & Hemail & Hhash & Hrole
        & Hflag & Hdb).
  cbn [SignupData.email SignupData.password] in He, Hp. rewrite Hdb, He, Hp.
  destruct (login_cases env bcrypt_compare e p later
              (set_users (λ rows, rows ++ [account]) d) Hne Hnp) as (_ & _ & Hcase).
  simpl in Hcase.
  assert (List.find (λ u, bool_decide (User.email u = e)) (users d ++ [account])
          = Some account) as Hfound.
  { rewrite find_append, Hfresh. simpl. by rewrite bool_decide_eq_true_2. }
  rewrite Hfound, Hhash, Hsound in Hcase.
  rewrite bool_decide_eq_false_2 in Hcase by congruence.
  rewrite Hcase, Hid, Hrole, Hflag. done.
Qed.

Lemma X10_witness :
  let d := db0 enrolled verified None in
  enrolled_pair d "u1" "t1" (e1 enrolled)
  ∧ active_program d "t1" rocq101
  ∧ ∃ response,
      handled (outcome (userService.createEnrollment "u1" user (JsStr "t1") "e-000002"
                          3000 d)) EmptyString EmptyString = Some response
      ∧ Response.status response = 500
      ∧ Response.message response = "Internal server error"%string
      ∧ Response.details_message response
        = "Already enrolled in this training program"%string.
Proof.
  split; [reflexivity|]. split; [reflexivity|].
  apply (X10_duplicate_enrollment_is_answered_500 "u1" user "t1" "e-000002" 3000
           (db0 enrolled verified None) (e1 enrolled) rocq101 EmptyString EmptyString).
  - reflexivity.
  - discriminate.
  - reflexivity.
Defined.

Lemma X11_witness :
  let d := db0 enrolled verified None in
  let r := login env0 bcrypt_compare0 (JsStr "asha@example.com") (JsStr "guess") 5000 d in
  db_after r = d ∧ commits r = []
  ∧ outcome r = Throw Invalid_email_or_password
  ∧ outcome (login env0 bcrypt_compare0 (JsStr "nobody@example.com") (JsStr "guess")
               5000 d)
    = Throw Invalid_email_or_password.
Proof.
  destruct (X11_login_reads_only_and_fails_uniformly env0 bcrypt_compare0
              (JsStr "asha@example.com") (JsStr "guess") 5000
              (db0 enrolled verified None)) as (Hd & Hc & Hfail).
  destruct (X11_login_reads_only_and_fails_uniformly env0 bcrypt_compare0
              (JsStr "nobody@example.com") (JsStr "guess") 5000
              (db0 enrolled verified None)) as (_ & _ & Hfail').
  split; [exact Hd|]. split; [exact Hc|]. split.
  - destruct (Hfail "asha@example.com"%string "guess"%string eq_refl eq_refl)
      as [_ Hwrong]; [discriminate..|].
    exact (Hwrong asha eq_refl eq_refl).
  - destruct (Hfail' "nobody@example.com"%string "guess"%string eq_refl eq_refl)
      as [Hunknown _]; [discriminate..|].
    exact (Hunknown eq_refl).
Defined.

Lemma bcrypt_compare0_sound : bcrypt_sound env0 bcrypt_compare0.
Proof. intros p. unfold bcrypt_compare0. simpl. apply String.eqb_refl. Qed.

Lemma X12_witness :
  let d := db0 enrolled verified None in
  let signup := authController.userSignup env0 greedy_signup "u2" 7000 d in
  bcrypt_sound env0 bcrypt_compare0
  ∧ outcome signup
    = Return (User.mk "u2" "Mallory" "mallory@example.com" "$2a$12$hunter22" None None
                None None user false 7000 7000, "jwt.u2.mallory@example.com"%string)
  ∧ outcome (login env0 bcrypt_compare0 (prop greedy_signup "email")
               (prop greedy_signup "password") 9000 (db_after signup))
    = Return (LoginUser.mk "u2" "Mallory" "mallory@example.com" user false,
              jwt_sign env0 "u2" user "mallory@example.com" false (9000 / 1000)).
Proof.
  split; [exact bcrypt_compare0_sound|]. split; [vm_compute; reflexivity|].
  apply (X12_login_after_signup env0 bcrypt_compare0 greedy_signup "u2" 7000 9000
           (db0 enrolled verified None)
           (User.mk "u2" "Mallory" "mallory@example.com" "$2a$12$hunter22" None None
              None None user false 7000 7000) "jwt.u2.mallory@example.com").
  - exact bcrypt_compare0_sound.
  - vm_compute. reflexivity.
Defined.

(** * Password change: properties *)

(** The row transformation of [data: { password: hash }]. *)
Lemma user_data_password (h : string) :
  user_data (<["password"%string := JsStr h]> ∅) = Some (User.set_password h).
Proof. vm_compute. reflexivity. Qed.

Lemma find_update_where_other {A} (P Q : A → bool) (f : A → A) (rows : list A) :
  (∀ r, P (f r) = P r) →
  List.find P (update_where Q f rows) = (λ r, if Q r then f r else r) <$> List.find P rows.
Proof.
  intros Hf. induction rows as [|x rows IH]; simpl; [done|].
  destruct (Q x) eqn:HQ; rewrite ?Hf; destruct (P x) eqn:HP; simpl; by rewrite ?HQ.
Qed.

(** Closes a branch on which the run is known. *)
Ltac answered := by (eexists _, _, _; split; [reflexivity|done]).

Lemma changePassword_run env bcrypt_compare userId currentPassword newPassword now d :
  ∃ o d' cs,
    changePassword env bcrypt_compare userId currentPassword newPassword now d
    = mkRun o d' cs
    ∧ match o with
      | Return _ =>
          ∃ c p account,
            currentPassword = JsStr c ∧ newPassword = JsStr p ∧ p ≠ EmptyString
            ∧ List.find (λ u, bool_decide (User.id u = userId)) (users d) = Some account
            ∧ bcrypt_compare c (User.password account) = true
            ∧ d' = set_users
                     (update_where (λ u, bool_decide (User.id u = userId))
                        (λ u, User.set_updated_at now
                                (User.set_password (bcrypt_hash env p 12) u))) d
            ∧ cs = [d']
      | Throw _ => d' = d ∧ cs = []
      end.
Proof.
  unfold changePassword. rewrite try_rethrow.
  destruct (truthy currentPassword) eqn:Hc; simpl; [|answered].
  destruct (truthy newPassword) eqn:Hp; simpl; [|answered].
  unfold mbind at 1, M_bind at 1, prisma.user.findUnique, query.
  destruct (List.find _ (users d)) as [account|] eqn:Hfind; [|answered].
  destruct currentPassword as [| | | |c]; try answered.
  unfold mbind at 1, M_bind at 1, bcrypt_compare_js, mret, M_ret.
  destruct (bcrypt_compare c (User.password account)) eqn:Hok; simpl;
    [|answered].
  destruct newPassword as [| | | |p]; try answered.
  unfold prisma.user.update. unfold_monad. simpl.
  rewrite user_data_password, Hfind. simpl.
  eexists _, _, _. split; [reflexivity|].
  exists c, p, account. split_and!; try done. by apply truthy_JsStr.
Qed.

(** X13. [changePassword] changes something only when both passwords are
    non-empty strings, the account exists and [bcrypt.compare] accepts the
    current password against the stored hash.  It then rewrites, in one
    write, the password hash and [updated_at] of the account with that
    identifier and nothing else.  Every failure -- a missing or non-string
    password, an unknown account, a wrong current password -- leaves the
    database as it was. *)
Theorem X13_changePassword_needs_the_current_password
    (env : Env) (bcrypt_compare : string → string → bool) (userId : string)
    (currentPassword newPassword : JsVal) (now : Z) (d : Db) :
  let r := changePassword env bcrypt_compare userId currentPassword newPassword now d in
  match outcome r with
  | Return _ =>
      ∃ c p account,
        currentPassword = JsStr c ∧ newPassword = JsStr p ∧ p ≠ EmptyString
        ∧ List.find (λ u, bool_decide (User.id u = userId)) (users d) = Some account
        ∧ bcrypt_compare c (User.password account) = true
        ∧ db_after r
          = set_users
              (update_where (λ u, bool_decide (User.id u = userId))
                 (λ u, User.set_updated_at now
                         (User.set_password (bcrypt_hash env p 12) u))) d
        ∧ commits r = [db_after r]
  | Throw _ => db_after r = d ∧ commits r = []
  end.
Proof.
  cbv zeta.
  destruct (changePassword_run env bcrypt_compare userId currentPassword newPassword
              now d) as (o & d' & cs & -> & H).
  exact H.
Qed.

(** X14. Password change and login compose: with a [bcrypt.compare] that
    accepts a password against its own hash, after a successful
    [changePassword] the account logs in with its e-mail and the new
    password, and [login] answers with the same identifier, name, e-mail,
    role and flag as before the change. *)
Theorem X14_login_after_changePassword
    (env : Env) (bcrypt_compare : string → string → bool) (account : User.t)
    (currentPassword : JsVal) (p : string) (now later : Z) (d : Db) :
  bcrypt_sound env bcrypt_compare →
  List.find (λ u, bool_decide (User.email u = User.email account)) (users d)
  = Some account →
  User.id account ≠ EmptyString → User.email account ≠ EmptyString →
  let change := changePassword env bcrypt_compare (User.id account) currentPassword
                  (JsStr p) now d in
  outcome change = Return tt →
  outcome (login env bcrypt_compare (JsStr (User.email account)) (JsStr p) later
             (db_after change))
  = Return (LoginUser.mk (User.id account) (User.full_name account)
              (User.email account) (User.role account) (User.is_admin account),
            jwt_sign env (User.id account) (User.role account) (User.email account)
              (User.is_admin account) (later / 1000)).
Proof.
  intros Hsound Hfind Hid Hemail change Hok. subst change.
  destruct (changePassword_run env bcrypt_compare (User.id account) currentPassword
              (JsStr p) now d) as (o & d' & cs & Hrun & H).
  rewrite Hrun in Hok |- *. cbn [outcome db_after] in *. subst o.
  destruct H as (c & p' & found & -> & [= <-] & Hp & _ & _ & -> & _).
  destruct (login_cases env bcrypt_compare (User.email account) p later
              (set_users
                 (update_where (λ u, bool_decide (User.id u = User.id account))
                    (λ u, User.set_updated_at now
                            (User.set_password (bcrypt_hash env p 12) u))) d)
              Hemail Hp) as (_ & _ & Hlogin).
  cbn [users set_users] in Hlogin.
  rewrite find_update_where_other, Hfind in Hlogin by done.
  cbn [fmap option_fmap option_map] in Hlogin.
  rewrite bool_decide_eq_true_2 in Hlogin by done.
  cbn [User.password User.set_updated_at User.set_password User.id User.email
       User.full_name User.role User.is_admin] in Hlogin.
  rewrite Hsound in Hlogin. by rewrite bool_decide_eq_false_2 in Hlogin by done.
Qed.

Lemma X14_witness :
  let d := db0 enrolled verified None in
  let change := changePassword env0 bcrypt_compare0 "u1" (JsStr "pw") (JsStr "s3cret")
                  5000 d in
  outcome change = Return tt
  ∧ outcome (login env0 bcrypt_compare0 (JsStr "asha@example.com") (JsStr "s3cret") 9000
               (db_after change))
    = Return (LoginUser.mk "u1" "Asha" "asha@example.com" user false,
              jwt_sign env0 "u1" user "asha@example.com" false (9000 / 1000)).
Proof.
  split; [vm_compute; reflexivity|].
  apply (X14_login_after_changePassword env0 bcrypt_compare0 asha (JsStr "pw") "s3cret"
           5000 9000 (db0 enrolled verified None)).
  - exact bcrypt_compare0_sound.
  - reflexivity.
  - discriminate.
  - discriminate.
  - vm_compute. reflexivity.
Defined.

(** * Refresh tokens and the administrator signup secret: properties *)

Lemma extractTokenFromHeader_of_bearer (token : string) :
  mentions space token = false →
  extractTokenFromHeader (Some ("Bearer " +:+ token)) = Some token.
Proof.
  intros Hno. unfold extractTokenFromHeader. rewrite bool_decide_eq_false_2 by done.
  change ("Bearer " +:+ token) with ("Bearer" +:+ String space token).
  rewrite split_append by done. by rewrite split_without.
Qed.

(** X15. Refresh tokens are verified like access tokens: a token that
    [authenticateToken] accepts in an [Authorization: Bearer] header is
    accepted by [validateRefreshToken] as the [refreshToken] of a body, with
    the same identifier, role, e-mail and flag, and a token that
    [authenticateToken] refuses is refused as a refresh token too. *)
Theorem X15_access_token_passes_as_refresh_token
    (jwt_verify : string → JwtVerify) (body : JsObject) (token : string) :
  prop body "refreshToken" = JsStr token →
  mentions space token = false →
  match authenticateToken jwt_verify (Some ("Bearer " +:+ token)) with
  | Next req_user =>
      validateRefreshToken jwt_verify body
      = Next (RefreshTokenData.mk (ReqUser.id req_user) (ReqUser.role req_user)
                (ReqUser.email req_user) (ReqUser.is_admin req_user))
  | Respond _ _ =>
      ∃ status message, validateRefreshToken jwt_verify body = Respond status message
  end.
Proof.
  intros Hbody Hno. unfold authenticateToken, validateRefreshToken.
  rewrite extractTokenFromHeader_of_bearer, Hbody by done. simpl.
  case_bool_decide as Htok; simpl; [by eexists _, _|].
  pose proof (verifyToken_cases jwt_verify token) as Hv.
  destruct (verifyToken jwt_verify token) as [decoded|error].
  - destruct Hv as (_ & _ & Hid & Hemail & Hrole). rewrite Hid, Hemail. simpl.
    destruct Hrole as [Hr|Hr]; rewrite Hr; simpl; done.
  - destruct Hv as [-> | [-> | [-> | ->]]]; simpl; by eexists _, _.
Qed.

(** X16. [validateAdminSignupSecret] fails closed: the request goes on
    exactly when a non-empty [ADMIN_SIGNUP_SECRET] is configured and the
    body's [adminSecret] is that very string; without a configured secret
    every request is answered 500, also one that sends an empty secret. *)
Theorem X16_validateAdminSignupSecret_fails_closed
    (ADMIN_SIGNUP_SECRET : option string) (body : JsObject) :
  (validateAdminSignupSecret ADMIN_SIGNUP_SECRET body = Next tt
   ↔ ∃ secret, ADMIN_SIGNUP_SECRET = Some secret ∧ secret ≠ EmptyString
               ∧ prop body "adminSecret" = JsStr secret)
  ∧ ((ADMIN_SIGNUP_SECRET = None ∨ ADMIN_SIGNUP_SECRET = Some EmptyString) →
     validateAdminSignupSecret ADMIN_SIGNUP_SECRET body
     = Respond 500 "Admin signup not properly configured").
Proof.
  unfold validateAdminSignupSecret. split.
  - destruct ADMIN_SIGNUP_SECRET as [secret|]; [|split; [done|by intros (? & ? & _)]].
    case_bool_decide as Hempty.
    { split; [done|]. intros (? & [= <-] & ? & _). done. }
    split.
    + destruct (truthy (prop body "adminSecret")); simpl; [|done].
      case_bool_decide as Heq; simpl; [|done]. intros _. by exists secret.
    + intros (? & [= <-] & _ & ->). simpl.
      rewrite (bool_decide_eq_false_2 (secret = EmptyString)) by done. simpl.
      by rewrite bool_decide_eq_true_2.
  - by intros [-> | ->].
Qed.

(** * What no request changes: properties *)

Global Instance same_user_identity_preorder : PreOrder same_user_identity.
Proof.
  split; [by intros u|]. intros u1 u2 u3 (?&?&?) (?&?&?). repeat split; congruence.
Qed.

Global Instance same_enrollment_identity_preorder : PreOrder same_enrollment_identity.
Proof.
  split; [by intros e|].
  intros e1 e2 e3 (?&?&?&?) (?&?&?&?). repeat split; congruence.
Qed.

Global Instance same_payment_identity_preorder : PreOrder same_payment_identity.
Proof.
  split; [by intros p|].
  intros p1 p2 p3 (?&?&?&?&?&?) (?&?&?&?&?&?). repeat split; congruence.
Qed.

Global Instance grows_preorder {A} (Q : A → A → Prop) `{!PreOrder Q} :
  PreOrder (grows Q).
Proof.
  split.
  - intros rows. exists rows, []. by rewrite app_nil_r.
  - intros rows1 rows2 rows3 (k1 & a1 & -> & H1) (k2 & a2 & -> & H2).
    apply Forall2_app_inv_l in H2 as (k2a & k2b & Ha & Hb & ->).
    exists k2a, (k2b ++ a2). rewrite <-(assoc_L (++)). split; [done|]. by etrans.
Qed.

Global Instance history_kept_preorder : PreOrder history_kept.
Proof.
  split.
  - intros d. by repeat split.
  - intros d1 d2 d3 (Ht & Hu & He & Hp) (Ht' & Hu' & He' & Hp').
    split; [congruence|]. split_and!; by etrans.
Qed.

Lemma grows_append {A} (Q : A → A → Prop) `{!Reflexive Q} (rows : list A) (x : A) :
  grows Q rows (rows ++ [x]).
Proof. by exists rows, [x]. Qed.

Lemma grows_update_where {A} (Q : A → A → Prop) `{!Reflexive Q} (P : A → bool)
    (f : A → A) (rows : list A) :
  (∀ r, Q r (f r)) → grows Q rows (update_where P f rows).
Proof.
  intros Hf. exists (update_where P f rows), []. rewrite app_nil_r.
  split; [done|]. by apply update_where_Forall2.
Qed.

Lemma grows_lookup {A} (Q : A → A → Prop) (rows rows' : list A) (i : nat) (r : A) :
  grows Q rows rows' → rows !! i = Some r → ∃ r', rows' !! i = Some r' ∧ Q r r'.
Proof.
  intros (kept & added & -> & HQ) Hi.
  destruct (Forall2_lookup_l _ _ _ _ _ HQ Hi) as (r' & Hi' & Hr).
  exists r'. split; [|done]. by apply lookup_app_l_Some.
Qed.

(** A [data] object without an [email] leaves the identity of a row alone. *)
Lemma user_data_identity (data : JsObject) (f : User.t → User.t) :
  prop data "email" = JsUndefined → user_data data = Some f →
  ∀ u, same_user_identity u (f u).
Proof.
  intros He. unfold user_data. case_bool_decide; [|done]. rewrite He. simpl.
  destruct (column_string User.set_full_name _) as [f1|] eqn:H1; simpl; [|done].
  destruct (column_string User.set_password _) as [f3|] eqn:H3; simpl; [|done].
  destruct (column_string_null User.set_phone _) as [f4|] eqn:H4; simpl; [|done].
  destruct (column_profession_null User.set_profession _) as [f5|] eqn:H5; simpl; [|done].
  destruct (column_string_null User.set_college _) as [f6|] eqn:H6; simpl; [|done].
  destruct (column_string_null User.set_company _) as [f7|] eqn:H7; simpl; [|done].
  destruct (column_role User.set_role _) as [f8|] eqn:H8; simpl; [|done].
  destruct (column_bool User.set_is_admin _) as [f9|] eqn:H9; simpl; [|done].
  intros [= <-] u.
  etrans; [eapply (column_string_frame same_user_identity), H1; done|].
  etrans; [eapply (column_string_frame same_user_identity), H3; done|].
  etrans; [eapply (column_string_null_frame same_user_identity), H4; done|].
  etrans; [eapply (column_profession_null_frame same_user_identity), H5; done|].
  etrans; [eapply (column_string_null_frame same_user_identity), H6; done|].
  etrans; [eapply (column_string_null_frame same_user_identity), H7; done|].
  etrans; [eapply (column_role_frame same_user_identity), H8; done|].
  eapply (column_bool_frame same_user_identity), H9; done.
Qed.

(** Closes a primitive that wrote [d'] once. *)
Ltac one_write H := simpl; split; [exact H|]; constructor; [exact H|constructor].

Lemma user_update_history id data now :
  prop data "email" = JsUndefined →
  preserves history_kept (prisma.user.update id data now).
Proof.
  intros He d. unfold prisma.user.update.
  destruct (user_data data) as [f|] eqn:Hf; [|apply preserves_throw; tc_solve].
  destruct (List.find _ (users d)); [|apply preserves_throw; tc_solve].
  assert (history_kept d
            (set_users (update_where (λ u, bool_decide (User.id u = id))
                          (λ r, User.set_updated_at now (f r))) d)) as H.
  { split_and!; try done. simpl. apply grows_update_where; [tc_solve|].
    intros u. etrans; [by eapply user_data_identity|]. done. }
  one_write H.
Qed.

Lemma user_create_history uuid data now :
  preserves history_kept (prisma.user.create uuid data now).
Proof.
  intros d. unfold prisma.user.create.
  destruct (user_data data) as [f|]; [|apply preserves_throw; tc_solve].
  destruct (_ && _); [|apply preserves_throw; tc_solve].
  destruct (exists_row _ _); [apply preserves_throw; tc_solve|].
  match goal with |- context [set_users ?g] =>
    assert (history_kept d (set_users g d)) as H
  end.
  { split_and!; try done. simpl. apply grows_append. tc_solve. }
  one_write H.
Qed.

Lemma enrollment_create_history uuid user_id training_id st now :
  preserves history_kept (prisma.enrollment.create uuid user_id training_id st now).
Proof.
  intros d. unfold prisma.enrollment.create.
  destruct (exists_row _ (enrollments d)); [apply preserves_throw; tc_solve|].
  destruct (_ && _); [|apply preserves_throw; tc_solve].
  match goal with |- context [set_enrollments ?g] =>
    assert (history_kept d (set_enrollments g d)) as H
  end.
  { split_and!; try done. simpl. apply grows_append. tc_solve. }
  one_write H.
Qed.

Lemma enrollment_update_history id st now :
  preserves history_kept (prisma.enrollment.update id (Enrollment.set_status st) now).
Proof.
  intros d. unfold prisma.enrollment.update.
  destruct (List.find _ (enrollments d)); [|apply preserves_throw; tc_solve].
  match goal with |- context [set_enrollments ?g] =>
    assert (history_kept d (set_enrollments g d)) as H
  end.
  { split_and!; try done. simpl. by apply grows_update_where; [tc_solve|]. }
  one_write H.
Qed.

Lemma enrollment_updateMany_history P st now :
  preserves history_kept (prisma.enrollment.updateMany P (Enrollment.set_status st) now).
Proof.
  apply preserves_execute; try tc_solve. intros d.
  split_and!; try done. simpl. by apply grows_update_where; [tc_solve|].
Qed.

Lemma payment_update_history id f now :
  (∀ p, same_payment_identity p (f p)) →
  preserves history_kept (prisma.payment.update id f now).
Proof.
  intros Hf d. unfold prisma.payment.update.
  destruct (List.find _ (payments d)); [|apply preserves_throw; tc_solve].
  match goal with |- context [set_payments ?g] =>
    assert (history_kept d (set_payments g d)) as H
  end.
  { split_and!; try done. simpl. apply grows_update_where; [tc_solve|].
    intros p. etrans; [apply Hf|]. done. }
  one_write H.
Qed.

Lemma payment_create_history uuid u t amount method ref st now :
  preserves history_kept (prisma.payment.create uuid u t amount method ref st now).
Proof.
  intros d. unfold prisma.payment.create.
  destruct (exists_row _ (payments d)); [apply preserves_throw; tc_solve|].
  destruct (_ && _); [|apply preserves_throw; tc_solve].
  match goal with |- context [set_payments ?g] =>
    assert (history_kept d (set_payments g d)) as H
  end.
  { split_and!; try done. simpl. apply grows_append. tc_solve. }
  one_write H.
Qed.

Lemma handle_history env now r : preserves history_kept (handle env now r).
Proof.
  destruct r; unfold_services; frame;
    try first
      [ apply user_create_history
      | apply enrollment_create_history
      | apply enrollment_update_history
      | apply enrollment_updateMany_history
      | apply payment_create_history
      | by apply payment_update_history
      | apply user_update_history;
          first [by rewrite !prop_assign_if_defined | by vm_compute] ].
Qed.

Lemma run_requests_history env rs d : history_kept d (run_requests env rs d).
Proof.
  revert d. induction rs as [|[now r] rs IH]; intros d; simpl; [reflexivity|].
  etrans; [|apply IH]. apply (handle_history env now r d).
Qed.

(** X17. No sequence of requests deletes or re-keys a row.  After any
    sequence of the modelled requests, by members and administrators alike,
    the training programs are as they were, and every account, enrollment and
    payment that existed is still in its place with the same identifier,
    owner, training program and creation time -- an account with the same
    e-mail, a payment with the same amount and payment method.  Requests only
    add rows and rewrite the remaining columns. *)
Theorem X17_requests_keep_history (env : Env) (rs : list (Z * Request)) (d : Db) :
  let d' := run_requests env rs d in
  training_programs d' = training_programs d
  ∧ (∀ i u, users d !! i = Some u →
       ∃ u', users d' !! i = Some u' ∧ User.id u' = User.id u
             ∧ User.email u' = User.email u ∧ User.created_at u' = User.created_at u)
  ∧ (∀ i e, enrollments d !! i = Some e →
       ∃ e', enrollments d' !! i = Some e' ∧ Enrollment.id e' = Enrollment.id e
             ∧ Enrollment.user_id e' = Enrollment.user_id e
             ∧ Enrollment.training_id e' = Enrollment.training_id e
             ∧ Enrollment.created_at e' = Enrollment.created_at e)
  ∧ (∀ i p, payments d !! i = Some p →
       ∃ p', payments d' !! i = Some p' ∧ Payment.id p' = Payment.id p
             ∧ Payment.user_id p' = Payment.user_id p
             ∧ Payment.training_id p' = Payment.training_id p
             ∧ Payment.amount p' = Payment.amount p
             ∧ Payment.payment_method p' = Payment.payment_method p
             ∧ Payment.created_at p' = Payment.created_at p).
Proof.
  destruct (run_requests_history env rs d) as (Ht & Hu & He & Hp).
  split; [exact Ht|]. split_and!.
  - intros i u Hi. exact (grows_lookup _ _ _ _ _ Hu Hi).
  - intros i e Hi. exact (grows_lookup _ _ _ _ _ He Hi).
  - intros i p Hi. exact (grows_lookup _ _ _ _ _ Hp Hi).
Qed.

(** * What a member cannot touch: properties *)

Global Instance isolated_preorder (U : string) : PreOrder (isolated U).
Proof.
  split.
  - intros d. by repeat split.
  - intros d1 d2 d3 (Ht & Hu & He & Hp) (Ht' & Hu' & He' & Hp').
    split; [congruence|]. split_and!; eauto.
Qed.

Section PreservesAt.
Context (R : Db → Db → Prop) `{!PreOrder R}.

Lemma preserves_at_of {A} (m : M A) (d : Db) : preserves R m → preserves_at R d m.
Proof. intros Hm. apply Hm. Qed.

(** A read, then the rest from the same database. *)
Lemma preserves_at_query {A B} (f : Db → A) (k : A → M B) (d : Db) :
  preserves_at R d (k (f d)) → preserves_at R d (query f ≫= k).
Proof.
  unfold preserves_at, mbind, M_bind, query. simpl.
  by destruct (k (f d) d) as [o d2 c2].
Qed.

(** A step from this database, then a rest that keeps [R] from any. *)
Lemma preserves_at_bind {A B} (m : M A) (k : A → M B) (d : Db) :
  preserves_at R d m → (∀ a, preserves R (k a)) → preserves_at R d (m ≫= k).
Proof.
  intros Hm Hk. unfold preserves_at, mbind, M_bind in *.
  destruct (m d) as [[a|e] d1 c1]; simpl in *; [|done].
  specialize (Hk a d1). destruct (k a d1) as [o d2 c2]; simpl in *.
  destruct Hm as [Hd1 Hc1], Hk as [Hd2 Hc2]. split; [by etrans|].
  apply Forall_app. split; [done|].
  eapply Forall_impl; [exact Hc2|]. intros c Hc. by etrans.
Qed.

Lemma preserves_at_rethrow {A} (m : M A) (d : Db) :
  preserves_at R d m → preserves_at R d (try_catch m (λ error, throw error)).
Proof. unfold preserves_at. by rewrite try_rethrow. Qed.

Lemma preserves_at_effect {A} (m : M A) (d : Db) :
  preserves_at R d m → preserves_at R d (effect m).
Proof. intros Hm. apply preserves_at_bind; [done|]. intros _. by apply preserves_ret. Qed.
End PreservesAt.

(** *** Primitives *)

Lemma NoDup_fmap_eq {A B} (g : A → B) (rows : list A) (x y : A) :
  NoDup (g <$> rows) → x ∈ rows → y ∈ rows → g x = g y → x = y.
Proof.
  intros Hnd [i Hi]%list_elem_of_lookup_1 [j Hj]%list_elem_of_lookup_1 Hg.
  assert (i = j) as ->; [|congruence].
  eapply NoDup_lookup; [exact Hnd| |]; rewrite list_lookup_fmap.
  - by rewrite Hi.
  - by rewrite Hj, Hg.
Qed.

(** An update of a payment of [U], found by its identifier. *)
Lemma payment_update_isolated_at U id f now d :
  (∀ q, q ∈ payments d → Payment.id q = id → Payment.user_id q = U) →
  preserves_at (isolated U) d (prisma.payment.update id f now).
Proof.
  intros Hown. unfold preserves_at, prisma.payment.update.
  destruct (List.find _ (payments d)); [|by apply preserves_throw; tc_solve].
  match goal with |- context [set_payments ?g] =>
    assert (isolated U d (set_payments g d)) as H
  end.
  { split_and!; try done. intros i q Hi Hq. simpl.
    rewrite update_where_lookup, Hi. simpl.
    rewrite bool_decide_eq_false_2; [done|].
    intros Hid. apply Hq, Hown; [|done]. by eapply list_elem_of_lookup_2. }
  one_write H.
Qed.

Lemma user_update_isolated U data now :
  preserves (isolated U) (prisma.user.update U data now).
Proof.
  intros d. unfold prisma.user.update.
  destruct (user_data data) as [f|]; [|apply preserves_throw; tc_solve].
  destruct (List.find _ (users d)); [|apply preserves_throw; tc_solve].
  match goal with |- context [set_users ?g] =>
    assert (isolated U d (set_users g d)) as H
  end.
  { split_and!; try done. intros i u Hi Hu. simpl.
    rewrite update_where_lookup, Hi. simpl. by rewrite bool_decide_eq_false_2. }
  one_write H.
Qed.

Lemma lookup_snoc_Some {A} (rows : list A) (x r : A) (i : nat) :
  rows !! i = Some r → (rows ++ [x]) !! i = Some r.
Proof. intros Hi. by apply lookup_app_l_Some. Qed.

Lemma user_create_isolated U uuid data now :
  preserves (isolated U) (prisma.user.create uuid data now).
Proof.
  intros d. unfold prisma.user.create.
  destruct (user_data data) as [f|]; [|apply preserves_throw; tc_solve].
  destruct (_ && _); [|apply preserves_throw; tc_solve].
  destruct (exists_row _ _); [apply preserves_throw; tc_solve|].
  match goal with |- context [set_users ?g] =>
    assert (isolated U d (set_users g d)) as H
  end.
  { split_and!; try done. intros i u Hi _. by apply lookup_snoc_Some. }
  one_write H.
Qed.

Lemma enrollment_create_isolated U uuid user_id training_id st now :
  preserves (isolated U) (prisma.enrollment.create uuid user_id training_id st now).
Proof.
  intros d. unfold prisma.enrollment.create.
  destruct (exists_row _ (enrollments d)); [apply preserves_throw; tc_solve|].
  destruct (_ && _); [|apply preserves_throw; tc_solve].
  match goal with |- context [set_enrollments ?g] =>
    assert (isolated U d (set_enrollments g d)) as H
  end.
  { split_and!; try done. intros i e Hi. by apply lookup_snoc_Some. }
  one_write H.
Qed.

Lemma payment_create_isolated U uuid u t amount method ref st now :
  preserves (isolated U) (prisma.payment.create uuid u t amount method ref st now).
Proof.
  intros d. unfold prisma.payment.create.
  destruct (exists_row _ (payments d)); [apply preserves_throw; tc_solve|].
  destruct (_ && _); [|apply preserves_throw; tc_solve].
  match goal with |- context [set_payments ?g] =>
    assert (isolated U d (set_payments g d)) as H
  end.
  { split_and!; try done. intros i q Hi _. by apply lookup_snoc_Some. }
  one_write H.
Qed.

(** Walks a service body that writes nothing to rows found earlier. *)
Ltac isolated_frame :=
  frame;
  try first
    [ apply user_update_isolated
    | apply user_create_isolated
    | apply enrollment_create_isolated
    | apply payment_create_isolated ].

(** Walks a service body from one database, keeping what the reads found. *)
Ltac frame_at_step :=
  first
    [ apply preserves_at_rethrow; try tc_solve
    | apply preserves_at_effect; try tc_solve
    | apply preserves_at_query; try tc_solve
    | match goal with
      | |- preserves_at _ _ (match ?x with _ => _ end) => destruct x eqn:?
      end ].

(** With unique payment identifiers, a payment found for [U] is the only
    row an update by its identifier rewrites. *)
Lemma found_payment_owned U (P : Payment.t → bool) (d : Db) (p : Payment.t) :
  NoDup (Payment.id <$> payments d) →
  List.find P (payments d) = Some p →
  Payment.user_id p = U →
  ∀ q, q ∈ payments d → Payment.id q = Payment.id p → Payment.user_id q = U.
Proof.
  intros Hnd [Hin _]%find_some Hown q Hq Hid. apply list_elem_of_In in Hin.
  by rewrite (NoDup_fmap_eq Payment.id (payments d) q p Hnd Hq Hin Hid).
Qed.

(** *** The payment operations of a member *)

Ltac stops := apply preserves_at_of; try tc_solve; by isolated_frame.
Ltac stops_services := apply preserves_at_of; try tc_solve; unfold_services; by isolated_frame.

Lemma confirmPayment_isolated U userRole paymentId ref now d :
  NoDup (Payment.id <$> payments d) →
  preserves_at (isolated U) d (userService.confirmPayment U userRole paymentId ref now).
Proof.
  intros Hnd. unfold userService.confirmPayment, prisma.payment.findFirst.
  apply preserves_at_rethrow, preserves_at_query; try tc_solve.
  destruct (List.find _ (payments d)) as [p|] eqn:Hfind; [|stops].
  assert (∀ q, q ∈ payments d → Payment.id q = paymentId → Payment.user_id q = U) as Hown.
  { pose proof Hfind as [_ [Hid Hu]%andb_true_iff]%find_some.
    apply bool_decide_eq_true in Hid, Hu. rewrite <-Hid.
    by apply (found_payment_owned U _ d p Hnd Hfind). }
  destruct (negb _); [stops|]. cbv zeta.
  destruct (bool_decide (_ >= _)).
  - apply preserves_at_bind; try tc_solve; [by apply payment_update_isolated_at|].
    intros _. by isolated_frame.
  - apply preserves_at_bind; try tc_solve; [|intros ?; by isolated_frame].
    destruct (or_null ref); try stops; by apply payment_update_isolated_at.
Qed.

Lemma getPaymentStatus_isolated U userRole paymentId now d :
  NoDup (Payment.id <$> payments d) →
  preserves_at (isolated U) d (userService.getPaymentStatus U userRole paymentId now).
Proof.
  intros Hnd. unfold userService.getPaymentStatus, prisma.payment.findFirst,
    prisma.trainingProgram.findFirst.
  apply preserves_at_rethrow, preserves_at_query; try tc_solve.
  destruct (List.find _ (payments d)) as [p|] eqn:Hfind; [|stops].
  assert (∀ q, q ∈ payments d → Payment.id q = paymentId → Payment.user_id q = U) as Hown.
  { pose proof Hfind as [_ [Hid Hu]%andb_true_iff]%find_some.
    apply bool_decide_eq_true in Hid, Hu. rewrite <-Hid.
    by apply (found_payment_owned U _ d p Hnd Hfind). }
  apply preserves_at_query; try tc_solve. cbv zeta.
  apply preserves_at_bind; try tc_solve;
    [|intros ?; unfold deref; by isolated_frame].
  destruct (_ && _); [|stops].
  apply preserves_at_bind; try tc_solve; [by apply payment_update_isolated_at|].
  intros _. by isolated_frame.
Qed.

Lemma initiatePayment_isolated env U userRole enrollmentId uuid now d :
  NoDup (Payment.id <$> payments d) →
  preserves_at (isolated U) d
    (userService.initiatePaymentForEnrollment env U userRole enrollmentId uuid now).
Proof.
  intros Hnd. unfold userService.initiatePaymentForEnrollment,
    prisma.enrollment.findFirst, prisma.payment.findFirst,
    prisma.trainingProgram.findFirst, userService.generateQRCode, deref.
  apply preserves_at_rethrow, preserves_at_query; try tc_solve.
  destruct (List.find _ (enrollments d)) as [e|]; [|stops].
  apply preserves_at_query; try tc_solve.
  destruct (negb _); [stops|].
  apply preserves_at_query; try tc_solve. cbv zeta.
  destruct (List.find _ (payments d)) as [p|] eqn:Hfind; [|stops].
  destruct (bool_decide (_ >= _)); [|stops].
  apply preserves_at_bind; try tc_solve; [|intros _; by isolated_frame].
  apply payment_update_isolated_at.
  pose proof Hfind as [_ [[Hu _]%andb_true_iff _]%andb_true_iff]%find_some.
  apply bool_decide_eq_true in Hu.
  by apply (found_payment_owned U _ d p Hnd Hfind).
Qed.

Lemma handle_isolated env now U r d :
  NoDup (Payment.id <$> payments d) →
  member_request U r = true →
  preserves_at (isolated U) d (handle env now r).
Proof.
  intros Hnd Hr.
  destruct r; simpl in Hr; try done; try (apply bool_decide_eq_true in Hr as ->);
    unfold handle.
  - stops_services.
  - stops_services.
  - stops_services.
  - stops_services.
  - apply preserves_at_effect; try tc_solve. by apply initiatePayment_isolated.
  - apply preserves_at_effect; try tc_solve. by apply confirmPayment_isolated.
  - apply preserves_at_effect; try tc_solve. by apply getPaymentStatus_isolated.
Qed.

(** X18. A member cannot touch what belongs to others.  With unique payment
    identifiers, a signup or a request that member [U] makes through the user
    routes -- profile update, either enrollment request, payment initiation,
    payment confirmation, payment status -- leaves the training programs,
    the accounts of all other users, the payments of all other users and
    every existing enrollment row exactly as they were, in the final
    database and in every state committed on the way.  In particular no
    member request changes the status of an enrollment. *)
Theorem X18_member_requests_are_isolated
    (env : Env) (now : Z) (U : string) (r : Request) (d : Db) :
  NoDup (Payment.id <$> payments d) →
  member_request U r = true →
  ∀ d', d' = db_after (handle env now r d) ∨ d' ∈ commits (handle env now r d) →
    training_programs d' = training_programs d
    ∧ (∀ i u, users d !! i = Some u → User.id u ≠ U → users d' !! i = Some u)
    ∧ (∀ i e, enrollments d !! i = Some e → enrollments d' !! i = Some e)
    ∧ (∀ i q, payments d !! i = Some q → Payment.user_id q ≠ U →
              payments d' !! i = Some q).
Proof.
  intros Hnd Hr d' Hd'.
  destruct (handle_isolated env now U r d Hnd Hr) as [Hafter Hcommits].
  destruct Hd' as [-> | Hin]; [exact Hafter|].
  rewrite Forall_forall in Hcommits. by apply Hcommits.
Qed.

(** * Keys: properties *)

Global Instance keeps_keys_preorder : PreOrder keeps_keys.
Proof. split; unfold keeps_keys; [by intros d|]. intros d1 d2 d3. tauto. Qed.

Lemma update_where_fmap {A B} (g : A → B) (P : A → bool) (f : A → A) (rows : list A) :
  (∀ r, g (f r) = g r) → g <$> update_where P f rows = g <$> rows.
Proof.
  intros Hf. unfold update_where. rewrite <-list_fmap_compose.
  apply list_fmap_ext. intros _ r _. simpl. by destruct (P r).
Qed.

(** A row whose key no existing row has. *)
Lemma NoDup_fmap_snoc {A B} (g : A → B) (P : A → bool) (rows : list A) (x : A) :
  (∀ r, g r = g x → P r = true) →
  exists_row P rows = false →
  NoDup (g <$> rows) → NoDup (g <$> rows ++ [x]).
Proof.
  intros HP Hno Hnd. rewrite fmap_app. apply NoDup_app. split_and!; [done| |].
  - intros k [r [-> Hr]]%list_elem_of_fmap Heq%list_elem_of_singleton.
    assert (exists_row P rows = true) as Hyes; [|congruence].
    apply existsb_exists. exists r. split; [by apply list_elem_of_In|]. by apply HP.
  - apply NoDup_singleton.
Qed.

Lemma user_update_keys id data now :
  prop data "email" = JsUndefined →
  preserves keeps_keys (prisma.user.update id data now).
Proof.
  intros He d. unfold prisma.user.update.
  destruct (user_data data) as [f|] eqn:Hf; [|apply preserves_throw; tc_solve].
  destruct (List.find _ (users d)); [|apply preserves_throw; tc_solve].
  match goal with |- context [set_users ?g] =>
    assert (keeps_keys d (set_users g d)) as H
  end.
  { intros (Hi & Hm & ? & ?). split_and!; try done; simpl.
    - rewrite update_where_fmap; [done|]. intros u. simpl.
      by destruct (user_data_identity data f He Hf u) as (-> & _ & _).
    - rewrite update_where_fmap; [done|]. intros u. simpl.
      by destruct (user_data_identity data f He Hf u) as (_ & -> & _). }
  one_write H.
Qed.

Lemma user_create_keys uuid data now :
  preserves keeps_keys (prisma.user.create uuid data now).
Proof.
  intros d. unfold prisma.user.create.
  destruct (user_data data) as [f|]; [|apply preserves_throw; tc_solve].
  destruct (_ && _); [|apply preserves_throw; tc_solve].
  destruct (exists_row _ _) eqn:Hfresh; [apply preserves_throw; tc_solve|].
  match goal with |- context [set_users ?g] =>
    assert (keeps_keys d (set_users g d)) as H
  end.
  { intros (Hi & Hm & ? & ?). split_and!; try done; simpl.
    - eapply NoDup_fmap_snoc; [|exact Hfresh|done].
      intros r Hr. simpl. by rewrite (bool_decide_eq_true_2 _ Hr).
    - eapply NoDup_fmap_snoc; [|exact Hfresh|done].
      intros r Hr. simpl. rewrite (bool_decide_eq_true_2 _ Hr). apply orb_true_r. }
  one_write H.
Qed.

Lemma enrollment_create_keys uuid user_id training_id st now :
  preserves keeps_keys (prisma.enrollment.create uuid user_id training_id st now).
Proof.
  intros d. unfold prisma.enrollment.create.
  destruct (exists_row _ (enrollments d)) eqn:Hfresh; [apply preserves_throw; tc_solve|].
  destruct (_ && _); [|apply preserves_throw; tc_solve].
  match goal with |- context [set_enrollments ?g] =>
    assert (keeps_keys d (set_enrollments g d)) as H
  end.
  { intros (? & ? & He & ?). split_and!; try done; simpl.
    eapply NoDup_fmap_snoc; [|exact Hfresh|done].
    intros r Hr. simpl in *. by rewrite (bool_decide_eq_true_2 _ Hr). }
  one_write H.
Qed.

Lemma enrollment_update_keys id st now :
  preserves keeps_keys (prisma.enrollment.update id (Enrollment.set_status st) now).
Proof.
  intros d. unfold prisma.enrollment.update.
  destruct (List.find _ (enrollments d)); [|apply preserves_throw; tc_solve].
  match goal with |- context [set_enrollments ?g] =>
    assert (keeps_keys d (set_enrollments g d)) as H
  end.
  { intros (? & ? & He & ?). split_and!; try done; simpl.
    by rewrite update_where_fmap. }
  one_write H.
Qed.

Lemma enrollment_updateMany_keys P st now :
  preserves keeps_keys (prisma.enrollment.updateMany P (Enrollment.set_status st) now).
Proof.
  apply preserves_execute; try tc_solve. intros d (? & ? & He & ?).
  split_and!; try done; simpl. by rewrite update_where_fmap.
Qed.

Lemma payment_update_keys id f now :
  (∀ p, same_payment_identity p (f p)) →
  preserves keeps_keys (prisma.payment.update id f now).
Proof.
  intros Hf d. unfold prisma.payment.update.
  destruct (List.find _ (payments d)); [|apply preserves_throw; tc_solve].
  match goal with |- context [set_payments ?g] =>
    assert (keeps_keys d (set_payments g d)) as H
  end.
  { intros (? & ? & ? & Hp). split_and!; try done; simpl.
    rewrite update_where_fmap; [done|]. intros p. simpl. by destruct (Hf p) as (-> & _). }
  one_write H.
Qed.

Lemma payment_create_keys uuid u t amount method ref st now :
  preserves keeps_keys (prisma.payment.create uuid u t amount method ref st now).
Proof.
  intros d. unfold prisma.payment.create.
  destruct (exists_row _ (payments d)) eqn:Hfresh; [apply preserves_throw; tc_solve|].
  destruct (_ && _); [|apply preserves_throw; tc_solve].
  match goal with |- context [set_payments ?g] =>
    assert (keeps_keys d (set_payments g d)) as H
  end.
  { intros (? & ? & ? & Hp). split_and!; try done; simpl.
    eapply NoDup_fmap_snoc; [|exact Hfresh|done].
    intros r Hr. simpl in *. by rewrite (bool_decide_eq_true_2 _ Hr). }
  one_write H.
Qed.

Lemma handle_keys env now r : preserves keeps_keys (handle env now r).
Proof.
  destruct r; unfold_services; frame;
    try first
      [ apply user_create_keys
      | apply enrollment_create_keys
      | apply enrollment_update_keys
      | apply enrollment_updateMany_keys
      | apply payment_create_keys
      | by apply payment_update_keys
      | apply user_update_keys;
          first [by rewrite !prop_assign_if_defined | by vm_compute] ].
Qed.

(** X19. Identifiers and e-mail addresses stay unique.  If no two accounts
    share an identifier or an e-mail address and no two enrollments and no
    two payments share an identifier, the same holds after any sequence of
    requests: a create that would repeat a key is refused, and no service
    rewrites an identifier or an e-mail address. *)
Theorem X19_requests_keep_keys_unique (env : Env) (rs : list (Z * Request)) (d : Db) :
  NoDup (User.id <$> users d) → NoDup (User.email <$> users d) →
  NoDup (Enrollment.id <$> enrollments d) → NoDup (Payment.id <$> payments d) →
  let d' := run_requests env rs d in
  NoDup (User.id <$> users d') ∧ NoDup (User.email <$> users d')
  ∧ NoDup (Enrollment.id <$> enrollments d') ∧ NoDup (Payment.id <$> payments d').
Proof.
  intros H1 H2 H3 H4. assert (keys_unique d) as Hd by done. clear H1 H2 H3 H4.
  revert d Hd. induction rs as [|[now r] rs IH]; intros d Hd; simpl; [done|].
  apply IH. by apply (handle_keys env now r d).
Qed.

(** * Administrator payment-status update, the other statuses *)

(** X20. When an administrator sets a payment to 'failed', whatever its
    status was, every enrollment of the same user and training program that
    is 'enrolled' goes back to 'pending_payment', all other enrollments
    ('completed' ones included) keeping their status; the payment and the
    enrollments change in one transaction, so the only database states that
    can be observed are the one before and the one after. *)
Theorem X20_rejection_reopens_the_enrollment
    (adminId : string) (adminRole : Role) (paymentId : string) (now : Z) (d : Db)
    (p : Payment.t) :
  List.find (λ q, bool_decide (Payment.id q = paymentId)) (payments d) = Some p →
  let op := adminService.updatePaymentStatus adminId adminRole paymentId
              (JsStr "failed") now in
  let d' := db_after (op d) in
  outcome (op d) = Return (Payment.set_updated_at now (Payment.set_status failed p))
  ∧ (∀ q, q ∈ payments d' → Payment.id q = paymentId → Payment.status q = failed)
  ∧ (∀ i e, enrollments d !! i = Some e →
       ∃ e', enrollments d' !! i = Some e'
             ∧ Enrollment.id e' = Enrollment.id e
             ∧ Enrollment.status e' =
                 if matching_enrolled p e then pending_payment else Enrollment.status e)
  ∧ observable op d = [d; d'].
Proof.
  intros Hp op d'. subst op d'. unfold observable, adminService.updatePaymentStatus.
  rewrite try_rethrow. simpl. unfold_monad. unfold prisma.payment.update.
  rewrite Hp. simpl. split_and!; [done| | |done].
  - intros q [r [_ ->]]%update_where_elem Hid.
    case_bool_decide; [done|]. simpl in Hid. congruence.
  - intros i e Hi. rewrite update_where_lookup, Hi. simpl.
    unfold matching_enrolled. eexists; split; [done|].
    by destruct (_ && _).
Qed.

(** X21. Setting a payment to 'refunded', or back to
    'pending_verification', writes the payment only: no enrollment is
    touched, so the member of a refunded payment stays 'enrolled'. *)
Theorem X21_refund_leaves_the_enrollment
    (adminId : string) (adminRole : Role) (paymentId : string) (target : PaymentStatus)
    (status : string) (now : Z) (d : Db) (p : Payment.t) :
  List.find (λ q, bool_decide (Payment.id q = paymentId)) (payments d) = Some p →
  (status = "refunded"%string ∧ target = refunded
   ∨ status = "pending_verification"%string ∧ target = pending_verification) →
  let op := adminService.updatePaymentStatus adminId adminRole paymentId
              (JsStr status) now in
  let d' := db_after (op d) in
  outcome (op d) = Return (Payment.set_updated_at now (Payment.set_status target p))
  ∧ enrollments d' = enrollments d
  ∧ users d' = users d
  ∧ payments d'
    = update_where (λ q, bool_decide (Payment.id q = paymentId))
        (λ q, Payment.set_updated_at now (Payment.set_status target q)) (payments d)
  ∧ observable op d = [d; d'].
Proof.
  intros Hp Hst op d'. subst op d'. unfold observable, adminService.updatePaymentStatus.
  rewrite try_rethrow.
  destruct Hst as [[-> ->] | [-> ->]]; simpl; unfold_monad; unfold prisma.payment.update;
    rewrite Hp; simpl; done.
Qed.

(** X22. An administrator update of a payment or an enrollment that does not
    exist changes nothing and is answered 500 'Internal server error', not
    404: the Prisma [update] throws P2025 before the [if (!payment)] and
    [if (!enrollment)] checks of the services are reached, and the error
    handler has no rule for that code. *)
Theorem X22_update_of_a_missing_row_is_answered_500
    (adminId : string) (adminRole : Role) (id : string) (status : JsVal) (now : Z)
    (d : Db) (prisma_text stack : string) :
  String.eqb prisma_text "Invalid email or password" = false →
  (includes ["pending_verification"; "verified"; "failed"; "refunded"]%string status
   = true →
   List.find (λ q, bool_decide (Payment.id q = id)) (payments d) = None →
   let r := adminService.updatePaymentStatus adminId adminRole id status now d in
   db_after r = d ∧ commits r = []
   ∧ ∃ response, handled (outcome r) prisma_text stack = Some response
                 ∧ Response.status response = 500
                 ∧ Response.message response = "Internal server error"%string)
  ∧ (includes ["pending_payment"; "enrolled"; "completed"]%string status = true →
     List.find (λ e, bool_decide (Enrollment.id e = id)) (enrollments d) = None →
     let r := adminService.updateEnrollmentStatus adminId adminRole id status now d in
     db_after r = d ∧ commits r = []
     ∧ ∃ response, handled (outcome r) prisma_text stack = Some response
                   ∧ Response.status response = 500
                   ∧ Response.message response = "Internal server error"%string).
Proof.
  intros Htext.
  assert (∀ {A} (r : Run A),
            outcome r = Throw P2025 →
            ∃ response, handled (outcome r) prisma_text stack = Some response
                        ∧ Response.status response = 500
                        ∧ Response.message response = "Internal server error"%string)
    as Hanswer.
  { intros A r ->. eexists. split; [done|].
    unfold forwarded, P2025, errorHandler. simpl. by rewrite Htext. }
  split.
  - intros Hin Hnone r.
    assert (r = mkRun (Throw P2025) d []) as Hr.
    { subst r. unfold adminService.updatePaymentStatus. rewrite try_rethrow.
      destruct (includes_payment_status _ Hin) as [-> | [-> | [-> | ->]]]; simpl;
        unfold_monad; unfold prisma.payment.update; by rewrite Hnone. }
    split_and!; [by rewrite Hr..|]. apply Hanswer. by rewrite Hr.
  - intros Hin Hnone r.
    assert (r = mkRun (Throw P2025) d []) as Hr.
    { subst r. destruct (includes_enrollment_status _ Hin) as [target Ht].
      unfold adminService.updateEnrollmentStatus. rewrite try_rethrow, Hin, Ht. simpl.
      unfold_monad. unfold prisma.enrollment.update. by rewrite Hnone. }
    split_and!; [by rewrite Hr..|]. apply Hanswer. by rewrite Hr.
Qed.

(** * Payment initiation: new sessions *)

Lemma or_zero_id (x : Z) : or_zero x = x.
Proof. unfold or_zero. destruct (Z.eqb_spec x 0); congruence. Qed.

Lemma find_exists_row {A} (P : A → bool) (rows : list A) (r : A) :
  List.find P rows = Some r → exists_row P rows = true.
Proof.
  intros [Hin HP]%find_some. apply existsb_exists. by exists r.
Qed.

Lemma find_none_exists_row {A} (P : A → bool) (rows : list A) :
  List.find P rows = None → exists_row P rows = false.
Proof.
  intros Hnone. apply not_true_is_false. intros (r & Hin & HP)%existsb_exists.
  by rewrite (find_none _ _ Hnone r Hin) in HP.
Qed.

(** The creation of the payment of a new session, and what follows it. *)
Lemma payment_create_new userId uuid now d prog account :
  List.find (λ u, bool_decide (User.id u = userId)) (users d) = Some account →
  List.find (λ t, bool_decide (TrainingProgram.id t = TrainingProgram.id prog))
    (training_programs d) = Some prog →
  List.find (λ q, bool_decide (Payment.id q = uuid)) (payments d) = None →
  prisma.payment.create uuid userId (TrainingProgram.id prog)
    (or_zero (TrainingProgram.price prog)) "UPI" None pending_verification now d
  = let d' := set_payments (λ rows, rows ++ [new_payment uuid userId prog now]) d in
    mkRun (Return (new_payment uuid userId prog now)) d' [d'].
Proof.
  intros Hu Ht Hfresh. unfold prisma.payment.create.
  rewrite (find_none_exists_row _ _ Hfresh), (find_exists_row _ _ _ Hu),
    (find_exists_row _ _ _ Ht), or_zero_id.
  done.
Qed.

(** The run of a first payment session. *)
Lemma initiatePayment_new env userId userRole enrollmentId uuid now d e prog account :
  enrollment_of d enrollmentId userId e →
  Enrollment.status e = pending_payment →
  program_of d (Enrollment.training_id e) prog →
  List.find (λ u, bool_decide (User.id u = userId)) (users d) = Some account →
  List.find (λ q, bool_decide (Payment.user_id q = userId)
                  && bool_decide (Payment.training_id q = Enrollment.training_id e)
                  && bool_decide (Payment.status q = pending_verification)) (payments d)
  = None →
  List.find (λ q, bool_decide (Payment.id q = uuid)) (payments d) = None →
  userService.initiatePaymentForEnrollment env userId userRole enrollmentId uuid now d
  = let d' := set_payments (λ rows, rows ++ [new_payment uuid userId prog now]) d in
    mkRun
      match QRCode_toDataURL env (session_link env prog now enrollmentId) with
      | Some qr => Return (new_session env uuid enrollmentId prog now qr)
      | None => Throw (JsError "Failed to generate QR code")
      end d' [d'].
Proof.
  intros He Hst Hprog Hu Hnone Hfresh.
  assert (TrainingProgram.id prog = Enrollment.training_id e) as Hid.
  { apply find_some in Hprog as [_ Hid]. by apply bool_decide_eq_true in Hid. }
  unfold userService.initiatePaymentForEnrollment. rewrite try_rethrow.
  unfold prisma.enrollment.findFirst, prisma.trainingProgram.findFirst,
    prisma.payment.findFirst, query.
  unfold mbind at 1, M_bind at 1. rewrite He.
  unfold mbind at 1, M_bind at 1. rewrite Hprog.
  rewrite (bool_decide_eq_true_2 _ Hst). cbn [negb].
  unfold mbind at 1, M_bind at 1. rewrite Hnone. cbv zeta.
  unfold deref at 1. unfold mbind at 1, M_bind at 1, mret at 1, M_ret at 1.
  unfold mbind at 1, M_bind at 1. rewrite <-Hid in *.
  rewrite (payment_create_new userId uuid now d prog account) by done.
  cbv zeta. unfold userService.generateQRCode, session_link, new_session.
  rewrite !or_zero_id.
  destruct (QRCode_toDataURL env _) as [qr|]; simpl; done.
Qed.

(** X23. The first payment session of an enrollment.  For an enrollment of
    the caller that is 'pending_payment' and has no payment under
    verification, [initiatePaymentForEnrollment] adds exactly one payment:
    'pending_verification', for the caller and the training program of the
    enrollment, of the price of the program, by UPI, without a transaction
    reference.  The row is written before the QR code is generated and is
    not rolled back: when the QR code cannot be generated the call fails with
    'Failed to generate QR code' and the payment stays.  Otherwise the
    session it answers names that payment, the price, and a window of 300
    seconds ending five minutes after the call. *)
Theorem X23_first_session_creates_one_payment
    (env : Env) (userId : string) (userRole : Role) (enrollmentId uuid : string)
    (now : Z) (d : Db) (e : Enrollment.t) (prog : TrainingProgram.t)
    (account : User.t) :
  enrollment_of d enrollmentId userId e →
  Enrollment.status e = pending_payment →
  program_of d (Enrollment.training_id e) prog →
  List.find (λ u, bool_decide (User.id u = userId)) (users d) = Some account →
  List.find (λ q, bool_decide (Payment.user_id q = userId)
                  && bool_decide (Payment.training_id q = Enrollment.training_id e)
                  && bool_decide (Payment.status q = pending_verification)) (payments d)
  = None →
  List.find (λ q, bool_decide (Payment.id q = uuid)) (payments d) = None →
  let r := userService.initiatePaymentForEnrollment env userId userRole enrollmentId
             uuid now d in
  db_after r = set_payments (λ rows, rows ++ [new_payment uuid userId prog now]) d
  ∧ commits r = [db_after r]
  ∧ Payment.training_id (new_payment uuid userId prog now) = Enrollment.training_id e
  ∧ outcome r
    = match QRCode_toDataURL env (session_link env prog now enrollmentId) with
      | Some qr => Return (new_session env uuid enrollmentId prog now qr)
      | None => Throw (JsError "Failed to generate QR code")
      end.
Proof.
  intros He Hst Hprog Hu Hnone Hfresh r. subst r.
  rewrite (initiatePayment_new env userId userRole enrollmentId uuid now d e prog
             account) by done.
  cbv zeta. cbn [db_after commits outcome]. split_and!; try done.
  apply find_some in Hprog as [_ Hid]. by apply bool_decide_eq_true in Hid.
Qed.

Lemma find_is_Some {A} (P : A → bool) (rows : list A) (r : A) :
  In r rows → P r = true → is_Some (List.find P rows).
Proof.
  intros Hin HP. destruct (List.find P rows) eqn:Hfind; [done|].
  by rewrite (find_none _ _ Hfind r Hin) in HP.
Qed.

(** The run of a payment session that replaces an expired payment. *)
Lemma initiatePayment_replaces env userId userRole enrollmentId uuid now d e prog account p :
  enrollment_of d enrollmentId userId e →
  Enrollment.status e = pending_payment →
  program_of d (Enrollment.training_id e) prog →
  List.find (λ u, bool_decide (User.id u = userId)) (users d) = Some account →
  unresolved_payment d userId (Enrollment.training_id e) p →
  window_elapsed p now →
  List.find (λ q, bool_decide (Payment.id q = uuid)) (payments d) = None →
  userService.initiatePaymentForEnrollment env userId userRole enrollmentId uuid now d
  = let d1 := set_payments
                (update_where (λ q, bool_decide (Payment.id q = Payment.id p))
                   (λ q, Payment.set_updated_at now (Payment.set_status failed q))) d in
    let d2 := set_payments (λ rows, rows ++ [new_payment uuid userId prog now]) d1 in
    mkRun
      match QRCode_toDataURL env (session_link env prog now enrollmentId) with
      | Some qr => Return (new_session env uuid enrollmentId prog now qr)
      | None => Throw (JsError "Failed to generate QR code")
      end d2 [d1; d2].
Proof.
  intros He Hst Hprog Hu Hpay Hlate Hfresh.
  assert (TrainingProgram.id prog = Enrollment.training_id e) as Hid.
  { apply find_some in Hprog as [_ Hid]. by apply bool_decide_eq_true in Hid. }
  assert (is_Some (List.find (λ q, bool_decide (Payment.id q = Payment.id p))
                     (payments d))) as [p0 Hp0].
  { apply find_some in Hpay as [Hin _].
    apply (find_is_Some _ _ p Hin). by apply bool_decide_eq_true. }
  unfold userService.initiatePaymentForEnrollment. rewrite try_rethrow.
  unfold prisma.enrollment.findFirst, prisma.trainingProgram.findFirst,
    prisma.payment.findFirst, query.
  unfold mbind at 1, M_bind at 1. rewrite He.
  unfold mbind at 1, M_bind at 1. rewrite Hprog.
  rewrite (bool_decide_eq_true_2 _ Hst). cbn [negb].
  unfold mbind at 1, M_bind at 1. rewrite Hpay. cbv zeta.
  rewrite (bool_decide_eq_true_2 _ Hlate).
  unfold mbind at 1, M_bind at 1.
  unfold prisma.payment.update at 1. rewrite Hp0.
  unfold mbind at 1, M_bind at 1, execute at 1, mret at 1, M_ret at 1.
  unfold deref at 1. unfold mbind at 1, M_bind at 1, mret at 1, M_ret at 1.
  unfold mbind at 1, M_bind at 1. rewrite <-Hid in *.
  match goal with |- context [prisma.payment.create _ _ _ _ _ _ _ _ ?d1] =>
    rewrite (payment_create_new userId uuid now d1 prog account);
      [|done|done|cbn [payments set_payments];
                  by rewrite find_update_where_other, Hfresh]
  end.
  cbv zeta. unfold userService.generateQRCode, session_link, new_session.
  rewrite !or_zero_id.
  destruct (QRCode_toDataURL env _) as [qr|]; simpl; done.
Qed.

(** X24. A payment session that has expired is replaced in two separate
    writes, not in a transaction.  When the payment under verification of an
    enrollment is older than five minutes, [initiatePaymentForEnrollment]
    first commits that payment as 'failed' and then commits a new
    'pending_verification' payment: between the two, the enrollment has no
    payment under verification.  As for a first session, a failure to
    generate the QR code comes after both writes and undoes neither. *)
Theorem X24_expired_session_is_replaced_in_two_writes
    (env : Env) (userId : string) (userRole : Role) (enrollmentId uuid : string)
    (now : Z) (d : Db) (e : Enrollment.t) (prog : TrainingProgram.t)
    (account : User.t) (p : Payment.t) :
  enrollment_of d enrollmentId userId e →
  Enrollment.status e = pending_payment →
  program_of d (Enrollment.training_id e) prog →
  List.find (λ u, bool_decide (User.id u = userId)) (users d) = Some account →
  unresolved_payment d userId (Enrollment.training_id e) p →
  window_elapsed p now →
  List.find (λ q, bool_decide (Payment.id q = uuid)) (payments d) = None →
  let op := userService.initiatePaymentForEnrollment env userId userRole enrollmentId
              uuid now in
  let d1 := set_payments
              (update_where (λ q, bool_decide (Payment.id q = Payment.id p))
                 (λ q, Payment.set_updated_at now (Payment.set_status failed q))) d in
  let d2 := set_payments (λ rows, rows ++ [new_payment uuid userId prog now]) d1 in
  observable op d = [d; d1; d2]
  ∧ db_after (op d) = d2
  ∧ outcome (op d)
    = match QRCode_toDataURL env (session_link env prog now enrollmentId) with
      | Some qr => Return (new_session env uuid enrollmentId prog now qr)
      | None => Throw (JsError "Failed to generate QR code")
      end.
Proof.
  intros He Hst Hprog Hu Hpay Hlate Hfresh op d1 d2. subst op d1 d2. unfold observable.
  rewrite (initiatePayment_replaces env userId userRole enrollmentId uuid now d e prog
             account p) by done.
  done.
Qed.

(** * Administrator role update *)



(** * Enrollment requests *)

(** A profile update either throws and writes nothing, or writes the
    accounts only. *)
Lemma user_update_run id data now d :
  ∃ o d' cs,
    prisma.user.update id data now d = mkRun o d' cs
    ∧ match o with
      | Throw _ => d' = d ∧ cs = []
      | Return _ => ∃ f, d' = set_users f d
      end.
Proof.
  unfold prisma.user.update.
  destruct (user_data data) as [f|]; [|by eexists _, _, _].
  destruct (List.find _ (users d)); [|by eexists _, _, _].
  unfold_monad. simpl. eexists _, _, _. split; [reflexivity|]. by eexists.
Qed.

Lemma enrollment_create_run uuid user_id training_id st now d :
  ∃ o d' cs,
    prisma.enrollment.create uuid user_id training_id st now d = mkRun o d' cs
    ∧ match o with
      | Throw _ => d' = d ∧ cs = []
      | Return e =>
          e = Enrollment.mk uuid user_id training_id st now now
          ∧ d' = set_enrollments (λ rows, rows ++ [e]) d
      end.
Proof.
  unfold prisma.enrollment.create.
  destruct (exists_row _ (enrollments d)); [by eexists _, _, _|].
  destruct (_ && _); [|by eexists _, _, _].
  unfold_monad. simpl. eexists _, _, _. split; [reflexivity|]. done.
Qed.



Lemma createEnrollment_post userId userRole trainingId uuid now d :
  ∃ o d' cs,
    userService.createEnrollment userId userRole trainingId uuid now d = mkRun o d' cs
    ∧ enrollment_request_post userId trainingId uuid now d (mkRun o d' cs).
Proof.
  unfold userService.createEnrollment, try_catch.
  destruct (truthy trainingId); simpl; [|answered].
  destruct trainingId as [| | | |tid]; try answered.
  unfold mbind at 1, M_bind at 1, prisma.trainingProgram.findFirst, query.
  destruct (List.find _ (training_programs d)) as [prog|] eqn:Hprog; [|answered].
  unfold mbind at 1, M_bind at 1, prisma.enrollment.findUnique,
    prisma.enrollment.findFirst, query.
  destruct (List.find _ (enrollments d)) as [existing|]; [answered|].
  unfold mbind at 1, M_bind at 1.
  destruct (enrollment_create_run uuid userId tid pending_payment now d)
    as (o & d' & cs & -> & H).
  destruct o as [e|err].
  - destruct H as [-> ->]. simpl. eexists _, _, _. split; [reflexivity|].
    exists tid, prog. split_and!; try done. by right.
  - destruct H as [-> ->]. simpl. destruct (code_is _ err); answered.
Qed.

Lemma createEnrollmentWithDetails_post userId userRole trainingId profileData uuid now d :
  ∃ o d' cs,
    userService.createEnrollmentWithDetails userId userRole trainingId profileData
      uuid now d = mkRun o d' cs
    ∧ enrollment_request_post userId trainingId uuid now d (mkRun o d' cs).
Proof.
  unfold userService.createEnrollmentWithDetails, try_catch.
  cbv zeta.
  destruct (truthy trainingId); simpl; [|answered].
  destruct trainingId as [| | | |tid]; try answered.
  unfold mbind at 1, M_bind at 1, prisma.trainingProgram.findFirst, query.
  destruct (List.find _ (training_programs d)) as [prog|] eqn:Hprog; [|answered].
  unfold mbind at 1, M_bind at 1, prisma.enrollment.findUnique,
    prisma.enrollment.findFirst, query.
  destruct (List.find _ (enrollments d)) as [existing|] eqn:Hexisting.
  - case_bool_decide as Hst; [|answered].
    unfold mbind at 1, M_bind at 1.
    match goal with |- context [prisma.user.update userId ?data now d] =>
      destruct (user_update_run userId data now d) as (o & d' & cs & -> & H)
    end.
    destruct o as [u|err].
    + destruct H as [f ->]. simpl. eexists _, _, _. split; [reflexivity|].
      exists tid, prog.
      pose proof Hexisting as [_ [Hu Ht]%andb_true_iff]%find_some.
      apply bool_decide_eq_true in Hu, Ht. split_and!; try done. by left.
    + destruct H as [-> ->]. simpl. destruct (code_is _ err); answered.
  - unfold mbind at 1, M_bind at 1, prisma._transaction, transaction.
    unfold mbind at 1, M_bind at 1.
    match goal with |- context [prisma.user.update userId ?data now d] =>
      destruct (user_update_run userId data now d) as (o & d1 & c1 & -> & H)
    end.
    destruct o as [u|err];
      [|destruct H as [-> ->]; simpl; destruct (code_is _ err); answered].
    destruct H as [f ->].
    unfold mbind at 1, M_bind at 1.
    destruct (enrollment_create_run uuid userId tid pending_payment now (set_users f d))
      as (o & d' & cs & -> & H).
    destruct o as [e|err]; [|simpl; destruct (code_is _ err); answered].
    destruct H as [-> ->]. simpl. eexists _, _, _. split; [reflexivity|].
    exists tid, prog. split_and!; try done. by right.
Qed.

(** X26. Enrollment requests are all-or-nothing and start at
    'pending_payment'.  When [createEnrollment] or
    [createEnrollmentWithDetails] throws, the database is as it was and
    nothing was committed.  When either returns an enrollment, the training
    program named by the request exists and is active, and the enrollment is
    the caller's, for that program, with status 'pending_payment': either
    the row that was already there (only [createEnrollmentWithDetails]
    answers with it), or exactly one row added to the table.  Payments and
    training programs are not written. *)
Theorem X26_enrollment_requests_start_at_pending_payment
    (userId : string) (userRole : Role) (trainingId : JsVal)
    (profileData : ProfileData.t) (uuid : string) (now : Z) (d : Db) :
  enrollment_request_post userId trainingId uuid now d
    (userService.createEnrollment userId userRole trainingId uuid now d)
  ∧ enrollment_request_post userId trainingId uuid now d
      (userService.createEnrollmentWithDetails userId userRole trainingId profileData
         uuid now d).
Proof.
  split.
  - destruct (createEnrollment_post userId userRole trainingId uuid now d)
      as (o & d' & cs & -> & H).
    exact H.
  - destruct (createEnrollmentWithDetails_post userId userRole trainingId profileData
                uuid now d) as (o & d' & cs & -> & H).
    exact H.
Qed.

(** * From enrollment request to verified payment *)

Lemma exists_row_or {A} (P Q : A → bool) (rows : list A) :
  exists_row (λ r, P r || Q r) rows = exists_row P rows || exists_row Q rows.
Proof.
  induction rows as [|r rows IH]; simpl; [done|]. rewrite IH.
  destruct (P r), (Q r), (exists_row P rows), (exists_row Q rows); done.
Qed.

Lemma update_where_none {A} (P : A → bool) (f : A → A) (rows : list A) :
  List.find P rows = None → update_where P f rows = rows.
Proof.
  induction rows as [|r rows IH]; simpl; [done|].
  destruct (P r); [done|]. intros Hnone. by rewrite IH.
Qed.

Lemma update_where_app {A} (P : A → bool) (f : A → A) (rows1 rows2 : list A) :
  update_where P f (rows1 ++ rows2) = update_where P f rows1 ++ update_where P f rows2.
Proof. apply map_app. Qed.

Lemma find_none_and_l {A} (P Q : A → bool) (rows : list A) :
  List.find P rows = None → List.find (λ r, P r && Q r) rows = None.
Proof.
  induction rows as [|r rows IH]; simpl; [done|].
  destruct (P r); [done|]. simpl. exact IH.
Qed.

(** The run of an enrollment request that creates the enrollment. *)
Lemma createEnrollment_new userId userRole tid uuid now d prog account :
  tid ≠ EmptyString →
  active_program d tid prog →
  List.find (λ u, bool_decide (User.id u = userId)) (users d) = Some account →
  List.find (λ e, bool_decide (Enrollment.user_id e = userId)
                  && bool_decide (Enrollment.training_id e = tid)) (enrollments d)
  = None →
  List.find (λ e, bool_decide (Enrollment.id e = uuid)) (enrollments d) = None →
  userService.createEnrollment userId userRole (JsStr tid) uuid now d
  = let e := Enrollment.mk uuid userId tid pending_payment now now in
    let d' := set_enrollments (λ rows, rows ++ [e]) d in
    mkRun (Return e) d' [d'].
Proof.
  intros Htid Hprog Hu Hpair Hid.
  assert (exists_row (λ t, bool_decide (TrainingProgram.id t = tid)) (training_programs d)
          = true) as Hfk.
  { apply find_some in Hprog as [Hin [Ht _]%andb_true_iff].
    apply existsb_exists. by exists prog. }
  unfold userService.createEnrollment, try_catch. simpl.
  rewrite (bool_decide_eq_false_2 _ Htid). simpl.
  unfold mbind at 1, M_bind at 1, prisma.trainingProgram.findFirst, query.
  unfold active_program in Hprog. rewrite Hprog.
  unfold mbind at 1, M_bind at 1, prisma.enrollment.findUnique,
    prisma.enrollment.findFirst, query.
  rewrite Hpair.
  unfold mbind at 1, M_bind at 1, prisma.enrollment.create.
  rewrite exists_row_or, (find_none_exists_row _ _ Hid), (find_none_exists_row _ _ Hpair),
    (find_exists_row _ _ _ Hu), Hfk.
  done.
Qed.

(** X27. The whole path composes.  From a database in which the member
    exists, the training program is active and the member has neither an
    enrollment nor a payment under verification for it, an enrollment
    request, a payment initiation, a confirmation with a transaction
    reference inside the five-minute window and the administrator's
    verification leave the database with exactly one more enrollment,
    'enrolled', and exactly one more payment, 'verified', of the price of the
    program, carrying the reference; every other row is as it was. *)
Theorem X27_request_to_verified_payment
    (env : Env) (userId : string) (userRole : Role) (adminId : string)
    (tid uuid_e uuid_p ref : string) (now1 now2 now3 now4 : Z) (d : Db)
    (prog : TrainingProgram.t) (account : User.t) :
  tid ≠ EmptyString → ref ≠ EmptyString →
  active_program d tid prog →
  program_of d tid prog →
  List.find (λ u, bool_decide (User.id u = userId)) (users d) = Some account →
  List.find (λ e, bool_decide (Enrollment.user_id e = userId)
                  && bool_decide (Enrollment.training_id e = tid)) (enrollments d)
  = None →
  List.find (λ e, bool_decide (Enrollment.id e = uuid_e)) (enrollments d) = None →
  List.find (λ q, bool_decide (Payment.user_id q = userId)
                  && bool_decide (Payment.training_id q = tid)
                  && bool_decide (Payment.status q = pending_verification)) (payments d)
  = None →
  List.find (λ q, bool_decide (Payment.id q = uuid_p)) (payments d) = None →
  now3 - now2 < FIVE_MINUTES →
  let d1 := db_after (userService.createEnrollment userId userRole (JsStr tid) uuid_e
                        now1 d) in
  let d2 := db_after (userService.initiatePaymentForEnrollment env userId userRole
                        uuid_e uuid_p now2 d1) in
  let d3 := db_after (userService.confirmPayment userId userRole uuid_p (JsStr ref)
                        now3 d2) in
  let d4 := db_after (adminService.updatePaymentStatus adminId admin uuid_p
                        (JsStr "verified") now4 d3) in
  d4 = mkDb (users d) (training_programs d)
         (enrollments d ++ [Enrollment.mk uuid_e userId tid enrolled now1 now4])
         (payments d
          ++ [Payment.mk uuid_p userId tid (TrainingProgram.price prog) "UPI" (Some ref)
                verified now2 now4]).
Proof.
  intros Htid Href Hactive Hprog Hu Hpair Heid Hpending Hpid Hearly d1 d2 d3 d4.
  assert (TrainingProgram.id prog = tid) as Hprogid.
  { apply find_some in Hprog as [_ Hid]. by apply bool_decide_eq_true in Hid. }
  set (e := Enrollment.mk uuid_e userId tid pending_payment now1 now1).
  set (p := Payment.mk uuid_p userId tid (TrainingProgram.price prog) "UPI" None
              pending_verification now2 now2).
  set (p3 := Payment.mk uuid_p userId tid (TrainingProgram.price prog) "UPI" (Some ref)
               pending_verification now2 now3).
  (* the enrollment request *)
  assert (d1 = mkDb (users d) (training_programs d) (enrollments d ++ [e]) (payments d))
    as Hd1.
  { subst d1. by rewrite (createEnrollment_new userId userRole tid uuid_e now1 d prog
                            account). }
  clearbody d1. subst d1.
  (* the payment initiation *)
  assert (d2 = mkDb (users d) (training_programs d) (enrollments d ++ [e])
                 (payments d ++ [p])) as Hd2.
  { subst d2.
    rewrite (initiatePayment_new env userId userRole uuid_e uuid_p now2 _ e prog
               account); [by subst p; rewrite <-Hprogid| |done|done|done|done|done].
    unfold enrollment_of. cbn [enrollments].
    rewrite find_append, (find_none_and_l _ _ _ Heid). simpl.
    by rewrite !bool_decide_eq_true_2. }
  clearbody d2. subst d2.
  (* the confirmation *)
  assert (d3 = mkDb (users d) (training_programs d) (enrollments d ++ [e])
                 (payments d ++ [p3])) as Hd3.
  { subst d3.
    match goal with |- db_after (_ ?d2) = _ =>
      destruct (confirmPayment_in_window userId userRole uuid_p (JsStr ref) now3 d2 p)
        as (_ & Hd & _)
    end.
    - split; [|done]. cbn [payments]. rewrite find_append, Hpid. simpl.
      by rewrite bool_decide_eq_true_2.
    - done.
    - unfold window_elapsed. simpl. lia.
    - done.
    - rewrite Hd. unfold recorded_reference, or_null, set_payments. simpl.
      rewrite (bool_decide_eq_false_2 _ Href). simpl.
      rewrite update_where_app, (update_where_none _ _ _ Hpid). simpl.
      by rewrite bool_decide_eq_true_2. }
  clearbody d3. subst d3.
  (* the verification *)
  subst d4. unfold adminService.updatePaymentStatus. rewrite try_rethrow. simpl.
  unfold_monad. unfold prisma.payment.update. cbn [payments].
  rewrite find_append, Hpid. simpl. rewrite bool_decide_eq_true_2 by done. simpl.
  unfold set_payments, set_enrollments. simpl.
  rewrite !update_where_app, (update_where_none _ _ _ Hpid). simpl.
  rewrite !bool_decide_eq_true_2 by done. simpl.
  rewrite update_where_none; [done|].
  by apply find_none_and_l.
Qed.

Lemma X15_witness :
  prop refresh_body "refreshToken" = JsStr "asha.token"
  ∧ mentions space "asha.token" = false
  ∧ validateRefreshToken jwt_verify0 refresh_body
    = Next (RefreshTokenData.mk (JsStr "u1") (JsStr "user") (JsStr "asha@example.com")
              (JsBool false)).
Proof.
  split; [reflexivity|]. split; [reflexivity|].
  exact (X15_access_token_passes_as_refresh_token jwt_verify0 refresh_body "asha.token"
           eq_refl eq_refl).
Defined.

Lemma X18_witness :
  let d := db0 pending_payment pending_verification None in
  let r := ConfirmPayment "u1" user "p1" (JsStr "UTR1") in
  NoDup (Payment.id <$> payments d)
  ∧ member_request "u1" r = true
  ∧ ∀ i e, enrollments d !! i = Some e →
           enrollments (db_after (handle env0 20000 r d)) !! i = Some e.
Proof.
  split; [apply NoDup_singleton|]. split; [reflexivity|].
  apply (X18_member_requests_are_isolated env0 20000 "u1"
           (ConfirmPayment "u1" user "p1" (JsStr "UTR1"))
           (db0 pending_payment pending_verification None)).
  - apply NoDup_singleton.
  - reflexivity.
  - left. reflexivity.
Defined.

Lemma X19_witness :
  let d := db0 pending_payment pending_verification None in
  let d' := run_requests env0
              [(3000, Signup greedy_signup "u2");
               (4000, CreateEnrollment "u2" user (JsStr "t1") "e-000002")] d in
  NoDup (User.id <$> users d) ∧ NoDup (User.email <$> users d)
  ∧ NoDup (Enrollment.id <$> enrollments d) ∧ NoDup (Payment.id <$> payments d)
  ∧ NoDup (User.id <$> users d') ∧ NoDup (User.email <$> users d')
  ∧ NoDup (Enrollment.id <$> enrollments d') ∧ NoDup (Payment.id <$> payments d').
Proof.
  assert (NoDup (User.id <$> users (db0 pending_payment pending_verification None)))
    as H1.
  { simpl. apply NoDup_cons. split; [|apply NoDup_singleton].
    intros Hin. apply list_elem_of_singleton in Hin. discriminate Hin. }
  assert (NoDup (User.email <$> users (db0 pending_payment pending_verification None)))
    as H2.
  { simpl. apply NoDup_cons. split; [|apply NoDup_singleton].
    intros Hin. apply list_elem_of_singleton in Hin. discriminate Hin. }
  split; [exact H1|]. split; [exact H2|].
  split; [apply NoDup_singleton|]. split; [apply NoDup_singleton|].
  apply (X19_requests_keep_keys_unique env0
           [(3000, Signup greedy_signup "u2");
            (4000, CreateEnrollment "u2" user (JsStr "t1") "e-000002")]
           (db0 pending_payment pending_verification None)).
  - exact H1.
  - exact H2.
  - apply NoDup_singleton.
  - apply NoDup_singleton.
Defined.

Lemma X20_witness :
  let d := db0 enrolled verified None in
  let op := adminService.updatePaymentStatus "a1" admin "p1" (JsStr "failed") 20000 in
  List.find (λ q, bool_decide (Payment.id q = "p1"%string)) (payments d)
  = Some (p1 verified None)
  ∧ observable op d = [d; db_after (op d)].
Proof.
  split; [reflexivity|].
  apply (X20_rejection_reopens_the_enrollment "a1" admin "p1" 20000
           (db0 enrolled verified None) (p1 verified None)).
  reflexivity.
Defined.

Lemma X21_witness :
  let d := db0 enrolled verified None in
  let op := adminService.updatePaymentStatus "a1" admin "p1" (JsStr "refunded") 20000 in
  List.find (λ q, bool_decide (Payment.id q = "p1"%string)) (payments d)
  = Some (p1 verified None)
  ∧ enrollments (db_after (op d)) = enrollments d.
Proof.
  split; [reflexivity|].
  apply (X21_refund_leaves_the_enrollment "a1" admin "p1" refunded "refunded" 20000
           (db0 enrolled verified None) (p1 verified None)).
  - reflexivity.
  - left. split; reflexivity.
Defined.

Lemma X22_witness :
  let d := db0 enrolled verified None in
  let r := adminService.updatePaymentStatus "a1" admin "p9" (JsStr "verified") 20000 d in
  List.find (λ q, bool_decide (Payment.id q = "p9"%string)) (payments d) = None
  ∧ db_after r = d.
Proof.
  split; [reflexivity|].
  destruct (X22_update_of_a_missing_row_is_answered_500 "a1" admin "p9"
              (JsStr "verified") 20000 (db0 enrolled verified None)
              "Record to update not found." EmptyString) as [Hpayment _];
    [reflexivity|].
  destruct Hpayment as (Hd & _); [reflexivity..|]. exact Hd.
Defined.

Lemma X23_witness :
  let r := userService.initiatePaymentForEnrollment env0 "u1" user "e-000001" "p2"
             20000 db1 in
  enrollment_of db1 "e-000001" "u1" (e1 pending_payment)
  ∧ program_of db1 "t1" rocq101
  ∧ db_after r = set_payments (λ rows, rows ++ [new_payment "p2" "u1" rocq101 20000]) db1
  ∧ commits r = [db_after r].
Proof.
  split; [reflexivity|]. split; [reflexivity|].
  destruct (X23_first_session_creates_one_payment env0 "u1" user "e-000001" "p2" 20000
              db1 (e1 pending_payment) rocq101 asha)
    as (Hd & Hc & _); try reflexivity.
  split; [exact Hd|exact Hc].
Defined.

Lemma X24_witness :
  let d := db0 pending_payment pending_verification None in
  let op := userService.initiatePaymentForEnrollment env0 "u1" user "e-000001" "p2"
              310000 in
  unresolved_payment d "u1" "t1" (p1 pending_verification None)
  ∧ window_elapsed (p1 pending_verification None) 310000
  ∧ length (observable op d) = 3%nat.
Proof.
  assert (window_elapsed (p1 pending_verification None) 310000) as Hlate
    by (vm_compute; discriminate).
  split; [reflexivity|]. split; [exact Hlate|].
  destruct (X24_expired_session_is_replaced_in_two_writes env0 "u1" user "e-000001"
              "p2" 310000 (db0 pending_payment pending_verification None)
              (e1 pending_payment) rocq101 asha (p1 pending_verification None)
              eq_refl eq_refl eq_refl eq_refl eq_refl Hlate eq_refl) as (Hobs & _).
  rewrite Hobs. reflexivity.
Defined.


Lemma X27_witness :
  active_program db2 "t1" rocq101
  ∧ db_after
      (adminService.updatePaymentStatus "a1" admin "p2" (JsStr "verified") 50000
         (db_after
            (userService.confirmPayment "u1" user "p2" (JsStr "UTR1") 40000
               (db_after
                  (userService.initiatePaymentForEnrollment env0 "u1" user "e-000002"
                     "p2" 30000
                     (db_after
                        (userService.createEnrollment "u1" user (JsStr "t1")
                           "e-000002" 20000 db2)))))))
    = mkDb [asha; root] [rocq101; retired]
        [Enrollment.mk "e-000002" "u1" "t1" enrolled 20000 50000]
        [Payment.mk "p2" "u1" "t1" 4999 "UPI" (Some "UTR1") verified 30000 50000].
Proof.
  split; [reflexivity|].
  apply (X27_request_to_verified_payment env0 "u1" user "a1" "t1" "e-000002" "p2" "UTR1"
           20000 30000 40000 50000 db2 rocq101 asha);
    first [reflexivity | discriminate | (unfold FIVE_MINUTES; lia)].
Defined.
